(** * Instanced mesh rendering (instancing-229): a shallow embedding

    The development follows [src/instancing-229/instancing-229.cpp].
    Each module embeds one group of member functions of [VulkanExample]:

    - [Multisample]  : [getMaxUsableSampleCount], the assertion that opens
                       [setupMultisampleTarget], the order of [prepare];
    - [RenderPass]   : [setupRenderPass] and [setupFrameBuffer];
    - [Descriptors]  : [setupDescriptorPool] and [setupDescriptorSet];
    - [Commands]     : [buildCommandBuffers];
    - [Instances]    : [rnd] and [prepareInstanceData];
    - [Light]        : [render], [updateUniformBuffer] and [updateLight];
    - [Animation]    : [viewChanged] and frames with a pause flag;
    - [Assets]       : [loadAssets];
    - [Bound]        : what [vkUpdateDescriptorSets] leaves in a set;
    - [PipelineStates] : [preparePipelines];
    - [Resources]    : the Vulkan objects created by
                       [setupMultisampleTarget] and [prepareInstanceData]
                       and destroyed by the destructor.

    Conventions.  Unsigned machine integers that are only compared, masked
    or used as small counts are values of [N] or [nat]; Vulkan handles are
    opaque numbers; Vulkan enumerations are inductive types.  A C [float]
    or [double] is the real number it denotes, and every operation on
    them is followed by the rounding of its format (module [IEEE754]):
    [f32] after an operation on [float], [f64] after one on [double].
    Every Vulkan call wrapped in [VK_CHECK_RESULT] is modelled on its
    success path unless a module says otherwise. *)

From Stdlib Require Import ZArith NArith List Bool Reals Lra Lia.
From stdpp Require Import base list.
Import ListNotations.

(** Outcome of a member function that may end the process ([assert],
    [VK_CHECK_RESULT], [exitFatal]). *)
Inductive outcome (A : Type) : Type :=
| Completed (a : A)
| Aborted.
Arguments Completed {A} a.
Arguments Aborted {A}.

#[global] Instance outcome_ret : MRet outcome := fun A a => Completed a.
#[global] Instance outcome_bind : MBind outcome := fun A B k o =>
  match o with
  | Completed a => k a
  | Aborted => Aborted
  end.

(** Vulkan handles ([VkImageView], [VkBuffer], [VkPipeline], ...) are
    opaque values chosen by the driver. *)
Definition handle : Type := N.

(** The macros of lines 28-33 that the modelled functions use. *)
Definition VERTEX_BUFFER_BIND_ID : N := 0.
Definition INSTANCE_BUFFER_BIND_ID : N := 1.
Definition DESCRIPTOR_COUNT : N := 4.
Definition INSTANCE_COUNT : nat := 2048.

(** ** Sample counts *)

(** [VkSampleCountFlagBits] of vulkan.h. *)
Inductive VkSampleCountFlagBits : Type :=
| VK_SAMPLE_COUNT_1_BIT
| VK_SAMPLE_COUNT_2_BIT
| VK_SAMPLE_COUNT_4_BIT
| VK_SAMPLE_COUNT_8_BIT
| VK_SAMPLE_COUNT_16_BIT
| VK_SAMPLE_COUNT_32_BIT
| VK_SAMPLE_COUNT_64_BIT.

(** The numeric value of each enumerator (a single bit). *)
Definition sample_bits (s : VkSampleCountFlagBits) : N :=
  match s with
  | VK_SAMPLE_COUNT_1_BIT => 1
  | VK_SAMPLE_COUNT_2_BIT => 2
  | VK_SAMPLE_COUNT_4_BIT => 4
  | VK_SAMPLE_COUNT_8_BIT => 8
  | VK_SAMPLE_COUNT_16_BIT => 16
  | VK_SAMPLE_COUNT_32_BIT => 32
  | VK_SAMPLE_COUNT_64_BIT => 64
  end%N.

(** The two fields of [VkPhysicalDeviceLimits] the example reads; both are
    [VkSampleCountFlags] bit masks ([uint32_t]). *)
Record VkPhysicalDeviceLimits : Type := {
  framebufferColorSampleCounts : N;
  framebufferDepthSampleCounts : N
}.

Module Multisample.
Local Open Scope N_scope.

(** [counts & bit] used as a C condition. *)
Definition has_bit (counts : N) (s : VkSampleCountFlagBits) : bool :=
  negb (N.land counts (sample_bits s) =? 0).

(** [VulkanExample::getMaxUsableSampleCount] (lines 945-957).  [std::min]
    compares the two masks as unsigned numbers. *)
Definition getMaxUsableSampleCount (limits : VkPhysicalDeviceLimits)
  : VkSampleCountFlagBits :=
  let counts := N.min (framebufferColorSampleCounts limits)
                      (framebufferDepthSampleCounts limits) in
  if has_bit counts VK_SAMPLE_COUNT_64_BIT then VK_SAMPLE_COUNT_64_BIT else
  if has_bit counts VK_SAMPLE_COUNT_32_BIT then VK_SAMPLE_COUNT_32_BIT else
  if has_bit counts VK_SAMPLE_COUNT_16_BIT then VK_SAMPLE_COUNT_16_BIT else
  if has_bit counts VK_SAMPLE_COUNT_8_BIT then VK_SAMPLE_COUNT_8_BIT else
  if has_bit counts VK_SAMPLE_COUNT_4_BIT then VK_SAMPLE_COUNT_4_BIT else
  if has_bit counts VK_SAMPLE_COUNT_2_BIT then VK_SAMPLE_COUNT_2_BIT else
  VK_SAMPLE_COUNT_1_BIT.

(** The condition of the [assert] at line 180: both masks, read as
    numbers, are at least the sample count. *)
Definition sample_count_supported (limits : VkPhysicalDeviceLimits)
    (sampleCount : VkSampleCountFlagBits) : bool :=
  (sample_bits sampleCount <=? framebufferColorSampleCounts limits)
  && (sample_bits sampleCount <=? framebufferDepthSampleCounts limits).

(** What [setupMultisampleTarget] asks of the device for one target image
    (the fields of [VkImageCreateInfo] that differ between the two). *)
Inductive TargetKind : Type := ColorTarget | DepthTarget.

Record TargetImageInfo : Type := {
  target_kind : TargetKind;
  target_width : N;
  target_height : N;
  target_samples : VkSampleCountFlagBits;
  (* VK_IMAGE_USAGE_TRANSIENT_ATTACHMENT_BIT is set for both images *)
  target_transient : bool;
  (* memory type: lazily allocated if the device has one, else device local *)
  target_lazily_allocated : bool
}.

(** [VulkanExample::setupMultisampleTarget] (lines 177-274): the assertion,
    then the colour target, then the depth target.  [lazy] is the answer
    of [getMemoryType] for [VK_MEMORY_PROPERTY_LAZILY_ALLOCATED_BIT]. *)
Definition setupMultisampleTarget (limits : VkPhysicalDeviceLimits)
    (sampleCount : VkSampleCountFlagBits) (width height : N) (lazy : bool)
  : outcome (TargetImageInfo * TargetImageInfo) :=
  if sample_count_supported limits sampleCount then
    Completed
      ({| target_kind := ColorTarget; target_width := width;
          target_height := height; target_samples := sampleCount;
          target_transient := true; target_lazily_allocated := lazy |},
       {| target_kind := DepthTarget; target_width := width;
          target_height := height; target_samples := sampleCount;
          target_transient := true; target_lazily_allocated := lazy |})
  else Aborted.

(** The statements of [prepare] (lines 959-972), in program order. *)
Inductive PrepareStep : Type :=
| AssignSampleCount        (* sampleCount = getMaxUsableSampleCount(); *)
| BasePrepare              (* VulkanExampleBase::prepare(); *)
| LoadAssets
| PrepareInstanceData
| PrepareUniformBuffers
| SetupDescriptorSetLayout
| PreparePipelines
| SetupDescriptorPool
| SetupDescriptorSet
| BuildCommandBuffers
| SetPrepared.             (* prepared = true; *)

Definition prepare : list PrepareStep :=
  [ AssignSampleCount; BasePrepare; LoadAssets; PrepareInstanceData;
    PrepareUniformBuffers; SetupDescriptorSetLayout; PreparePipelines;
    SetupDescriptorPool; SetupDescriptorSet; BuildCommandBuffers;
    SetPrepared ].

(** [sampleCount] is a member of [VulkanExample]; of the statements of
    [prepare] only the first one assigns it. *)
Definition assigns_sampleCount (s : PrepareStep) : bool :=
  match s with AssignSampleCount => true | _ => false end.

(** Steps that create Vulkan objects (images, buffers, pipelines, pools,
    sets, command buffers). *)
Definition constructs_gpu_objects (s : PrepareStep) : bool :=
  match s with
  | AssignSampleCount | SetPrepared => false
  | _ => true
  end.

(** The largest sample count a mask advertises: its highest set bit. *)
Definition maxSampleCount (mask : N) : N :=
  if mask =? 0 then 0 else 2 ^ N.log2 mask.

(** Vulkan promises that a device supports at least one sample count
    for each kind of attachment: the mask is not empty. *)
Definition reports_a_count (mask : N) : Prop := mask <> 0.

(** [VkSampleCountFlagBits] defines the seven bits 1, 2, ..., 64. *)
Definition only_defined_bits (mask : N) : Prop := mask < 128.

End Multisample.

(** ** Render pass and frame buffers *)

Module RenderPass.
Local Open Scope N_scope.

Inductive VkAttachmentLoadOp : Type :=
| VK_ATTACHMENT_LOAD_OP_LOAD
| VK_ATTACHMENT_LOAD_OP_CLEAR
| VK_ATTACHMENT_LOAD_OP_DONT_CARE.

Inductive VkAttachmentStoreOp : Type :=
| VK_ATTACHMENT_STORE_OP_STORE
| VK_ATTACHMENT_STORE_OP_DONT_CARE.

Inductive VkImageLayout : Type :=
| VK_IMAGE_LAYOUT_UNDEFINED
| VK_IMAGE_LAYOUT_COLOR_ATTACHMENT_OPTIMAL
| VK_IMAGE_LAYOUT_DEPTH_STENCIL_ATTACHMENT_OPTIMAL
| VK_IMAGE_LAYOUT_PRESENT_SRC_KHR.

Inductive VkPipelineBindPoint : Type :=
| VK_PIPELINE_BIND_POINT_GRAPHICS
| VK_PIPELINE_BIND_POINT_COMPUTE.

(** Constants of vulkan.h used as numbers. *)
Definition VK_FORMAT_UNDEFINED : N := 0.
Definition VK_SUBPASS_EXTERNAL : N := 4294967295.
Definition VK_PIPELINE_STAGE_COLOR_ATTACHMENT_OUTPUT_BIT : N := 1024.
Definition VK_PIPELINE_STAGE_BOTTOM_OF_PIPE_BIT : N := 8192.
Definition VK_ACCESS_COLOR_ATTACHMENT_READ_BIT : N := 128.
Definition VK_ACCESS_COLOR_ATTACHMENT_WRITE_BIT : N := 256.
Definition VK_ACCESS_MEMORY_READ_BIT : N := 32768.
Definition VK_DEPENDENCY_BY_REGION_BIT : N := 1.

(** [VkAttachmentDescription].  [samples] is kept as the raw enumerator
    value, because the zero-initialised structure holds 0 there. *)
Record VkAttachmentDescription : Type := {
  format : N;
  samples : N;
  loadOp : VkAttachmentLoadOp;
  storeOp : VkAttachmentStoreOp;
  stencilLoadOp : VkAttachmentLoadOp;
  stencilStoreOp : VkAttachmentStoreOp;
  initialLayout : VkImageLayout;
  finalLayout : VkImageLayout
}.

(** [VkAttachmentDescription x = {}]. *)
Definition zero_attachment : VkAttachmentDescription :=
  {| format := VK_FORMAT_UNDEFINED; samples := 0;
     loadOp := VK_ATTACHMENT_LOAD_OP_LOAD;
     storeOp := VK_ATTACHMENT_STORE_OP_STORE;
     stencilLoadOp := VK_ATTACHMENT_LOAD_OP_LOAD;
     stencilStoreOp := VK_ATTACHMENT_STORE_OP_STORE;
     initialLayout := VK_IMAGE_LAYOUT_UNDEFINED;
     finalLayout := VK_IMAGE_LAYOUT_UNDEFINED |}.

(** Field assignments [a.f = v]. *)
Definition set_format v a := {| format := v; samples := samples a; loadOp := loadOp a; storeOp := storeOp a; stencilLoadOp := stencilLoadOp a; stencilStoreOp := stencilStoreOp a; initialLayout := initialLayout a; finalLayout := finalLayout a |}.
Definition set_samples v a := {| format := format a; samples := v; loadOp := loadOp a; storeOp := storeOp a; stencilLoadOp := stencilLoadOp a; stencilStoreOp := stencilStoreOp a; initialLayout := initialLayout a; finalLayout := finalLayout a |}.
Definition set_loadOp v a := {| format := format a; samples := samples a; loadOp := v; storeOp := storeOp a; stencilLoadOp := stencilLoadOp a; stencilStoreOp := stencilStoreOp a; initialLayout := initialLayout a; finalLayout := finalLayout a |}.
Definition set_storeOp v a := {| format := format a; samples := samples a; loadOp := loadOp a; storeOp := v; stencilLoadOp := stencilLoadOp a; stencilStoreOp := stencilStoreOp a; initialLayout := initialLayout a; finalLayout := finalLayout a |}.
Definition set_stencilLoadOp v a := {| format := format a; samples := samples a; loadOp := loadOp a; storeOp := storeOp a; stencilLoadOp := v; stencilStoreOp := stencilStoreOp a; initialLayout := initialLayout a; finalLayout := finalLayout a |}.
Definition set_stencilStoreOp v a := {| format := format a; samples := samples a; loadOp := loadOp a; storeOp := storeOp a; stencilLoadOp := stencilLoadOp a; stencilStoreOp := v; initialLayout := initialLayout a; finalLayout := finalLayout a |}.
Definition set_initialLayout v a := {| format := format a; samples := samples a; loadOp := loadOp a; storeOp := storeOp a; stencilLoadOp := stencilLoadOp a; stencilStoreOp := stencilStoreOp a; initialLayout := v; finalLayout := finalLayout a |}.
Definition set_finalLayout v a := {| format := format a; samples := samples a; loadOp := loadOp a; storeOp := storeOp a; stencilLoadOp := stencilLoadOp a; stencilStoreOp := stencilStoreOp a; initialLayout := initialLayout a; finalLayout := v |}.

(** [arr[i].f = v] on a [std::array]: the element at [i] is updated in
    place; all indices used by the source are constants below the size. *)
Definition assign {A} (i : nat) (upd : A -> A) (arr : list A) : list A :=
  alter upd i arr.

Record VkAttachmentReference : Type := {
  attachment : N;
  layout : VkImageLayout
}.

(** [VkSubpassDescription]: a pointer with a count is the list of the
    elements it addresses, a null pointer the empty list or [None]. *)
Record VkSubpassDescription : Type := {
  pipelineBindPoint : VkPipelineBindPoint;
  inputAttachmentCount : N;
  colorAttachmentCount : N;
  pColorAttachments : list VkAttachmentReference;
  pResolveAttachments : list VkAttachmentReference;
  pDepthStencilAttachment : option VkAttachmentReference;
  preserveAttachmentCount : N
}.

Record VkSubpassDependency : Type := {
  srcSubpass : N;
  dstSubpass : N;
  srcStageMask : N;
  dstStageMask : N;
  srcAccessMask : N;
  dstAccessMask : N;
  dependencyFlags : N
}.

Definition set_srcSubpass v d := {| srcSubpass := v; dstSubpass := dstSubpass d; srcStageMask := srcStageMask d; dstStageMask := dstStageMask d; srcAccessMask := srcAccessMask d; dstAccessMask := dstAccessMask d; dependencyFlags := dependencyFlags d |}.
Definition set_dstSubpass v d := {| srcSubpass := srcSubpass d; dstSubpass := v; srcStageMask := srcStageMask d; dstStageMask := dstStageMask d; srcAccessMask := srcAccessMask d; dstAccessMask := dstAccessMask d; dependencyFlags := dependencyFlags d |}.
Definition set_srcStageMask v d := {| srcSubpass := srcSubpass d; dstSubpass := dstSubpass d; srcStageMask := v; dstStageMask := dstStageMask d; srcAccessMask := srcAccessMask d; dstAccessMask := dstAccessMask d; dependencyFlags := dependencyFlags d |}.
Definition set_dstStageMask v d := {| srcSubpass := srcSubpass d; dstSubpass := dstSubpass d; srcStageMask := srcStageMask d; dstStageMask := v; srcAccessMask := srcAccessMask d; dstAccessMask := dstAccessMask d; dependencyFlags := dependencyFlags d |}.
Definition set_srcAccessMask v d := {| srcSubpass := srcSubpass d; dstSubpass := dstSubpass d; srcStageMask := srcStageMask d; dstStageMask := dstStageMask d; srcAccessMask := v; dstAccessMask := dstAccessMask d; dependencyFlags := dependencyFlags d |}.
Definition set_dstAccessMask v d := {| srcSubpass := srcSubpass d; dstSubpass := dstSubpass d; srcStageMask := srcStageMask d; dstStageMask := dstStageMask d; srcAccessMask := srcAccessMask d; dstAccessMask := v; dependencyFlags := dependencyFlags d |}.
Definition set_dependencyFlags v d := {| srcSubpass := srcSubpass d; dstSubpass := dstSubpass d; srcStageMask := srcStageMask d; dstStageMask := dstStageMask d; srcAccessMask := srcAccessMask d; dstAccessMask := dstAccessMask d; dependencyFlags := v |}.

Record VkRenderPassCreateInfo : Type := {
  attachmentCount : nat;
  pAttachments : list VkAttachmentDescription;
  subpassCount : nat;
  pSubpasses : list VkSubpassDescription;
  dependencyCount : nat;
  pDependencies : list VkSubpassDependency
}.

(** What the render pass and the frame buffers are built from: members of
    the base class and of [multisampleTarget]. *)
Record Target : Type := {
  colorFormat : N;                (* swapChain.colorFormat *)
  depthFormat : N;
  sampleCount : VkSampleCountFlagBits;
  width : N;
  height : N;
  swapChainViews : list handle;   (* swapChain.buffers[i].view *)
  depthStencilView : handle;      (* depthStencil.view *)
  msColorView : handle;           (* multisampleTarget.color.view *)
  msDepthView : handle;           (* multisampleTarget.depth.view *)
  renderPass : handle
}.

(** [VulkanExample::setupRenderPass] (lines 279-375), up to the structure
    handed to [vkCreateRenderPass].  [uninit] is the indeterminate content
    of [std::array<VkSubpassDependency, 2> dependencies] before the
    assignments. *)
Definition setupRenderPass (t : Target) (uninit : VkSubpassDependency)
  : VkRenderPassCreateInfo :=
  let attachments := replicate 4 zero_attachment in
  (* Multisampled attachment that we render to *)
  let attachments := assign 0 (set_format (colorFormat t)) attachments in
  let attachments := assign 0 (set_samples (sample_bits (sampleCount t))) attachments in
  let attachments := assign 0 (set_loadOp VK_ATTACHMENT_LOAD_OP_CLEAR) attachments in
  let attachments := assign 0 (set_storeOp VK_ATTACHMENT_STORE_OP_DONT_CARE) attachments in
  let attachments := assign 0 (set_stencilLoadOp VK_ATTACHMENT_LOAD_OP_DONT_CARE) attachments in
  let attachments := assign 0 (set_stencilStoreOp VK_ATTACHMENT_STORE_OP_DONT_CARE) attachments in
  let attachments := assign 0 (set_initialLayout VK_IMAGE_LAYOUT_UNDEFINED) attachments in
  let attachments := assign 0 (set_finalLayout VK_IMAGE_LAYOUT_COLOR_ATTACHMENT_OPTIMAL) attachments in
  (* Frame buffer attachment the multisampled image is resolved to *)
  let attachments := assign 1 (set_format (colorFormat t)) attachments in
  let attachments := assign 1 (set_samples (sample_bits VK_SAMPLE_COUNT_1_BIT)) attachments in
  let attachments := assign 1 (set_loadOp VK_ATTACHMENT_LOAD_OP_DONT_CARE) attachments in
  let attachments := assign 1 (set_storeOp VK_ATTACHMENT_STORE_OP_STORE) attachments in
  let attachments := assign 1 (set_stencilLoadOp VK_ATTACHMENT_LOAD_OP_DONT_CARE) attachments in
  let attachments := assign 1 (set_stencilStoreOp VK_ATTACHMENT_STORE_OP_DONT_CARE) attachments in
  let attachments := assign 1 (set_initialLayout VK_IMAGE_LAYOUT_UNDEFINED) attachments in
  let attachments := assign 1 (set_finalLayout VK_IMAGE_LAYOUT_PRESENT_SRC_KHR) attachments in
  (* Multisampled depth attachment we render to *)
  let attachments := assign 2 (set_format (depthFormat t)) attachments in
  let attachments := assign 2 (set_samples (sample_bits (sampleCount t))) attachments in
  let attachments := assign 2 (set_loadOp VK_ATTACHMENT_LOAD_OP_CLEAR) attachments in
  let attachments := assign 2 (set_storeOp VK_ATTACHMENT_STORE_OP_DONT_CARE) attachments in
  let attachments := assign 2 (set_stencilLoadOp VK_ATTACHMENT_LOAD_OP_DONT_CARE) attachments in
  let attachments := assign 2 (set_stencilStoreOp VK_ATTACHMENT_STORE_OP_DONT_CARE) attachments in
  let attachments := assign 2 (set_initialLayout VK_IMAGE_LAYOUT_UNDEFINED) attachments in
  let attachments := assign 2 (set_finalLayout VK_IMAGE_LAYOUT_DEPTH_STENCIL_ATTACHMENT_OPTIMAL) attachments in
  (* Depth resolve attachment *)
  let attachments := assign 3 (set_format (depthFormat t)) attachments in
  let attachments := assign 3 (set_samples (sample_bits VK_SAMPLE_COUNT_1_BIT)) attachments in
  let attachments := assign 3 (set_loadOp VK_ATTACHMENT_LOAD_OP_DONT_CARE) attachments in
  let attachments := assign 3 (set_storeOp VK_ATTACHMENT_STORE_OP_STORE) attachments in
  let attachments := assign 3 (set_stencilLoadOp VK_ATTACHMENT_LOAD_OP_DONT_CARE) attachments in
  let attachments := assign 3 (set_stencilStoreOp VK_ATTACHMENT_STORE_OP_DONT_CARE) attachments in
  let attachments := assign 3 (set_initialLayout VK_IMAGE_LAYOUT_UNDEFINED) attachments in
  let attachments := assign 3 (set_finalLayout VK_IMAGE_LAYOUT_DEPTH_STENCIL_ATTACHMENT_OPTIMAL) attachments in
  let colorReference :=
    {| attachment := 0; layout := VK_IMAGE_LAYOUT_COLOR_ATTACHMENT_OPTIMAL |} in
  let depthReference :=
    {| attachment := 2; layout := VK_IMAGE_LAYOUT_DEPTH_STENCIL_ATTACHMENT_OPTIMAL |} in
  let resolveReference :=
    {| attachment := 1; layout := VK_IMAGE_LAYOUT_COLOR_ATTACHMENT_OPTIMAL |} in
  let subpass :=
    {| pipelineBindPoint := VK_PIPELINE_BIND_POINT_GRAPHICS;
       inputAttachmentCount := 0;
       colorAttachmentCount := 1;
       pColorAttachments := [colorReference];
       pResolveAttachments := [resolveReference];
       pDepthStencilAttachment := Some depthReference;
       preserveAttachmentCount := 0 |} in
  let dependencies := replicate 2 uninit in
  let dependencies := assign 0 (set_srcSubpass VK_SUBPASS_EXTERNAL) dependencies in
  let dependencies := assign 0 (set_dstSubpass 0) dependencies in
  let dependencies := assign 0 (set_srcStageMask VK_PIPELINE_STAGE_BOTTOM_OF_PIPE_BIT) dependencies in
  let dependencies := assign 0 (set_dstStageMask VK_PIPELINE_STAGE_COLOR_ATTACHMENT_OUTPUT_BIT) dependencies in
  let dependencies := assign 0 (set_srcAccessMask VK_ACCESS_MEMORY_READ_BIT) dependencies in
  let dependencies := assign 0 (set_dstAccessMask (N.lor VK_ACCESS_COLOR_ATTACHMENT_READ_BIT VK_ACCESS_COLOR_ATTACHMENT_WRITE_BIT)) dependencies in
  let dependencies := assign 0 (set_dependencyFlags VK_DEPENDENCY_BY_REGION_BIT) dependencies in
  let dependencies := assign 1 (set_srcSubpass 0) dependencies in
  let dependencies := assign 1 (set_dstSubpass VK_SUBPASS_EXTERNAL) dependencies in
  let dependencies := assign 1 (set_srcStageMask VK_PIPELINE_STAGE_COLOR_ATTACHMENT_OUTPUT_BIT) dependencies in
  let dependencies := assign 1 (set_dstStageMask VK_PIPELINE_STAGE_BOTTOM_OF_PIPE_BIT) dependencies in
  let dependencies := assign 1 (set_srcAccessMask (N.lor VK_ACCESS_COLOR_ATTACHMENT_READ_BIT VK_ACCESS_COLOR_ATTACHMENT_WRITE_BIT)) dependencies in
  let dependencies := assign 1 (set_dstAccessMask VK_ACCESS_MEMORY_READ_BIT) dependencies in
  let dependencies := assign 1 (set_dependencyFlags VK_DEPENDENCY_BY_REGION_BIT) dependencies in
  {| attachmentCount := length attachments;
     pAttachments := attachments;
     subpassCount := 1;
     pSubpasses := [subpass];
     dependencyCount := 2;
     pDependencies := dependencies |}.

(** The attachments, subpasses and dependencies Vulkan reads from the
    structure: the first [count] elements behind each pointer. *)
Definition attachments_of (info : VkRenderPassCreateInfo) :=
  take (attachmentCount info) (pAttachments info).
Definition subpasses_of (info : VkRenderPassCreateInfo) :=
  take (subpassCount info) (pSubpasses info).
Definition dependencies_of (info : VkRenderPassCreateInfo) :=
  take (dependencyCount info) (pDependencies info).

(** A frame buffer as [vkCreateFramebuffer] sees it: the views behind
    [pAttachments] at the time of the call. *)
Record Framebuffer : Type := {
  fb_renderPass : handle;
  fb_attachments : list handle;
  fb_width : N;
  fb_height : N;
  fb_layers : N
}.

(** The loop of [setupFrameBuffer]: [attachments[1]] is overwritten with
    each swap chain view before the frame buffer is created from the same
    array. *)
Fixpoint createFramebuffers (t : Target) (attachments : list handle)
    (views : list handle) : list Framebuffer :=
  match views with
  | [] => []
  | view :: rest =>
      let attachments := <[1%nat := view]> attachments in
      {| fb_renderPass := renderPass t;
         fb_attachments := take 4 attachments;
         fb_width := width t; fb_height := height t; fb_layers := 1 |}
      :: createFramebuffers t attachments rest
  end.

(** [VulkanExample::setupFrameBuffer] (lines 380-410).  It first runs
    [setupMultisampleTarget], which may stop at its assertion; [uninit]
    is the indeterminate initial content of the local array. *)
Definition setupFrameBuffer (limits : VkPhysicalDeviceLimits) (lazy : bool)
    (t : Target) (uninit : handle) : outcome (list Framebuffer) :=
  _ ← Multisample.setupMultisampleTarget limits (sampleCount t)
        (width t) (height t) lazy;
  let attachments := replicate 4 uninit in
  let attachments := <[0%nat := msColorView t]> attachments in
  (* attachment[1] = swapchain image *)
  let attachments := <[2%nat := msDepthView t]> attachments in
  let attachments := <[3%nat := depthStencilView t]> attachments in
  mret (createFramebuffers t attachments (swapChainViews t)).

End RenderPass.

(** ** Descriptor pool and descriptor sets *)

(** [struct { ... } descriptorSets] (lines 124-129): four fields. *)
Record DescriptorSets : Type := {
  instancedRocksVkDescrSet : handle;
  planetVkDescrSet : handle;
  lightVkDescrSet : handle;
  constructVkDescrSet : handle
}.

Module Descriptors.
Local Open Scope N_scope.

Inductive VkDescriptorType : Type :=
| VK_DESCRIPTOR_TYPE_UNIFORM_BUFFER
| VK_DESCRIPTOR_TYPE_COMBINED_IMAGE_SAMPLER.

#[global] Instance VkDescriptorType_eq_dec : EqDecision VkDescriptorType.
Proof. solve_decision. Defined.

Inductive VkShaderStage : Type :=
| VK_SHADER_STAGE_VERTEX_BIT
| VK_SHADER_STAGE_FRAGMENT_BIT.

Record VkDescriptorPoolSize : Type := {
  type : VkDescriptorType;
  descriptorCount : N
}.

Record VkDescriptorPoolCreateInfo : Type := {
  poolSizeCount : nat;
  pPoolSizes : list VkDescriptorPoolSize;
  maxSets : N
}.

(** [VulkanExample::setupDescriptorPool] (lines 527-543): the structure
    handed to [vkCreateDescriptorPool]. *)
Definition setupDescriptorPool : VkDescriptorPoolCreateInfo :=
  let poolSizes :=
    [ {| type := VK_DESCRIPTOR_TYPE_UNIFORM_BUFFER;
         descriptorCount := DESCRIPTOR_COUNT |};
      {| type := VK_DESCRIPTOR_TYPE_COMBINED_IMAGE_SAMPLER;
         descriptorCount := DESCRIPTOR_COUNT |} ] in
  {| poolSizeCount := length poolSizes;
     pPoolSizes := poolSizes;
     maxSets := DESCRIPTOR_COUNT |}.

(** Modelled from the spec: the descriptor count that
    [vks::initializers::descriptorSetLayoutBinding] (not among the
    sources) gives a binding when it is called with three arguments, as
    here: each set holds one uniform-buffer descriptor and one
    image-sampler descriptor. *)
Definition default_descriptor_count : N := 1.

(** One binding of the descriptor set layout. *)
Record VkDescriptorSetLayoutBinding : Type := {
  binding : N;
  bindingType : VkDescriptorType;
  stageFlags : VkShaderStage;
  bindingCount : N
}.

(** The bindings of [setupDescriptorSetLayout] (lines 545-574). *)
Definition setLayoutBindings : list VkDescriptorSetLayoutBinding :=
  [ (* Binding 0 : Vertex shader uniform buffer *)
    {| binding := 0; bindingType := VK_DESCRIPTOR_TYPE_UNIFORM_BUFFER;
       stageFlags := VK_SHADER_STAGE_VERTEX_BIT;
       bindingCount := default_descriptor_count |};
    (* Binding 1 : Fragment shader combined sampler *)
    {| binding := 1; bindingType := VK_DESCRIPTOR_TYPE_COMBINED_IMAGE_SAMPLER;
       stageFlags := VK_SHADER_STAGE_FRAGMENT_BIT;
       bindingCount := default_descriptor_count |} ].

(** A descriptor pool as Vulkan accounts for it: the sets that may still
    be allocated, the descriptors of each type still available, the
    handles already given out ([fresh] is the driver's next handle). *)
Record DescriptorPool : Type := {
  sets_left : N;
  descriptors_left : VkDescriptorType -> N;
  allocated : list handle;
  fresh : handle
}.

Definition descriptors_of (ty : VkDescriptorType)
    (sizes : list VkDescriptorPoolSize) : N :=
  foldr (fun s acc => if decide (type s = ty) then descriptorCount s + acc else acc)
        0 sizes.

Definition needed (ty : VkDescriptorType)
    (bindings : list VkDescriptorSetLayoutBinding) : N :=
  foldr (fun b acc => if decide (bindingType b = ty) then bindingCount b + acc else acc)
        0 bindings.

(** [vkCreateDescriptorPool]. *)
Definition vkCreateDescriptorPool (info : VkDescriptorPoolCreateInfo)
    (first : handle) : DescriptorPool :=
  {| sets_left := maxSets info;
     descriptors_left := fun ty =>
       descriptors_of ty (take (poolSizeCount info) (pPoolSizes info));
     allocated := [];
     fresh := first |}.

(** [VK_CHECK_RESULT(vkAllocateDescriptorSets(...))] for one set of the
    given layout: the allocation fails, and the process stops, when the
    pool has no set or not enough descriptors left. *)
Definition vkAllocateDescriptorSets (pool : DescriptorPool)
    (bindings : list VkDescriptorSetLayoutBinding)
  : outcome (DescriptorPool * handle) :=
  if (1 <=? sets_left pool)
     && forallb (fun ty => needed ty bindings <=? descriptors_left pool ty)
          [VK_DESCRIPTOR_TYPE_UNIFORM_BUFFER;
           VK_DESCRIPTOR_TYPE_COMBINED_IMAGE_SAMPLER]
  then
    Completed
      ({| sets_left := sets_left pool - 1;
          descriptors_left := fun ty =>
            descriptors_left pool ty - needed ty bindings;
          allocated := allocated pool ++ [fresh pool];
          fresh := fresh pool + 1 |},
       fresh pool)
  else Aborted.

(** The resources the sets refer to. *)
Inductive Resource : Type :=
| SceneUniformBuffer       (* uniformBuffers.scene.descriptor *)
| RocksTex2DArr            (* textures.rocksTex2DArr.descriptor *)
| PlanetTex2D
| LightTex2D
| ConstructTex2D.

Record VkWriteDescriptorSet : Type := {
  dstSet : handle;
  descriptorType : VkDescriptorType;
  dstBinding : N;
  resource : Resource
}.

Definition writeDescriptorSets (set : handle) (texture : Resource)
  : list VkWriteDescriptorSet :=
  [ {| dstSet := set; descriptorType := VK_DESCRIPTOR_TYPE_UNIFORM_BUFFER;
       dstBinding := 0; resource := SceneUniformBuffer |};
    {| dstSet := set; descriptorType := VK_DESCRIPTOR_TYPE_COMBINED_IMAGE_SAMPLER;
       dstBinding := 1; resource := texture |} ].

(** [VulkanExample::setupDescriptorSet] (lines 576-615): the four sets,
    the pool after the allocations, and the descriptor writes issued. *)
Definition setupDescriptorSet (pool : DescriptorPool)
  : outcome (DescriptorSets * DescriptorPool * list VkWriteDescriptorSet) :=
  (* Instanced rocks *)
  '(pool, rocks) ← vkAllocateDescriptorSets pool setLayoutBindings;
  let writes := writeDescriptorSets rocks RocksTex2DArr in
  (* Planet *)
  '(pool, planet) ← vkAllocateDescriptorSets pool setLayoutBindings;
  let writes := writes ++ writeDescriptorSets planet PlanetTex2D in
  (* Light *)
  '(pool, light) ← vkAllocateDescriptorSets pool setLayoutBindings;
  let writes := writes ++ writeDescriptorSets light LightTex2D in
  (* Construct descriptor sets *)
  '(pool, construct) ← vkAllocateDescriptorSets pool setLayoutBindings;
  let writes := writes ++ writeDescriptorSets construct ConstructTex2D in
  mret ({| instancedRocksVkDescrSet := rocks;
           planetVkDescrSet := planet;
           lightVkDescrSet := light;
           constructVkDescrSet := construct |}, pool, writes).

End Descriptors.

(** ** Command buffers *)

Module Commands.
Local Open Scope N_scope.

(** [vks::Model]: the members the recorder reads. *)
Record Model : Type := {
  vertices_buffer : handle;
  indices_buffer : handle;
  indexCount : N
}.

Record Models : Type := {
  rockModel : Model;
  planetModel : Model;
  lightModel : Model;
  constructModel : Model
}.

(** [struct { ... } pipelines] (lines 115-121). *)
Record Pipelines : Type := {
  instancedRocksVkPipeline : handle;
  planetVkPipeline : handle;
  lightVkPipeline : handle;
  constructVkPipeline : handle;
  starfieldVkPipeline : handle
}.

(** The members [buildCommandBuffers] reads. *)
Record Scene : Type := {
  renderPass : handle;
  width : N;
  height : N;
  frameBuffers : list handle;
  pipelineLayout : handle;
  pipelines : Pipelines;
  descriptorSets : DescriptorSets;
  models : Models;
  instanceBuffer : handle
}.

(** The commands the example records, with the arguments of the
    corresponding [vkCmd*] call in the order of the call. *)
Inductive Cmd : Type :=
| CmdBeginRenderPass (renderPass framebuffer : handle) (w h : N)
    (clearValueCount : N)
| CmdSetViewport (firstViewport viewportCount : N) (w h : N)
| CmdSetScissor (firstScissor scissorCount : N) (w h : N)
| CmdBindDescriptorSets (layout : handle) (firstSet : N)
    (descriptorSets : list handle) (dynamicOffsets : list N)
| CmdBindPipeline (pipeline : handle)
| CmdBindVertexBuffers (firstBinding : N) (buffers : list handle)
    (offsets : list N)
| CmdBindIndexBuffer (buffer : handle) (offset : N)
| CmdDraw (vertexCount instanceCount firstVertex firstInstance : N)
| CmdDrawIndexed (indexCount instanceCount firstIndex : N)
    (vertexOffset : Z) (firstInstance : N)
| CmdEndRenderPass.

(** A command buffer is the sequence recorded into it. *)
Definition CommandBuffer : Type := list Cmd.

(** [vkBeginCommandBuffer] starts a new recording: what the buffer held
    before is discarded. *)
Definition vkBeginCommandBuffer (_ : CommandBuffer) : CommandBuffer := [].

(** The body of the loop of [buildCommandBuffers] for one command buffer
    and its frame buffer (lines 434-490). *)
Definition recordCommandBuffer (s : Scene) (framebuffer : handle)
    (cb : CommandBuffer) : CommandBuffer :=
  let offsets := [0] in
  vkBeginCommandBuffer cb ++
  [ CmdBeginRenderPass (renderPass s) framebuffer (width s) (height s) 3;
    CmdSetViewport 0 1 (width s) (height s);
    CmdSetScissor 0 1 (width s) (height s);
    (* Star field *)
    CmdBindDescriptorSets (pipelineLayout s) 0
      [planetVkDescrSet (descriptorSets s)] [];
    CmdBindPipeline (starfieldVkPipeline (pipelines s));
    CmdDraw 4 1 0 0;
    (* Planet *)
    CmdBindDescriptorSets (pipelineLayout s) 0
      [planetVkDescrSet (descriptorSets s)] [];
    CmdBindPipeline (planetVkPipeline (pipelines s));
    CmdBindVertexBuffers VERTEX_BUFFER_BIND_ID
      [vertices_buffer (planetModel (models s))] offsets;
    CmdBindIndexBuffer (indices_buffer (planetModel (models s))) 0;
    CmdDrawIndexed (indexCount (planetModel (models s))) 1 0 0 0;
    (* Light *)
    CmdBindDescriptorSets (pipelineLayout s) 0
      [lightVkDescrSet (descriptorSets s)] [];
    CmdBindPipeline (lightVkPipeline (pipelines s));
    CmdBindVertexBuffers VERTEX_BUFFER_BIND_ID
      [vertices_buffer (lightModel (models s))] offsets;
    CmdBindIndexBuffer (indices_buffer (lightModel (models s))) 0;
    CmdDrawIndexed (indexCount (lightModel (models s))) 1 0 0 0;
    (* Construct *)
    CmdBindDescriptorSets (pipelineLayout s) 0
      [constructVkDescrSet (descriptorSets s)] [];
    CmdBindPipeline (constructVkPipeline (pipelines s));
    CmdBindVertexBuffers VERTEX_BUFFER_BIND_ID
      [vertices_buffer (constructModel (models s))] offsets;
    CmdBindIndexBuffer (indices_buffer (constructModel (models s))) 0;
    CmdDrawIndexed (indexCount (constructModel (models s))) 1 0 0 0;
    (* Instanced rocks *)
    CmdBindDescriptorSets (pipelineLayout s) 0
      [instancedRocksVkDescrSet (descriptorSets s)] [];
    CmdBindPipeline (instancedRocksVkPipeline (pipelines s));
    (* Binding point 0 : Mesh vertex buffer *)
    CmdBindVertexBuffers VERTEX_BUFFER_BIND_ID
      [vertices_buffer (rockModel (models s))] offsets;
    (* Binding point 1 : Instance data buffer *)
    CmdBindVertexBuffers INSTANCE_BUFFER_BIND_ID [instanceBuffer s] offsets;
    CmdBindIndexBuffer (indices_buffer (rockModel (models s))) 0;
    (* Render instances *)
    CmdDrawIndexed (indexCount (rockModel (models s)))
      (N.of_nat INSTANCE_COUNT) 0 0 0;
    CmdEndRenderPass ].

(** The loop [for (i = 0; i < drawCmdBuffers.size(); ++i)] from index [i]
    on.  [frameBuffers[i]] is an unchecked access: beyond the end of
    [frameBuffers] the behaviour is undefined, which the model reports as
    [None]. *)
Fixpoint buildFrom (s : Scene) (i : nat) (drawCmdBuffers : list CommandBuffer)
  : option (list CommandBuffer) :=
  match drawCmdBuffers with
  | [] => Some []
  | cb :: rest =>
      framebuffer ← frameBuffers s !! i;
      rest' ← buildFrom s (S i) rest;
      Some (recordCommandBuffer s framebuffer cb :: rest')
  end.

(** [VulkanExample::buildCommandBuffers] (lines 416-492). *)
Definition buildCommandBuffers (s : Scene)
    (drawCmdBuffers : list CommandBuffer) : option (list CommandBuffer) :=
  buildFrom s 0 drawCmdBuffers.

(** *** Reading a recorded sequence *)

Definition is_draw (c : Cmd) : bool :=
  match c with
  | CmdDraw _ _ _ _ | CmdDrawIndexed _ _ _ _ _ => true
  | _ => false
  end.

(** The commands between the dynamic state and the end of the render
    pass, cut after every draw call: one segment per draw group. *)
Fixpoint segments (cur : list Cmd) (cmds : list Cmd) : list (list Cmd) :=
  match cmds with
  | [] => match cur with [] => [] | _ => [cur] end
  | c :: rest =>
      if is_draw c then (cur ++ [c]) :: segments [] rest
      else segments (cur ++ [c]) rest
  end.

Definition is_state_setup (c : Cmd) : bool :=
  match c with
  | CmdBeginRenderPass _ _ _ _ _ | CmdSetViewport _ _ _ _
  | CmdSetScissor _ _ _ _ | CmdEndRenderPass => true
  | _ => false
  end.

Definition draw_groups (cb : CommandBuffer) : list (list Cmd) :=
  segments [] (List.filter (fun c => negb (is_state_setup c)) cb).

Definition bound_pipelines (g : list Cmd) : list handle :=
  flat_map (fun c => match c with CmdBindPipeline p => [p] | _ => [] end) g.

(** Descriptor set binds of a group as (first set index, sets). *)
Definition bound_descriptor_sets (g : list Cmd) : list (N * list handle) :=
  flat_map (fun c => match c with
                     | CmdBindDescriptorSets _ first sets _ => [(first, sets)]
                     | _ => []
                     end) g.

(** Vertex buffer binds of a group as (first binding slot, buffers). *)
Definition bound_vertex_buffers (g : list Cmd) : list (N * list handle) :=
  flat_map (fun c => match c with
                     | CmdBindVertexBuffers first bufs _ => [(first, bufs)]
                     | _ => []
                     end) g.

Definition bound_index_buffers (g : list Cmd) : list handle :=
  flat_map (fun c => match c with CmdBindIndexBuffer b _ => [b] | _ => [] end) g.

Definition draws (g : list Cmd) : list Cmd := List.filter is_draw g.

(** The structure of a sequence: which commands are recorded, with the
    binding slots and the vertex and instance counts that are written as
    literals, without the handles and the sizes taken from the scene. *)
Inductive CmdKind : Type :=
| KBeginRenderPass
| KSetViewport
| KSetScissor
| KBindDescriptorSets (firstSet : N) (setCount : nat)
| KBindPipeline
| KBindVertexBuffers (firstBinding : N) (bindingCount : nat)
| KBindIndexBuffer
| KDraw (vertexCount instanceCount : N)
| KDrawIndexed (instanceCount : N)
| KEndRenderPass.

Definition kind (c : Cmd) : CmdKind :=
  match c with
  | CmdBeginRenderPass _ _ _ _ _ => KBeginRenderPass
  | CmdSetViewport _ _ _ _ => KSetViewport
  | CmdSetScissor _ _ _ _ => KSetScissor
  | CmdBindDescriptorSets _ first sets _ => KBindDescriptorSets first (length sets)
  | CmdBindPipeline _ => KBindPipeline
  | CmdBindVertexBuffers first bufs _ => KBindVertexBuffers first (length bufs)
  | CmdBindIndexBuffer _ _ => KBindIndexBuffer
  | CmdDraw vertices instances _ _ => KDraw vertices instances
  | CmdDrawIndexed _ instances _ _ _ => KDrawIndexed instances
  | CmdEndRenderPass => KEndRenderPass
  end.

Definition structure (cb : CommandBuffer) : list CmdKind := map kind cb.

(** The descriptor sets bound by the draw groups of a sequence, in
    order, as (first set index, sets). *)
Definition sets_bound_by_groups (cb : CommandBuffer) : list (N * list handle) :=
  flat_map bound_descriptor_sets (draw_groups cb).

End Commands.

(** ** Binary floating point

    The C types [float] and [double] are the IEEE 754 formats binary32 and
    binary64; every arithmetic operation, conversion and literal yields the
    value of the format that is nearest to the exact result, ties going to
    the value with an even significand.  A value of a format is a real
    number here; infinities, NaN and the sign of zero are not modelled, so
    a definition agrees with the program as long as no intermediate result
    exceeds the largest finite value of its format (about 3.4e38 for
    binary32), which holds by a wide margin for the values of this
    example. *)

Module IEEE754.
Local Open Scope R_scope.

(** A format: the number of bits of the significand and the exponent of
    the smallest subnormal number. *)
Record Format : Type := { prec : positive; emin : Z }.

Definition binary32 : Format := {| prec := 24; emin := -149 |}.
Definition binary64 : Format := {| prec := 53; emin := -1074 |}.

Definition bpow (e : Z) : R := powerRZ 2 e.

(** The magnitude of [x <> 0]: the [e] with [2^(e-1) <= |x| < 2^e]. *)
Definition mag (x : R) : Z := (Zfloor (ln (Rabs x) / ln 2) + 1)%Z.

(** The exponent of the unit in the last place of the values around
    [x]. *)
Definition cexp (f : Format) (x : R) : Z :=
  Z.max (mag x - Z.pos (prec f)) (emin f).

(** The integer nearest to [t]; halfway between two integers, the even
    one. *)
Definition ZnearestE (t : R) : Z :=
  let n := Zfloor t in
  if Rlt_dec (t - IZR n) (/ 2) then n
  else if Rlt_dec (/ 2) (t - IZR n) then (n + 1)%Z
  else if Z.even n then n else (n + 1)%Z.

(** Rounding to nearest, ties to even. *)
Definition round (f : Format) (x : R) : R :=
  IZR (ZnearestE (x * bpow (- cexp f x))) * bpow (cexp f x).

(** The values of a format. *)
Definition representable (f : Format) (x : R) : Prop :=
  exists m e : Z,
    x = IZR m * bpow e /\ (Z.abs m < 2 ^ Z.pos (prec f))%Z /\ (emin f <= e)%Z.

End IEEE754.

(** The conversions [(float) x] and [(double) x] of an exact value. *)
Definition f32 (x : R) : R := IEEE754.round IEEE754.binary32 x.
Definition f64 (x : R) : R := IEEE754.round IEEE754.binary64 x.

(** ** Vectors of glm

    The components are [float] values.  The operations are those of the
    glm headers (detail/type_vec3.inl, detail/func_geometric.inl): they
    work component by component in binary32. *)

Record vec2 : Type := mkvec2 { v0 : R; v1 : R }.
Record vec3 : Type := mkvec3 { vx : R; vy : R; vz : R }.
Record vec4 : Type := mkvec4 { wx : R; wy : R; wz : R; ww : R }.

Module Glm.
Local Open Scope R_scope.

Definition add (a b : vec3) : vec3 :=
  mkvec3 (f32 (vx a + vx b)) (f32 (vy a + vy b)) (f32 (vz a + vz b)).
Definition sub (a b : vec3) : vec3 :=
  mkvec3 (f32 (vx a - vx b)) (f32 (vy a - vy b)) (f32 (vz a - vz b)).
Definition neg (a : vec3) : vec3 := mkvec3 (- vx a) (- vy a) (- vz a).
Definition scale (a : vec3) (s : R) : vec3 :=
  mkvec3 (f32 (vx a * s)) (f32 (vy a * s)) (f32 (vz a * s)).
Definition divide (a : vec3) (s : R) : vec3 :=
  mkvec3 (f32 (vx a / s)) (f32 (vy a / s)) (f32 (vz a / s)).
(** [glm::dot]: the three products, summed from the left. *)
Definition dot (a b : vec3) : R :=
  f32 (f32 (f32 (vx a * vx b) + f32 (vy a * vy b)) + f32 (vz a * vz b)).
Definition length (a : vec3) : R := f32 (sqrt (dot a a)).
(** [glm::distance (p0, p1)] is [length (p1 - p0)]. *)
Definition distance (p0 p1 : vec3) : R := length (sub p1 p0).
Definition inversesqrt (x : R) : R := f32 (1 / f32 (sqrt x)).
Definition normalize (a : vec3) : vec3 := scale a (inversesqrt (dot a a)).

End Glm.

(** ** Instance placement *)

Module Instances.
Local Open Scope R_scope.

(** [struct InstanceData] (lines 79-84). *)
Record InstanceData : Type := {
  pos : vec3;
  rot : vec3;
  scale : R;
  texIndex : Z
}.

(** The value [std::vector::resize] gives a new element: every member
    zero. *)
Definition zero_InstanceData : InstanceData :=
  {| pos := mkvec3 0 0 0; rot := mkvec3 0 0 0; scale := 0; texIndex := 0 |}.

(** *** Size of a record in memory

    The layout rule of C for a structure: each member at the next offset
    that is a multiple of its alignment, the size rounded up to the
    alignment of the structure. *)
Record CType : Type := { size_of : N; align_of : N }.

Definition round_up (n a : N) : N := ((n + a - 1) / a * a)%N.

Fixpoint member_offsets (offset : N) (members : list CType) : list N :=
  match members with
  | [] => []
  | m :: rest =>
      let o := round_up offset (align_of m) in
      o :: member_offsets (o + size_of m)%N rest
  end.

Fixpoint members_end (offset : N) (members : list CType) : N :=
  match members with
  | [] => offset
  | m :: rest => members_end (round_up offset (align_of m) + size_of m)%N rest
  end.

Definition struct_of (members : list CType) : CType :=
  let a := foldr (fun m acc => N.max (align_of m) acc) 1%N members in
  {| size_of := round_up (members_end 0 members) a; align_of := a |}.

Definition c_float : CType := {| size_of := 4; align_of := 4 |}.
Definition c_uint32_t : CType := {| size_of := 4; align_of := 4 |}.
Definition glm_vec3 : CType := struct_of [c_float; c_float; c_float].

Definition InstanceData_members : list CType :=
  [glm_vec3; glm_vec3; c_float; c_uint32_t].

(** [sizeof(InstanceData)]. *)
Definition sizeof_InstanceData : N := size_of (struct_of InstanceData_members).

(** *** Random sources

    [uniformDist n] is the value of the [n]-th evaluation of
    [uniformDist(rndGenerator)] (a [std::uniform_real_distribution<float>]
    on [0, 1) over a [std::mt19937] seeded with the time), [rand n] the
    value of the [n]-th call of the C function [rand()], [RAND_MAX] the
    constant of the C library. *)
Record RandomSource : Type := {
  uniformDist : nat -> R;
  RAND_MAX : Z;
  rand : nat -> Z
}.

(** What the C++ and C standards promise of the two sources: the draws
    are [float] values of [0, 1), [rand()] is an [int] between 0 and
    [RAND_MAX]. *)
Record well_formed (src : RandomSource) : Prop := {
  uniform_float : forall n, IEEE754.representable IEEE754.binary32 (uniformDist src n);
  uniform_range : forall n, 0 <= uniformDist src n < 1;
  rand_max_pos : (0 < RAND_MAX src)%Z;
  rand_range : forall n, (0 <= rand src n <= RAND_MAX src)%Z
}.

(** *** What the source leaves to the implementation

    The calls [pow], [sqrt], [cos] and [sin] of lines 803 and 806 are
    unqualified and their arguments are [float]: with the overloads of
    <cmath> in the global namespace they are evaluated in binary32, with
    the C functions of <math.h> alone in binary64.  The values [cos] and
    [sin] return are those of the C library, which need not be the
    correctly rounded ones.  The three draws of line 807 are arguments of
    one call and the two draws of line 808 operands of one expression:
    the order in which they are taken is unspecified. *)
Inductive MathFunctions : Type :=
| FloatOverloads
| DoubleFunctions.

Record Platform : Type := {
  math : MathFunctions;
  libm_cos : R -> R;
  libm_sin : R -> R;
  (* line 807: the argument at position 0, 1, 2 receives the draw number
     [rot_draw] of the three *)
  rot_draw : nat -> nat;
  (* line 808: the right operand of the subtraction is evaluated before
     the left one *)
  scale_right_first : bool
}.


Definition format_of (m : MathFunctions) : IEEE754.Format :=
  match m with
  | FloatOverloads => IEEE754.binary32
  | DoubleFunctions => IEEE754.binary64
  end.

Definition math_format (pf : Platform) : IEEE754.Format := format_of (math pf).

(** The rounding of a result of [pow], [sqrt] or of the arithmetic on
    such results. *)
Definition fm (pf : Platform) (x : R) : R := IEEE754.round (math_format pf) x.

(** An implementation that evaluates arguments and operands from left to
    right and whose [cos] and [sin] are correctly rounded. *)
Definition left_to_right (m : MathFunctions) : Platform :=
  {| math := m;
     libm_cos := fun x => IEEE754.round (format_of m) (cos x);
     libm_sin := fun x => IEEE754.round (format_of m) (sin x);
     rot_draw := fun i => i;
     scale_right_first := false |}.

(** [M_PI] of <math.h>, a [double]. *)
Definition M_PI : R := f64 3.14159265358979323846.

(** [float rnd(float range)] (lines 769-772), for the [n]-th call of
    [rand()]: the quotient and the product are [double], the result is
    converted to [float]. *)
Definition rnd (src : RandomSource) (n : nat) (range : R) : R :=
  f32 (f64 (f64 range * f64 (f64 (IZR (rand src n)) / f64 (IZR (RAND_MAX src))))).

(** Conversion of a [float] to [uint32_t]: the fractional part is
    discarded.  (Outside of the range of [uint32_t] the conversion is
    undefined; the values here are within it.) *)
Definition uint32_of_float (v : R) : Z :=
  if Rle_dec 0 v then Int_part v else (- Int_part (- v))%Z.

(** [pow(x, 2.0f)]: the square, rounded (exact whenever the square is a
    value of the format, as it is for the configured rings). *)
Definition pow2 (pf : Platform) (x : R) : R := fm pf (x ^ 2).

(** The radius drawn for a ring (line 803), stored in the [float]
    [rho]. *)
Definition ring_radius (pf : Platform) (ring : vec2) (U : R) : R :=
  f32 (fm pf (sqrt (fm pf (fm pf (fm pf (pow2 pf (v1 ring) - pow2 pf (v0 ring)) * U)
                           + pow2 pf (v0 ring))))).

(** The scale after lines 808 and 810, from the draw of the left and of
    the right operand. *)
Definition instance_scale (U1 U2 : R) : R :=
  f32 (f32 (f32 (f32 1.5 + U1) - U2) * f32 0.75).

(** The record written by one pass through the inner loop body (lines
    803-810) for the ring [ring], when [nu] evaluations of [uniformDist]
    and [nr] calls of [rand] came before. *)
Definition make_instance (pf : Platform) (src : RandomSource) (layerCount : N)
    (ring : vec2) (nu nr : nat) : InstanceData :=
  let U := fun k => uniformDist src (nu + k) in
  let rho := ring_radius pf ring (U 0%nat) in
  let theta := f32 (f64 (f64 (2 * M_PI) * U 1%nat)) in
  let left := if scale_right_first pf then 7%nat else 6%nat in
  let right := if scale_right_first pf then 6%nat else 7%nat in
  {| pos := mkvec3 (f32 (fm pf (rho * libm_cos pf theta)))
                   (f32 (f32 (U 2%nat * f32 0.05) - f32 0.25))
                   (f32 (fm pf (rho * libm_sin pf theta)));
     rot := mkvec3 (f32 (f64 (M_PI * U (3 + rot_draw pf 0)%nat)))
                   (f32 (f64 (M_PI * U (3 + rot_draw pf 1)%nat)))
                   (f32 (f64 (M_PI * U (3 + rot_draw pf 2)%nat)));
     scale := instance_scale (U left) (U right);
     texIndex := uint32_of_float
                   (rnd src nr (f32 (IZR (Z.of_N layerCount)))) |}.

(** State of the generator: the vector, the number of draws taken from
    each source, and (for the proofs only) the indices assigned so far, in
    the order of the assignments. *)
Record Gen : Type := {
  instanceData : list InstanceData;
  uniformCalls : nat;
  randCalls : nat;
  written : list nat
}.

(** The statements of the loop body that compute the record (lines
    803-810): from the ring and the numbers of draws taken before. *)
Definition Body : Type := vec2 -> nat -> nat -> InstanceData.

(** One pass through the body of the inner loop.  [rings.at(ringId)]
    throws beyond the end of [rings]; [instanceData[instanceId]] is
    unchecked and undefined beyond the end of the vector: both are
    reported as [None]. *)
Definition fill_instance (body : Body)
    (rings : list vec2) (numInChunk instIdInChunk ringId : nat) (g : Gen)
  : option Gen :=
  let instanceId := (instIdInChunk + ringId * numInChunk)%nat in
  ring ← rings !! ringId;
  _ ← instanceData g !! instanceId;
  Some {| instanceData :=
            <[instanceId := body ring (uniformCalls g) (randCalls g)]>
              (instanceData g);
          uniformCalls := uniformCalls g + 8;
          randCalls := randCalls g + 1;
          written := written g ++ [instanceId] |}.

(** [for (i = from; i < from + count; i++) body]. *)
Fixpoint for_loop {S : Type} (body : nat -> S -> option S)
    (from count : nat) (s : S) : option S :=
  match count with
  | O => Some s
  | Datatypes.S n => s' ← body from s; for_loop body (Datatypes.S from) n s'
  end.

(** The generator (lines 776-812) for [count] instances.  With no ring
    the division at line 793 is undefined. *)
Definition generate (body : Body) (count : nat) (rings : list vec2)
  : option Gen :=
  let instanceData := replicate count zero_InstanceData in
  let numOfChunks := List.length rings in
  if decide (numOfChunks = 0%nat) then None else
  let numInChunk := (count / numOfChunks)%nat in
  for_loop
    (fun instIdInChunk =>
       for_loop (fill_instance body rings numInChunk instIdInChunk)
                0 numOfChunks)
    0 numInChunk
    {| instanceData := instanceData; uniformCalls := 0; randCalls := 0;
       written := [] |}.

(** *** The passes of the loop body

    Passes are counted from 0 in the order in which they run.  With [K]
    rings and chunks of [count / K] instances, pass [t] belongs to
    [instIdInChunk = t / K] and [ringId = t mod K]. *)

(** The flat index assigned by pass number [t]. *)
Definition flat_index (count : nat) (rings : list vec2) (t : nat) : nat :=
  (t / List.length rings
   + (t mod List.length rings) * (count / List.length rings))%nat.

(** The record written by pass number [t]. *)
Definition record_of_pass (body : Body) (rings : list vec2) (t : nat)
  : option InstanceData :=
  ring ← rings !! (t mod List.length rings)%nat;
  Some (body ring (8 * t)%nat t).

(** The state of the generator after the first [t] passes. *)
Record after_passes (body : Body) (count : nat)
    (rings : list vec2) (t : nat) (g : Gen) : Prop := {
  ap_length : List.length (instanceData g) = count;
  ap_uniform : uniformCalls g = (8 * t)%nat;
  ap_rand : randCalls g = t;
  ap_written : written g = map (flat_index count rings) (seq 0 t);
  ap_records : forall t', (t' < t)%nat ->
    instanceData g !! flat_index count rings t'
      = record_of_pass body rings t' /\
    is_Some (record_of_pass body rings t');
  ap_untouched : forall i, (i < count)%nat ->
    (forall t', (t' < t)%nat -> flat_index count rings t' <> i) ->
    instanceData g !! i = Some zero_InstanceData
}.

(** A source whose draws are all the same: every [uniformDist] is [u],
    every [rand()] is [r]. *)
Definition constant_source (u : R) (rand_max r : Z) : RandomSource :=
  {| uniformDist := fun _ => u; RAND_MAX := rand_max; rand := fun _ => r |}.

(** [RAND_MAX] of the GNU C library. *)
Definition glibc_RAND_MAX : Z := 2147483647.

Definition rings : list vec2 :=
  [ mkvec2 5 7; mkvec2 8 11; mkvec2 13 17;
    mkvec2 20 26; mkvec2 30 40; mkvec2 48 60 ].


(** A source whose uniform draws repeat with the eight draws of a pass. *)
Definition periodic_source (draws : list R) (rand_max r : Z) : RandomSource :=
  {| uniformDist := fun n => nth (n mod 8) draws 0;
     RAND_MAX := rand_max; rand := fun _ => r |}.

(** The sizes used by the upload (lines 814-854). *)
Record Upload : Type := {
  instanceBuffer_size : N;     (* instanceBuffer.size *)
  staging_size : N;            (* size of the host visible staging buffer *)
  device_size : N;             (* size of the device local buffer *)
  copy_size : N;               (* copyRegion.size *)
  descriptor_range : N         (* instanceBuffer.descriptor.range *)
}.

(** [VulkanExample::prepareInstanceData] (lines 774-861): the generated
    vector with the sizes of the buffers it is uploaded through. *)
Definition prepareInstanceData (pf : Platform) (src : RandomSource)
    (layerCount : N) : option (Gen * Upload) :=
  g ← generate (make_instance pf src layerCount) INSTANCE_COUNT rings;
  let size := (N.of_nat (List.length (instanceData g)) * sizeof_InstanceData)%N in
  Some (g, {| instanceBuffer_size := size;
              staging_size := size;
              device_size := size;
              copy_size := size;
              descriptor_range := size |}).

End Instances.

(** ** Light and animation state *)

Module Light.
Local Open Scope R_scope.

(** The macro is the [int] 70; in [LIGHT_INTENSITY*k] it is converted to
    [float]. *)
Definition LIGHT_INTENSITY : R := 70.

(** The members [render], [updateUniformBuffer] and [updateLight] read
    and write: the timer and flags of the base class, the animated part
    of [uboVS], and the [static] locals of [updateLight] that change
    between calls.  (The matrices and the camera position of [uboVS] are
    written only when the view changes and are left out.)  All numbers
    are [float] values. *)
Record State : Type := {
  frameTimer : R;
  paused : bool;
  prepared : bool;
  lightPos : vec4;
  lightInt : R;
  locSpeed : R;
  globSpeed : R;
  (* static locals of updateLight *)
  pi : vec3;
  vi : vec3;
  ai : vec3;
  fi : vec3
}.

(** The state when the object is constructed: the member initialisers of
    [UBOVS] (lines 100-108) and of the [static] locals (lines 882-886). *)
Definition initial (frameTimer : R) (paused prepared : bool) : State :=
  {| frameTimer := frameTimer; paused := paused; prepared := prepared;
     lightPos := mkvec4 (f32 (f32 0.707 * 28)) (-3) (f32 (- f32 0.707 * 28)) 1;
     lightInt := 0; locSpeed := 0; globSpeed := 0;
     pi := mkvec3 45 0 10;
     vi := mkvec3 (-1) (f32 (-0.3)) 1;
     ai := mkvec3 0 0 0;
     fi := mkvec3 0 0 0 |}.

(** The [static] locals that are never assigned. *)
Definition G : R := 2.5.
Definition mi : R := 10.
Definition mp : R := 100.
Definition pp : vec3 := mkvec3 0 0 0.

(** The smoothing factor [k] of line 895 for the frame time [dt]. *)
Definition smoothing (dt : R) : R := f32 (f32 0.25 * dt).

(** Line 896: the intensity after a step with the factor [k]. *)
Definition smooth (k x : R) : R :=
  f32 (f32 (LIGHT_INTENSITY * k) + f32 (x * f32 (1 - k))).

(** [VulkanExample::updateLight] (lines 877-898).  Every operation is
    rounded on its own (no fused multiply-add). *)
Definition updateLight (st : State) : State :=
  let r := Glm.distance (pi st) pp in
  let dirVec := Glm.normalize (Glm.sub (pi st) pp) in
  let fi := Glm.divide
              (Glm.scale (Glm.scale (Glm.scale (Glm.neg dirVec) G) mp) mi)
              (f32 (r * r)) in
  let ai := Glm.divide fi mi in
  let vi := Glm.add (vi st) (Glm.scale ai (frameTimer st)) in
  let pi := Glm.add (pi st) (Glm.scale vi (frameTimer st)) in
  let k := smoothing (frameTimer st) in
  {| frameTimer := frameTimer st; paused := paused st;
     prepared := prepared st;
     lightPos := mkvec4 (vx pi) (vy pi) (vz pi) 1;
     lightInt := smooth k (lightInt st);
     locSpeed := locSpeed st; globSpeed := globSpeed st;
     pi := pi; vi := vi; ai := ai; fi := fi |}.

(** [VulkanExample::updateUniformBuffer] (lines 900-928).  With
    [viewChanged] only the matrices and the camera position are
    recomputed, which are not part of [State]. *)
Definition updateUniformBuffer (viewChanged : bool) (st : State) : State :=
  if negb (paused st) then
    updateLight
      {| frameTimer := frameTimer st; paused := paused st;
         prepared := prepared st; lightPos := lightPos st;
         lightInt := lightInt st;
         locSpeed := f32 (locSpeed st + f32 (frameTimer st * f32 0.35));
         globSpeed := f32 (globSpeed st + f32 (frameTimer st * f32 0.01));
         pi := pi st; vi := vi st; ai := ai st; fi := fi st |}
  else st.

Definition set_frameTimer (t : R) (st : State) : State :=
  {| frameTimer := t; paused := paused st; prepared := prepared st;
     lightPos := lightPos st; lightInt := lightInt st;
     locSpeed := locSpeed st; globSpeed := globSpeed st;
     pi := pi st; vi := vi st; ai := ai st; fi := fi st |}.


Definition set_prepared (p : bool) (st : State) : State :=
  {| frameTimer := frameTimer st; paused := paused st; prepared := p;
     lightPos := lightPos st; lightInt := lightInt st;
     locSpeed := locSpeed st; globSpeed := globSpeed st;
     pi := pi st; vi := vi st; ai := ai st; fi := fi st |}.

(** What [VulkanExample::prepare] (lines 959-972) does to this state:
    [prepareUniformBuffers] calls [updateUniformBuffer(true)], the last
    statement sets [prepared]. *)
Definition prepare (st : State) : State :=
  set_prepared true (updateUniformBuffer true st).

(** [VulkanExample::render] (lines 974-988); [draw()] does not touch the
    modelled state. *)
Definition render (st : State) : State :=
  let st := if Rlt_dec (f32 0.1) (frameTimer st)
            then set_frameTimer (f32 0.1) st else st in
  if negb (prepared st) then st
  else if negb (paused st) then updateUniformBuffer false st
  else st.

(** Modelled from the spec: one frame of the application shell (the base
    class, not among the sources), which supplies the frame time in
    [frameTimer] and then calls [render]. *)
Definition frame (dt : R) (st : State) : State :=
  render (set_frameTimer dt st).


End Light.

(** ** Frames and pauses *)

Module Animation.
Local Open Scope R_scope.

(** [VulkanExample::viewChanged] (lines 990-993). *)
Definition viewChanged (st : Light.State) : Light.State :=
  Light.updateUniformBuffer true st.

(** Modelled from the spec: what the application shell (the base class,
    not among the sources) supplies for one frame, a frame time and the
    pause flag. *)
Record FrameInput : Type := {
  frameTime : R;
  pauseFlag : bool
}.

Definition set_paused (p : bool) (st : Light.State) : Light.State :=
  {| Light.frameTimer := Light.frameTimer st; Light.paused := p;
     Light.prepared := Light.prepared st; Light.lightPos := Light.lightPos st;
     Light.lightInt := Light.lightInt st; Light.locSpeed := Light.locSpeed st;
     Light.globSpeed := Light.globSpeed st;
     Light.pi := Light.pi st; Light.vi := Light.vi st;
     Light.ai := Light.ai st; Light.fi := Light.fi st |}.

(** One frame with its input, and a sequence of frames. *)
Definition step (input : FrameInput) (st : Light.State) : Light.State :=
  Light.frame (frameTime input) (set_paused (pauseFlag input) st).

Definition run (inputs : list FrameInput) (st : Light.State) : Light.State :=
  fold_left (fun st input => step input st) inputs st.

(** The frame time [render] works with (line 977). *)
Definition clamped (dt : R) : R := if Rlt_dec (f32 0.1) dt then f32 0.1 else dt.

End Animation.

From Stdlib Require String.

(** ** Assets *)

Module Assets.
Import String.
Local Open Scope string_scope.
Local Open Scope R_scope.

Definition PLANET_SCALE : R := f32 2.5.
Definition LIGHT_SCALE : R := f32 0.025.
Definition CONSTRUCT_SCALE : R := f32 24.
Definition INSTANCE_SCALE : R := f32 0.15.

(** [vulkanDevice->features]: the members [loadAssets] reads. *)
Record VkPhysicalDeviceFeatures : Type := {
  textureCompressionBC : bool;
  textureCompressionASTC_LDR : bool;
  textureCompressionETC2 : bool
}.

Inductive VkFormat : Type :=
| VK_FORMAT_BC3_UNORM_BLOCK
| VK_FORMAT_ASTC_8x8_UNORM_BLOCK
| VK_FORMAT_ETC2_R8G8B8_UNORM_BLOCK.

(** The device feature that makes a compressed format usable. *)
Definition supported (features : VkPhysicalDeviceFeatures) (format : VkFormat)
  : bool :=
  match format with
  | VK_FORMAT_BC3_UNORM_BLOCK => textureCompressionBC features
  | VK_FORMAT_ASTC_8x8_UNORM_BLOCK => textureCompressionASTC_LDR features
  | VK_FORMAT_ETC2_R8G8B8_UNORM_BLOCK => textureCompressionETC2 features
  end.

(** The fields of [models] (lines 71-76). *)
Inductive ModelField : Type :=
| RockModel
| PlanetModel
| LightModel
| ConstructModel.

(** One call of [vks::Model::loadFromFile]: the field loaded, the file
    and the scale. *)
Record ModelLoad : Type := {
  model : ModelField;
  model_file : string;
  model_scale : R
}.

(** One call of [loadFromFile] on a field of [textures]: the field (named
    as the descriptor writes name it), the file and the format the
    loader is told. *)
Record TextureLoad : Type := {
  texture : Descriptors.Resource;
  texture_file : string;
  texture_format : VkFormat
}.

(** [VulkanExample::loadAssets] (lines 494-525): the loads requested, in
    program order.  [assetPath] is the answer of [getAssetPath()];
    [vks::tools::exitFatal] ends the process. *)
Definition loadAssets (assetPath : string)
    (features : VkPhysicalDeviceFeatures)
  : outcome (list ModelLoad * list TextureLoad) :=
  let models :=
    [ {| model := RockModel; model_file := assetPath ++ "models/rock01.dae";
         model_scale := INSTANCE_SCALE |};
      {| model := PlanetModel;
         model_file := assetPath ++ "models/sphere_nonideal.obj";
         model_scale := PLANET_SCALE |};
      {| model := LightModel; model_file := assetPath ++ "models/sphere.obj";
         model_scale := LIGHT_SCALE |};
      {| model := ConstructModel;
         model_file := assetPath ++ "models/cage_construct.obj";
         model_scale := CONSTRUCT_SCALE |} ] in
  (* Get supported compressed texture format *)
  '(texFormatSuffix, texFormat) ←
    (if textureCompressionBC features then
       Completed ("_bc3_unorm", VK_FORMAT_BC3_UNORM_BLOCK)
     else if textureCompressionASTC_LDR features then
       Completed ("_astc_8x8_unorm", VK_FORMAT_ASTC_8x8_UNORM_BLOCK)
     else if textureCompressionETC2 features then
       Completed ("_etc2_unorm", VK_FORMAT_ETC2_R8G8B8_UNORM_BLOCK)
     else Aborted);
  mret
    (models,
     [ {| texture := Descriptors.RocksTex2DArr;
          texture_file :=
            assetPath ++ "textures/texturearray_rocks" ++ texFormatSuffix ++ ".ktx";
          texture_format := texFormat |};
       {| texture := Descriptors.PlanetTex2D;
          texture_file :=
            assetPath ++ "textures/lava_from_gimp_planet_bc3_unorm.dds";
          texture_format := VK_FORMAT_BC3_UNORM_BLOCK |};
       {| texture := Descriptors.LightTex2D;
          texture_file :=
            assetPath ++ "textures/lava_from_gimp_light_bc3_unorm.dds";
          texture_format := VK_FORMAT_BC3_UNORM_BLOCK |};
       {| texture := Descriptors.ConstructTex2D;
          texture_file :=
            assetPath ++ "textures/lava_from_gimp_planet_bc3_unorm.dds";
          texture_format := VK_FORMAT_BC3_UNORM_BLOCK |} ]).

End Assets.

(** ** What a bound descriptor set holds *)

Module Bound.
Import Descriptors.
Local Open Scope N_scope.

(** [vkUpdateDescriptorSets] applies the writes in order: a binding of a
    set holds what the last write to it put there, and nothing defined
    when no write names it. *)
Definition descriptor_at (writes : list VkWriteDescriptorSet)
    (set : handle) (b : N) : option (VkDescriptorType * Resource) :=
  last (flat_map (fun w => if (dstSet w =? set) && (dstBinding w =? b)
                           then [(descriptorType w, resource w)] else [])
                 writes).

(** The contents of the two bindings of the layout, for every descriptor
    set the draw groups of a recorded sequence bind, in order. *)
Definition seen_by_groups (writes : list VkWriteDescriptorSet)
    (cb : Commands.CommandBuffer)
  : list (option (VkDescriptorType * Resource)
          * option (VkDescriptorType * Resource)) :=
  flat_map (fun '(first, sets) =>
              map (fun set => (descriptor_at writes set 0,
                               descriptor_at writes set 1)) sets)
           (Commands.sets_bound_by_groups cb).

End Bound.

(** ** Graphics pipelines *)

Module PipelineStates.
Import String.
Local Open Scope string_scope.
Local Open Scope N_scope.

Inductive VkPrimitiveTopology : Type :=
| VK_PRIMITIVE_TOPOLOGY_POINT_LIST
| VK_PRIMITIVE_TOPOLOGY_LINE_LIST
| VK_PRIMITIVE_TOPOLOGY_TRIANGLE_LIST
| VK_PRIMITIVE_TOPOLOGY_TRIANGLE_STRIP.

Inductive VkPolygonMode : Type :=
| VK_POLYGON_MODE_FILL
| VK_POLYGON_MODE_LINE
| VK_POLYGON_MODE_POINT.

Inductive VkCullMode : Type :=
| VK_CULL_MODE_NONE
| VK_CULL_MODE_FRONT_BIT
| VK_CULL_MODE_BACK_BIT.

Inductive VkFrontFace : Type :=
| VK_FRONT_FACE_COUNTER_CLOCKWISE
| VK_FRONT_FACE_CLOCKWISE.

Inductive VkCompareOp : Type :=
| VK_COMPARE_OP_NEVER
| VK_COMPARE_OP_LESS
| VK_COMPARE_OP_LESS_OR_EQUAL
| VK_COMPARE_OP_ALWAYS.

Inductive VkDynamicState : Type :=
| VK_DYNAMIC_STATE_VIEWPORT
| VK_DYNAMIC_STATE_SCISSOR
| VK_DYNAMIC_STATE_LINE_WIDTH.

Inductive VkVertexInputRate : Type :=
| VK_VERTEX_INPUT_RATE_VERTEX
| VK_VERTEX_INPUT_RATE_INSTANCE.

(** The formats of the vertex attributes. *)
Inductive VkFormat : Type :=
| VK_FORMAT_R32_SFLOAT
| VK_FORMAT_R32_SINT
| VK_FORMAT_R32G32_SFLOAT
| VK_FORMAT_R32G32B32_SFLOAT.

(** The bytes one attribute of a format takes: 32 bits for each
    component. *)
Definition format_size (f : VkFormat) : N :=
  match f with
  | VK_FORMAT_R32_SFLOAT | VK_FORMAT_R32_SINT => 4
  | VK_FORMAT_R32G32_SFLOAT => 8
  | VK_FORMAT_R32G32B32_SFLOAT => 12
  end.

Record VkPipelineInputAssemblyStateCreateInfo : Type := {
  topology : VkPrimitiveTopology;
  primitiveRestartEnable : bool
}.

Record VkPipelineRasterizationStateCreateInfo : Type := {
  polygonMode : VkPolygonMode;
  cullMode : VkCullMode;
  frontFace : VkFrontFace
}.

Record VkPipelineColorBlendAttachmentState : Type := {
  colorWriteMask : N;
  blendEnable : bool
}.

Record VkPipelineColorBlendStateCreateInfo : Type := {
  blend_attachmentCount : N;
  blend_pAttachments : list VkPipelineColorBlendAttachmentState
}.

Record VkPipelineDepthStencilStateCreateInfo : Type := {
  depthTestEnable : bool;
  depthWriteEnable : bool;
  depthCompareOp : VkCompareOp
}.

Record VkPipelineViewportStateCreateInfo : Type := {
  viewportCount : N;
  scissorCount : N
}.

Record VkPipelineMultisampleStateCreateInfo : Type := {
  rasterizationSamples : VkSampleCountFlagBits;
  sampleShadingEnable : bool;
  minSampleShading : R
}.

Record VkPipelineShaderStageCreateInfo : Type := {
  stage : Descriptors.VkShaderStage;
  shader_file : string
}.

Record VkVertexInputBindingDescription : Type := {
  binding : N;
  stride : N;
  inputRate : VkVertexInputRate
}.

Record VkVertexInputAttributeDescription : Type := {
  location : N;
  attribute_binding : N;
  format : VkFormat;
  offset : N
}.

Record VkPipelineVertexInputStateCreateInfo : Type := {
  vertexBindingDescriptionCount : N;
  pVertexBindingDescriptions : list VkVertexInputBindingDescription;
  vertexAttributeDescriptionCount : N;
  pVertexAttributeDescriptions : list VkVertexInputAttributeDescription
}.

(** [VkGraphicsPipelineCreateInfo], each pointer replaced by what it
    points to. *)
Record VkGraphicsPipelineCreateInfo : Type := {
  layout : handle;
  renderPass : handle;
  pInputAssemblyState : VkPipelineInputAssemblyStateCreateInfo;
  pRasterizationState : VkPipelineRasterizationStateCreateInfo;
  pColorBlendState : VkPipelineColorBlendStateCreateInfo;
  pMultisampleState : VkPipelineMultisampleStateCreateInfo;
  pViewportState : VkPipelineViewportStateCreateInfo;
  pDepthStencilState : VkPipelineDepthStencilStateCreateInfo;
  pDynamicState : list VkDynamicState;
  stageCount : N;
  pStages : list VkPipelineShaderStageCreateInfo;
  pVertexInputState : VkPipelineVertexInputStateCreateInfo
}.

(** Modelled from the spec: the two initializers of [vks::initializers]
    (not among the sources) that describe the vertex input.  They fill
    the structure from their arguments, in the order binding, stride,
    input rate and binding, location, format, offset; the comments of
    the calls name the locations accordingly. *)
Definition vertexInputBindingDescription (binding stride : N)
    (inputRate : VkVertexInputRate) : VkVertexInputBindingDescription :=
  {| binding := binding; stride := stride; inputRate := inputRate |}.

Definition vertexInputAttributeDescription (binding location : N)
    (format : VkFormat) (offset : N) : VkVertexInputAttributeDescription :=
  {| location := location; attribute_binding := binding; format := format;
     offset := offset |}.

(** Modelled from the spec: [loadShader] of the base class (not among
    the sources) gives the stage description for a compiled shader
    file. *)
Definition loadShader (file : string) (stage : Descriptors.VkShaderStage)
  : VkPipelineShaderStageCreateInfo :=
  {| stage := stage; shader_file := file |}.

(** The two assignments [inputState.vertexBindingDescriptionCount = b;
    inputState.vertexAttributeDescriptionCount = a;]. *)
Definition set_counts (b a : N) (input : VkPipelineVertexInputStateCreateInfo)
  : VkPipelineVertexInputStateCreateInfo :=
  {| vertexBindingDescriptionCount := b;
     pVertexBindingDescriptions := pVertexBindingDescriptions input;
     vertexAttributeDescriptionCount := a;
     pVertexAttributeDescriptions := pVertexAttributeDescriptions input |}.

Definition sizeof_float : N := Instances.size_of Instances.c_float.

(** [VK_CHECK_RESULT(vkCreateGraphicsPipelines(...))] for one pipeline:
    [accepts] is the answer of the driver for a description, [next] the
    handle it gives out next.  A refusal ends the process. *)
Definition vkCreateGraphicsPipelines
    (accepts : VkGraphicsPipelineCreateInfo -> bool)
    (info : VkGraphicsPipelineCreateInfo) (next : handle)
  : outcome (handle * handle) :=
  if accepts info then Completed (next, next + 1) else Aborted.

(** [VulkanExample::preparePipelines] (lines 617-767): the handles
    stored in [pipelines], and each handle with the description the
    driver read when it was created.  [pipelineCreateInfo] holds pointers
    to the locals [rasterizationState], [depthStencilState],
    [shaderStages] and [inputState], which are assigned between the
    calls: a call reads what they hold at that time.  [vertexStride] is
    the value of [vertexLayout.stride()].  The other initializers of
    [vks::initializers] give each state the values they are called with
    (topology; polygon mode, cull mode, front face; colour write mask,
    blending; depth test, depth write, comparison; viewport and scissor
    counts); fields the function does not set are left out. *)
Definition preparePipelines
    (accepts : VkGraphicsPipelineCreateInfo -> bool)
    (assetPath : string) (sampleCount : VkSampleCountFlagBits)
    (vertexStride : N) (pipelineLayout renderPass : handle) (next : handle)
  : outcome (Commands.Pipelines
             * list (handle * VkGraphicsPipelineCreateInfo)) :=
  let inputAssemblyState :=
    {| topology := VK_PRIMITIVE_TOPOLOGY_TRIANGLE_LIST;
       primitiveRestartEnable := false |} in
  let rasterizationState :=
    {| polygonMode := VK_POLYGON_MODE_FILL;
       cullMode := VK_CULL_MODE_BACK_BIT;
       frontFace := VK_FRONT_FACE_CLOCKWISE |} in
  let blendAttachmentState :=
    {| colorWriteMask := 15; blendEnable := false |} in
  let colorBlendState :=
    {| blend_attachmentCount := 1;
       blend_pAttachments := [blendAttachmentState] |} in
  let depthStencilState :=
    {| depthTestEnable := true; depthWriteEnable := true;
       depthCompareOp := VK_COMPARE_OP_LESS_OR_EQUAL |} in
  let viewportState := {| viewportCount := 1; scissorCount := 1 |} in
  let multisampleState :=
    {| rasterizationSamples := sampleCount;
       sampleShadingEnable := true;
       minSampleShading := 0.25%R |} in
  let dynamicStateEnables :=
    [VK_DYNAMIC_STATE_VIEWPORT; VK_DYNAMIC_STATE_SCISSOR] in
  let pipelineCreateInfo rasterizationState depthStencilState shaderStages
        inputState :=
    {| layout := pipelineLayout;
       renderPass := renderPass;
       pInputAssemblyState := inputAssemblyState;
       pRasterizationState := rasterizationState;
       pColorBlendState := colorBlendState;
       pMultisampleState := multisampleState;
       pViewportState := viewportState;
       pDepthStencilState := depthStencilState;
       pDynamicState := dynamicStateEnables;
       stageCount := N.of_nat (List.length shaderStages);
       pStages := shaderStages;
       pVertexInputState := inputState |} in
  (* Vertex input bindings *)
  let bindingDescriptions :=
    [ (* Binding point 0: Mesh vertex layout description at per-vertex rate *)
      vertexInputBindingDescription VERTEX_BUFFER_BIND_ID vertexStride
        VK_VERTEX_INPUT_RATE_VERTEX;
      (* Binding point 1: Instanced data at per-instance rate *)
      vertexInputBindingDescription INSTANCE_BUFFER_BIND_ID
        Instances.sizeof_InstanceData VK_VERTEX_INPUT_RATE_INSTANCE ] in
  (* Vertex attribute bindings *)
  let attributeDescriptions :=
    [ (* Per-vertex attributes *)
      vertexInputAttributeDescription VERTEX_BUFFER_BIND_ID 0
        VK_FORMAT_R32G32B32_SFLOAT 0;
      vertexInputAttributeDescription VERTEX_BUFFER_BIND_ID 1
        VK_FORMAT_R32G32B32_SFLOAT (sizeof_float * 3);
      vertexInputAttributeDescription VERTEX_BUFFER_BIND_ID 2
        VK_FORMAT_R32G32_SFLOAT (sizeof_float * 6);
      vertexInputAttributeDescription VERTEX_BUFFER_BIND_ID 3
        VK_FORMAT_R32G32B32_SFLOAT (sizeof_float * 8);
      (* Per-Instance attributes *)
      vertexInputAttributeDescription INSTANCE_BUFFER_BIND_ID 5
        VK_FORMAT_R32G32B32_SFLOAT (sizeof_float * 3);
      vertexInputAttributeDescription INSTANCE_BUFFER_BIND_ID 4
        VK_FORMAT_R32G32B32_SFLOAT 0;
      vertexInputAttributeDescription INSTANCE_BUFFER_BIND_ID 6
        VK_FORMAT_R32_SFLOAT (sizeof_float * 6);
      vertexInputAttributeDescription INSTANCE_BUFFER_BIND_ID 7
        VK_FORMAT_R32_SINT (sizeof_float * 7) ] in
  (* inputState.pVertexBindingDescriptions = bindingDescriptions.data(); ... *)
  let inputState :=
    {| vertexBindingDescriptionCount := 0;
       pVertexBindingDescriptions := bindingDescriptions;
       vertexAttributeDescriptionCount := 0;
       pVertexAttributeDescriptions := attributeDescriptions |} in
  (* Instancing pipeline *)
  let shaderStages :=
    [ loadShader (assetPath ++ "shaders/instancing-229/instancing.vert.spv")
        Descriptors.VK_SHADER_STAGE_VERTEX_BIT;
      loadShader (assetPath ++ "shaders/instancing-229/instancing.frag.spv")
        Descriptors.VK_SHADER_STAGE_FRAGMENT_BIT ] in
  (* Use all input bindings and attribute descriptions *)
  let inputState :=
    set_counts (N.of_nat (List.length bindingDescriptions))
               (N.of_nat (List.length attributeDescriptions)) inputState in
  let instancing :=
    pipelineCreateInfo rasterizationState depthStencilState shaderStages
      inputState in
  '(instancedRocksVkPipeline, next) ←
    vkCreateGraphicsPipelines accepts instancing next;
  (* Planet rendering pipeline *)
  let shaderStages :=
    [ loadShader (assetPath ++ "shaders/instancing-229/planet.vert.spv")
        Descriptors.VK_SHADER_STAGE_VERTEX_BIT;
      loadShader (assetPath ++ "shaders/instancing-229/planet.frag.spv")
        Descriptors.VK_SHADER_STAGE_FRAGMENT_BIT ] in
  (* Only use the non-instanced input bindings and attribute descriptions *)
  let inputState := set_counts 1 4 inputState in
  let planet :=
    pipelineCreateInfo rasterizationState depthStencilState shaderStages
      inputState in
  '(planetVkPipeline, next) ← vkCreateGraphicsPipelines accepts planet next;
  (* Light rendering pipeline *)
  let shaderStages :=
    [ loadShader (assetPath ++ "shaders/instancing-229/light.vert.spv")
        Descriptors.VK_SHADER_STAGE_VERTEX_BIT;
      loadShader (assetPath ++ "shaders/instancing-229/light.frag.spv")
        Descriptors.VK_SHADER_STAGE_FRAGMENT_BIT ] in
  let inputState := set_counts 1 4 inputState in
  let light :=
    pipelineCreateInfo rasterizationState depthStencilState shaderStages
      inputState in
  '(lightVkPipeline, next) ← vkCreateGraphicsPipelines accepts light next;
  (* Construct rendering pipeline *)
  let shaderStages :=
    [ loadShader (assetPath ++ "shaders/instancing-229/construct.vert.spv")
        Descriptors.VK_SHADER_STAGE_VERTEX_BIT;
      loadShader (assetPath ++ "shaders/instancing-229/construct.frag.spv")
        Descriptors.VK_SHADER_STAGE_FRAGMENT_BIT ] in
  let inputState := set_counts 1 4 inputState in
  let construct :=
    pipelineCreateInfo rasterizationState depthStencilState shaderStages
      inputState in
  '(constructVkPipeline, next) ←
    vkCreateGraphicsPipelines accepts construct next;
  (* Star field pipeline *)
  let rasterizationState :=
    {| polygonMode := polygonMode rasterizationState;
       cullMode := VK_CULL_MODE_NONE;
       frontFace := frontFace rasterizationState |} in
  let depthStencilState :=
    {| depthTestEnable := depthTestEnable depthStencilState;
       depthWriteEnable := false;
       depthCompareOp := depthCompareOp depthStencilState |} in
  let shaderStages :=
    [ loadShader (assetPath ++ "shaders/instancing-229/starfield.vert.spv")
        Descriptors.VK_SHADER_STAGE_VERTEX_BIT;
      loadShader (assetPath ++ "shaders/instancing-229/starfield.frag.spv")
        Descriptors.VK_SHADER_STAGE_FRAGMENT_BIT ] in
  (* Vertices are generated in the vertex shader *)
  let inputState := set_counts 0 0 inputState in
  let starfield :=
    pipelineCreateInfo rasterizationState depthStencilState shaderStages
      inputState in
  '(starfieldVkPipeline, next) ←
    vkCreateGraphicsPipelines accepts starfield next;
  mret
    ({| Commands.instancedRocksVkPipeline := instancedRocksVkPipeline;
        Commands.planetVkPipeline := planetVkPipeline;
        Commands.lightVkPipeline := lightVkPipeline;
        Commands.constructVkPipeline := constructVkPipeline;
        Commands.starfieldVkPipeline := starfieldVkPipeline |},
     [ (instancedRocksVkPipeline, instancing); (planetVkPipeline, planet);
       (lightVkPipeline, light); (constructVkPipeline, construct);
       (starfieldVkPipeline, starfield) ]).

(** *** Reading a pipeline description *)

(** The bindings and attributes Vulkan reads: the first [count] elements
    behind each pointer. *)
Definition active_bindings (info : VkGraphicsPipelineCreateInfo) :=
  let input := pVertexInputState info in
  take (N.to_nat (vertexBindingDescriptionCount input))
       (pVertexBindingDescriptions input).

Definition active_attributes (info : VkGraphicsPipelineCreateInfo) :=
  let input := pVertexInputState info in
  take (N.to_nat (vertexAttributeDescriptionCount input))
       (pVertexAttributeDescriptions input).

Definition attributes_of_binding (b : N) (info : VkGraphicsPipelineCreateInfo) :=
  List.filter (fun a => attribute_binding a =? b) (active_attributes info).

(** The description a handle was created from. *)
Definition created_from
    (created : list (handle * VkGraphicsPipelineCreateInfo)) (p : handle)
  : option VkGraphicsPipelineCreateInfo :=
  snd <$> List.find (fun c => fst c =? p) created.

(** The bytes Vulkan fetches for an attribute: for the vertex or
    instance of index [i], from a buffer bound at byte [bound_at], the
    range that starts at [bound_at + i * stride + offset] and has the
    size of the format, as (first byte, byte after the last). *)
Definition fetched (b : VkVertexInputBindingDescription)
    (a : VkVertexInputAttributeDescription) (bound_at i : N) : N * N :=
  let first := bound_at + i * stride b + offset a in
  (first, first + format_size (format a)).

End PipelineStates.

(** ** Lifetime of the Vulkan objects *)

Module Resources.
Local Open Scope N_scope.

Inductive Kind : Type :=
| Image
| ImageView
| DeviceMemory
| Buffer
| Pipeline
| PipelineLayout
| DescriptorSetLayout.

#[global] Instance Kind_eq_dec : EqDecision Kind.
Proof. solve_decision. Defined.

(** The objects of a device that are alive, in the order of their
    creation, and the handle the driver gives out next. *)
Record Device : Type := {
  live : list (handle * Kind);
  next : handle
}.

(** [VK_CHECK_RESULT(vkCreate...(...))] and
    [VK_CHECK_RESULT(vkAllocateMemory(...))]: [grants] is the answer of
    the driver; a refusal ends the process. *)
Definition create (grants : Kind -> handle -> bool) (k : Kind) (d : Device)
  : outcome (Device * handle) :=
  if grants k (next d) then
    Completed ({| live := live d ++ [(next d, k)]; next := next d + 1 |},
               next d)
  else Aborted.

(** [vkDestroy...(device, h, nullptr)] and [vkFreeMemory]. *)
Definition destroy (k : Kind) (h : handle) (d : Device) : Device :=
  {| live := List.filter (fun o => negb (bool_decide (o = (h, k)))) (live d);
     next := next d |}.

(** One half of [multisampleTarget] (lines 39-50). *)
Record TargetImage : Type := {
  image : handle;
  view : handle;
  memory : handle
}.

Record MultisampleTarget : Type := {
  color : TargetImage;
  depth : TargetImage
}.

(** [struct InstanceBuffer] (lines 86-91): the two handles. *)
Record InstanceBuffer : Type := {
  buffer : handle;
  buffer_memory : handle
}.

(** The handles the example holds: the global [multisampleTarget] and
    the members the destructor names.  [assets] are the objects owned by
    the four models, the four textures and the uniform buffer. *)
Record Example : Type := {
  multisampleTarget : MultisampleTarget;
  instanceBuffer : InstanceBuffer;
  pipelines : Commands.Pipelines;
  pipelineLayout : handle;
  descriptorSetLayout : handle;
  assets : list (handle * Kind)
}.

Definition set_multisampleTarget (t : MultisampleTarget) (e : Example)
  : Example :=
  {| multisampleTarget := t; instanceBuffer := instanceBuffer e;
     pipelines := pipelines e; pipelineLayout := pipelineLayout e;
     descriptorSetLayout := descriptorSetLayout e; assets := assets e |}.

Definition set_instanceBuffer (b : InstanceBuffer) (e : Example) : Example :=
  {| multisampleTarget := multisampleTarget e; instanceBuffer := b;
     pipelines := pipelines e; pipelineLayout := pipelineLayout e;
     descriptorSetLayout := descriptorSetLayout e; assets := assets e |}.

(** [VulkanExample::setupMultisampleTarget] (lines 177-274) as a
    sequence of creations: after the assertion, for the colour target
    and then for the depth target, the image, its memory and its view,
    each stored in [multisampleTarget]. *)
Definition setupMultisampleTarget (grants : Kind -> handle -> bool)
    (limits : VkPhysicalDeviceLimits) (sampleCount : VkSampleCountFlagBits)
    (d : Device) (e : Example) : outcome (Device * Example) :=
  if Multisample.sample_count_supported limits sampleCount then
    (* Color target *)
    '(d, color_image) ← create grants Image d;
    '(d, color_memory) ← create grants DeviceMemory d;
    '(d, color_view) ← create grants ImageView d;
    (* Depth target *)
    '(d, depth_image) ← create grants Image d;
    '(d, depth_memory) ← create grants DeviceMemory d;
    '(d, depth_view) ← create grants ImageView d;
    mret (d, set_multisampleTarget
               {| color := {| image := color_image; view := color_view;
                              memory := color_memory |};
                  depth := {| image := depth_image; view := depth_view;
                              memory := depth_memory |} |} e)
  else Aborted.

(** Modelled from the spec: [vulkanDevice->createBuffer] (not among the
    sources) creates a buffer and allocates the memory it binds to it. *)
Definition createBuffer (grants : Kind -> handle -> bool) (d : Device)
  : outcome (Device * InstanceBuffer) :=
  '(d, b) ← create grants Buffer d;
  '(d, m) ← create grants DeviceMemory d;
  mret (d, {| buffer := b; buffer_memory := m |}).

(** The upload at the end of [VulkanExample::prepareInstanceData] (lines
    820-860): the staging buffer, the device local buffer, the copy, and
    the destruction of the staging resources. *)
Definition prepareInstanceData (grants : Kind -> handle -> bool)
    (d : Device) (e : Example) : outcome (Device * Example) :=
  '(d, stagingBuffer) ← createBuffer grants d;
  '(d, instanceBuffer) ← createBuffer grants d;
  (* Destroy staging resources *)
  let d := destroy Buffer (buffer stagingBuffer) d in
  let d := destroy DeviceMemory (buffer_memory stagingBuffer) d in
  mret (d, set_instanceBuffer instanceBuffer e).

(** Modelled from the spec: the [destroy()] methods of [vks::Model],
    [vks::Texture] and [vks::Buffer] (not among the sources) destroy the
    objects their member owns. *)
Definition destroy_assets (e : Example) (d : Device) : Device :=
  foldl (fun d o => destroy (snd o) (fst o) d) d (assets e).

(** [VulkanExample::~VulkanExample] (lines 142-169). *)
Definition destructor (e : Example) (d : Device) : Device :=
  let d := destroy Pipeline (Commands.instancedRocksVkPipeline (pipelines e)) d in
  let d := destroy Pipeline (Commands.planetVkPipeline (pipelines e)) d in
  let d := destroy Pipeline (Commands.lightVkPipeline (pipelines e)) d in
  let d := destroy Pipeline (Commands.constructVkPipeline (pipelines e)) d in
  let d := destroy Pipeline (Commands.starfieldVkPipeline (pipelines e)) d in
  let d := destroy PipelineLayout (pipelineLayout e) d in
  let d := destroy DescriptorSetLayout (descriptorSetLayout e) d in
  let d := destroy Buffer (buffer (instanceBuffer e)) d in
  let d := destroy DeviceMemory (buffer_memory (instanceBuffer e)) d in
  destroy_assets e d.

(** The objects [multisampleTarget] names. *)
Definition target_objects (t : MultisampleTarget) : list (handle * Kind) :=
  [ (image (color t), Image); (memory (color t), DeviceMemory);
    (view (color t), ImageView);
    (image (depth t), Image); (memory (depth t), DeviceMemory);
    (view (depth t), ImageView) ].

(** A device whose next handle is above every object alive. *)
Definition fresh_above (d : Device) : Prop :=
  Forall (fun o => fst o < next d) (live d).

End Resources.

(** * Properties *)

(** ** Sample count selection *)

Section MultisampleProperties.
Import Multisample.
Local Open Scope N_scope.

Lemma sample_bits_pow2 (s : VkSampleCountFlagBits) :
  exists j, sample_bits s = 2 ^ j.
Proof.
  destruct s;
    [exists 0 | exists 1 | exists 2 | exists 3 | exists 4
    | exists 5 | exists 6]; reflexivity.
Qed.

Lemma land_pow2 (a j : N) :
  N.land a (2 ^ j) = if N.testbit a j then 2 ^ j else 0.
Proof.
  apply N.bits_inj. intros n.
  rewrite N.land_spec, N.pow2_bits_eqb.
  destruct (N.eqb_spec j n) as [->|Hne].
  - destruct (N.testbit a n); simpl;
      rewrite ?N.pow2_bits_true, ?N.bits_0; reflexivity.
  - rewrite andb_false_r.
    destruct (N.testbit a j);
      rewrite ?N.pow2_bits_false, ?N.bits_0 by exact Hne; reflexivity.
Qed.

(** Below [2^(j+1)], the test [counts & 2^j] is the comparison with
    [2^j]. *)
Lemma land_pow2_below (a j : N) :
  a < 2 ^ N.succ j -> (N.land a (2 ^ j) =? 0) = (a <? 2 ^ j).
Proof.
  intros Ha. rewrite land_pow2.
  assert (Hpos : 0 < 2 ^ j) by (apply N.neq_0_lt_0, N.pow_nonzero; lia).
  destruct (N.ltb_spec a (2 ^ j)) as [Hlt|Hge].
  - rewrite (proj2 (N.testbit_false a j)).
    + reflexivity.
    + rewrite N.div_small by exact Hlt. reflexivity.
  - rewrite (proj2 (N.testbit_true a j)).
    + apply N.eqb_neq. lia.
    + rewrite N.pow_succ_r' in Ha.
      assert (a / 2 ^ j = 1) as ->.
      { symmetry. apply (N.div_unique a (2 ^ j) 1 (a - 2 ^ j)); lia. }
      reflexivity.
Qed.

Lemma has_bit_below (counts : N) (s : VkSampleCountFlagBits) :
  counts < 2 * sample_bits s ->
  has_bit counts s = (sample_bits s <=? counts).
Proof.
  intros H. unfold has_bit.
  destruct (sample_bits_pow2 s) as [j Hj]. rewrite Hj in *.
  rewrite land_pow2_below by (rewrite N.pow_succ_r'; exact H).
  rewrite N.leb_antisym. reflexivity.
Qed.

(** The cascade of tests returns the highest set bit of a mask that has
    only the seven defined bits. *)
Lemma cascade_highest_bit (limits : VkPhysicalDeviceLimits) :
  let counts := N.min (framebufferColorSampleCounts limits)
                      (framebufferDepthSampleCounts limits) in
  1 <= counts < 128 ->
  sample_bits (getMaxUsableSampleCount limits) = 2 ^ N.log2 counts.
Proof.
  intros counts [Hlo Hhi]. unfold getMaxUsableSampleCount. fold counts.
  assert (Hlog : forall j, 2 ^ j <= counts < 2 ^ N.succ j -> N.log2 counts = j).
  { intros j Hj. apply N.log2_unique; [lia | exact Hj]. }
  repeat
    match goal with
    | |- context [has_bit counts ?s] =>
        rewrite (has_bit_below counts s) by (cbn; lia);
        let E := fresh "E" in
        destruct (N.leb_spec (sample_bits s) counts) as [E|E]; cbn in E;
        [ match goal with
          | |- sample_bits ?r = _ =>
              match eval cbn in (N.log2 (sample_bits r)) with
              | ?j => rewrite (Hlog j) by (cbn; lia); reflexivity
              end
          end | ]
    end.
  rewrite (Hlog 0) by (cbn; lia). reflexivity.
Qed.

Lemma maxSampleCount_min (c d : N) :
  maxSampleCount (N.min c d) = N.min (maxSampleCount c) (maxSampleCount d).
Proof.
  assert (Hmono : forall a b, a <= b -> maxSampleCount a <= maxSampleCount b).
  { intros a b Hab. unfold maxSampleCount.
    destruct (N.eqb_spec a 0), (N.eqb_spec b 0); try lia.
    apply N.pow_le_mono_r; [lia|]. apply N.log2_le_mono. exact Hab. }
  destruct (N.le_ge_cases c d) as [H|H].
  - rewrite N.min_l by exact H. rewrite N.min_l by (apply Hmono; exact H).
    reflexivity.
  - rewrite N.min_r by exact H. rewrite N.min_r by (apply Hmono; exact H).
    reflexivity.
Qed.

(** The assertion compares the sample count with the masks as numbers;
    for a single bit that is the comparison with the highest set bit. *)
Lemma bit_le_mask (s : VkSampleCountFlagBits) (mask : N) :
  sample_bits s <= mask <-> sample_bits s <= maxSampleCount mask.
Proof.
  unfold maxSampleCount.
  destruct (sample_bits_pow2 s) as [j Hj].
  assert (Hs : 1 <= sample_bits s) by (destruct s; cbn; lia).
  destruct (N.eqb_spec mask 0) as [->|Hm]; [lia|].
  rewrite Hj. split; intros H.
  - apply N.pow_le_mono_r; [lia|]. apply N.log2_le_pow2; [lia | exact H].
  - etransitivity; [exact H|]. apply N.log2_spec. lia.
Qed.

Lemma assertion_spec (limits : VkPhysicalDeviceLimits)
    (s : VkSampleCountFlagBits) :
  sample_count_supported limits s = true <->
  sample_bits s <= maxSampleCount (framebufferColorSampleCounts limits) /\
  sample_bits s <= maxSampleCount (framebufferDepthSampleCounts limits).
Proof.
  unfold sample_count_supported.
  rewrite andb_true_iff, !N.leb_le, <- !bit_le_mask. reflexivity.
Qed.

End MultisampleProperties.

Section SampleCountClaim.
Import Multisample.
Local Open Scope N_scope.

Lemma cascade_characterisation (limits : VkPhysicalDeviceLimits) :
  let counts := N.min (framebufferColorSampleCounts limits)
                      (framebufferDepthSampleCounts limits) in
  let chosen := getMaxUsableSampleCount limits in
  (chosen = VK_SAMPLE_COUNT_1_BIT \/ has_bit counts chosen = true) /\
  (forall s, s <> VK_SAMPLE_COUNT_1_BIT ->
             sample_bits chosen < sample_bits s -> has_bit counts s = false).
Proof.
  intros counts chosen. subst chosen. unfold getMaxUsableSampleCount.
  fold counts.
  destruct (has_bit counts VK_SAMPLE_COUNT_64_BIT) eqn:E64;
    [| destruct (has_bit counts VK_SAMPLE_COUNT_32_BIT) eqn:E32;
       [| destruct (has_bit counts VK_SAMPLE_COUNT_16_BIT) eqn:E16;
          [| destruct (has_bit counts VK_SAMPLE_COUNT_8_BIT) eqn:E8;
             [| destruct (has_bit counts VK_SAMPLE_COUNT_4_BIT) eqn:E4;
                [| destruct (has_bit counts VK_SAMPLE_COUNT_2_BIT) eqn:E2]]]]];
    (split; [auto | intros s Hs Hlt; destruct s; cbn in Hlt;
                    first [assumption | congruence | lia]]).
Qed.

Lemma has_bit_le (counts : N) (s : VkSampleCountFlagBits) :
  has_bit counts s = true -> sample_bits s <= counts.
Proof.
  unfold has_bit. destruct (sample_bits_pow2 s) as [j ->].
  rewrite land_pow2. intros H.
  destruct (N.testbit counts j) eqn:Hbit.
  - destruct (N.lt_ge_cases counts (2 ^ j)) as [Hlt|Hge]; [|exact Hge].
    apply N.testbit_true in Hbit.
    rewrite N.div_small in Hbit by exact Hlt. discriminate Hbit.
  - rewrite N.eqb_refl in H. discriminate H.
Qed.

(** C8.  [prepare] assigns [sampleCount] in its first statement and in no
    other, before every statement that constructs a Vulkan object.  The
    value assigned is the highest sample-count bit present in the minimum
    of the two masks the device reports (one sample if none of the bits
    2..64 is present); when the masks hold only defined bits this is the
    smaller of the two maxima the device reports.  For a device that
    reports at least one count for colour and for depth, the assertion of
    [setupMultisampleTarget] holds for this value and the function
    completes; and for every sample count the function stops at the
    assertion exactly when the count exceeds the maximum of the colour
    or of the depth mask. *)
Theorem C8_sample_count_fixed_at_prepare
    (limits : VkPhysicalDeviceLimits) (width height : N) (lazy : bool) :
  reports_a_count (framebufferColorSampleCounts limits) ->
  reports_a_count (framebufferDepthSampleCounts limits) ->
  let color := framebufferColorSampleCounts limits in
  let depth := framebufferDepthSampleCounts limits in
  let chosen := getMaxUsableSampleCount limits in
  (* assigned once, first *)
  (exists rest, prepare = AssignSampleCount :: rest /\
     Forall (fun s => assigns_sampleCount s = false) rest) /\
  (forall before s after, prepare = before ++ s :: after ->
     constructs_gpu_objects s = true -> In AssignSampleCount before) /\
  (* the value *)
  (chosen = VK_SAMPLE_COUNT_1_BIT \/ has_bit (N.min color depth) chosen = true) /\
  (forall s, s <> VK_SAMPLE_COUNT_1_BIT ->
     sample_bits chosen < sample_bits s -> has_bit (N.min color depth) s = false) /\
  (only_defined_bits color -> only_defined_bits depth ->
   sample_bits chosen = N.min (maxSampleCount color) (maxSampleCount depth)) /\
  (* the assertion holds for it *)
  (exists targets,
     setupMultisampleTarget limits chosen width height lazy = Completed targets) /\
  (* and fails exactly beyond the capability of the device *)
  (forall s,
     setupMultisampleTarget limits s width height lazy = Aborted <->
     maxSampleCount color < sample_bits s \/ maxSampleCount depth < sample_bits s).
Proof.
  intros Hc Hd color depth chosen.
  unfold reports_a_count in Hc, Hd. fold color in Hc. fold depth in Hd.
  destruct (cascade_characterisation limits) as [Hbit Hhigher].
  fold color depth chosen in Hbit, Hhigher.
  split; [| split; [| split; [exact Hbit | split; [exact Hhigher | split; [| split]]]]].
  - eexists. split; [reflexivity|]. repeat constructor.
  - intros before s after Heq Hs.
    destruct before as [|b before].
    + injection Heq as <- _. discriminate Hs.
    + injection Heq as <- _. left. reflexivity.
  - intros Hc128 Hd128. unfold only_defined_bits in Hc128, Hd128.
    subst chosen. rewrite cascade_highest_bit by (fold color depth; lia).
    fold color depth. rewrite <- maxSampleCount_min.
    unfold maxSampleCount.
    destruct (N.eqb_spec (N.min color depth) 0) as [E|E]; [lia | reflexivity].
  - unfold setupMultisampleTarget.
    assert (H : sample_count_supported limits chosen = true).
    { unfold sample_count_supported. fold color depth.
      assert (Hle : sample_bits chosen <= N.min color depth).
      { destruct Hbit as [->|Hbit]; [cbn; lia | apply has_bit_le, Hbit]. }
      apply andb_true_iff. rewrite !N.leb_le. lia. }
    rewrite H. eexists. reflexivity.
  - intros s. unfold setupMultisampleTarget.
    pose proof (assertion_spec limits s) as H. fold color depth in H.
    destruct (sample_count_supported limits s).
    + split; [discriminate|]. intros Hex.
      destruct (proj1 H eq_refl). lia.
    + split; [intros _ | reflexivity].
      destruct (N.lt_ge_cases (maxSampleCount color) (sample_bits s)); [auto|].
      destruct (N.lt_ge_cases (maxSampleCount depth) (sample_bits s)); [auto|].
      assert (false = true) by (apply H; auto). discriminate.
Qed.

(** The theorem at a device with colour counts 1, 2, 4, 8 and depth
    counts 1, 2, 4: four samples are chosen. *)
Lemma C8_sample_count_witness :
  reports_a_count 15 /\ reports_a_count 7 /\
  sample_bits
    (getMaxUsableSampleCount
       {| framebufferColorSampleCounts := 15;
          framebufferDepthSampleCounts := 7 |})
  = N.min (maxSampleCount 15) (maxSampleCount 7).
Proof.
  assert (H15 : reports_a_count 15) by discriminate.
  assert (H7 : reports_a_count 7) by discriminate.
  split; [exact H15 | split; [exact H7 |]].
  apply (proj1 (proj2 (proj2 (proj2 (proj2
    (C8_sample_count_fixed_at_prepare
       {| framebufferColorSampleCounts := 15;
          framebufferDepthSampleCounts := 7 |} 800 600 true H15 H7)))))).
  - unfold only_defined_bits. cbn. lia.
  - unfold only_defined_bits. cbn. lia.
Defined.

End SampleCountClaim.

(** ** Render pass and frame buffers *)

Section RenderPassProperties.
Import RenderPass.
Local Open Scope N_scope.

(** The loop of [setupFrameBuffer] changes only the element at index 1,
    so every frame buffer sees the other three views unchanged. *)
Lemma createFramebuffers_map (t : Target) (a b c d : handle)
    (views : list handle) :
  createFramebuffers t [a; b; c; d] views =
  map (fun view =>
         {| fb_renderPass := renderPass t;
            fb_attachments := [a; view; c; d];
            fb_width := width t; fb_height := height t; fb_layers := 1 |})
      views.
Proof.
  revert b. induction views as [|view rest IH]; intros b.
  - reflexivity.
  - cbn [createFramebuffers map]. f_equal. apply IH.
Qed.

(** C7.  The structure [setupRenderPass] hands to [vkCreateRenderPass]
    has exactly four attachments, in the order multisample colour (load
    CLEAR, store DONT_CARE), single-sample resolve colour for
    presentation (store STORE), multisample depth (load CLEAR, store
    DONT_CARE), single-sample resolve depth (store STORE); exactly one
    subpass, with one colour reference to attachment 0, one resolve
    reference to attachment 1 and a depth-stencil reference to
    attachment 2; exactly two dependencies, external to subpass 0 and
    subpass 0 to external, both with the by-region flag.  Whenever
    [setupFrameBuffer] passes the assertion it creates one frame buffer
    per swap chain image whose views are, by index, the multisample
    colour view, the view of that swap chain image, the multisample depth
    view and the depth-stencil view. *)
Theorem C7_render_pass_attachment_order
    (t : Target) (uninit : VkSubpassDependency)
    (limits : VkPhysicalDeviceLimits) (lazy : bool) (uninit_view : handle) :
  let info := setupRenderPass t uninit in
  (exists a0 a1 a2 a3,
     attachments_of info = [a0; a1; a2; a3] /\
     (format a0 = colorFormat t /\ samples a0 = sample_bits (sampleCount t) /\
      loadOp a0 = VK_ATTACHMENT_LOAD_OP_CLEAR /\
      storeOp a0 = VK_ATTACHMENT_STORE_OP_DONT_CARE) /\
     (format a1 = colorFormat t /\ samples a1 = 1 /\
      storeOp a1 = VK_ATTACHMENT_STORE_OP_STORE /\
      finalLayout a1 = VK_IMAGE_LAYOUT_PRESENT_SRC_KHR) /\
     (format a2 = depthFormat t /\ samples a2 = sample_bits (sampleCount t) /\
      loadOp a2 = VK_ATTACHMENT_LOAD_OP_CLEAR /\
      storeOp a2 = VK_ATTACHMENT_STORE_OP_DONT_CARE) /\
     (format a3 = depthFormat t /\ samples a3 = 1 /\
      storeOp a3 = VK_ATTACHMENT_STORE_OP_STORE)) /\
  (exists subpass,
     subpasses_of info = [subpass] /\
     colorAttachmentCount subpass = 1 /\
     map attachment (pColorAttachments subpass) = [0] /\
     map attachment (pResolveAttachments subpass) = [1] /\
     option_map attachment (pDepthStencilAttachment subpass) = Some 2) /\
  (exists d0 d1,
     dependencies_of info = [d0; d1] /\
     srcSubpass d0 = VK_SUBPASS_EXTERNAL /\ dstSubpass d0 = 0 /\
     srcSubpass d1 = 0 /\ dstSubpass d1 = VK_SUBPASS_EXTERNAL /\
     N.land (dependencyFlags d0) VK_DEPENDENCY_BY_REGION_BIT <> 0 /\
     N.land (dependencyFlags d1) VK_DEPENDENCY_BY_REGION_BIT <> 0) /\
  setupFrameBuffer limits lazy t uninit_view =
    (if Multisample.sample_count_supported limits (sampleCount t) then
       Completed
         (map (fun view =>
                 {| fb_renderPass := renderPass t;
                    fb_attachments :=
                      [msColorView t; view; msDepthView t; depthStencilView t];
                    fb_width := width t; fb_height := height t;
                    fb_layers := 1 |})
              (swapChainViews t))
     else Aborted).
Proof.
  intros info. subst info.
  split; [| split; [| split]].
  - do 4 eexists. split; [reflexivity|]. cbn. repeat split; reflexivity.
  - eexists. split; [reflexivity|]. cbn. repeat split; reflexivity.
  - do 2 eexists. split; [reflexivity|]. cbn. repeat split; discriminate.
  - unfold setupFrameBuffer, Multisample.setupMultisampleTarget.
    destruct (Multisample.sample_count_supported limits (sampleCount t));
      [|reflexivity].
    cbn. f_equal. apply createFramebuffers_map.
Qed.

End RenderPassProperties.

(** ** Frame command sequence *)

Section CommandProperties.
Import Commands.
Local Open Scope N_scope.

(** What was in a command buffer before does not matter. *)
Lemma recordCommandBuffer_fresh (s : Scene) (fb : handle) (cb : CommandBuffer) :
  recordCommandBuffer s fb cb = recordCommandBuffer s fb [].
Proof. reflexivity. Qed.

(** The loop in closed form: command buffer [i] is recorded against
    frame buffer [i]; the loop is defined when there are enough frame
    buffers. *)
Lemma buildFrom_closed_form (s : Scene) (cbs : list CommandBuffer) (i : nat) :
  (i <= length (frameBuffers s))%nat ->
  buildFrom s i cbs =
  if decide (i + length cbs <= length (frameBuffers s))%nat then
    Some (map (fun fb => recordCommandBuffer s fb [])
              (take (length cbs) (drop i (frameBuffers s))))
  else None.
Proof.
  revert i. induction cbs as [|cb rest IH]; intros i Hi.
  - cbn [buildFrom length]. rewrite take_0.
    destruct (decide _); [reflexivity | lia].
  - cbn [buildFrom length].
    destruct (frameBuffers s !! i) as [fb|] eqn:Hfb; cbn.
    + apply lookup_lt_Some in Hfb as Hlt.
      rewrite IH by lia.
      rewrite (drop_S _ _ _ Hfb). cbn [take map].
      destruct (decide (S i + length rest <= length (frameBuffers s))%nat),
               (decide (i + S (length rest) <= length (frameBuffers s))%nat);
        try lia; reflexivity.
    + apply lookup_ge_None in Hfb.
      destruct (decide _); [lia | reflexivity].
Qed.

Lemma buildCommandBuffers_length (s : Scene) (cbs out : list CommandBuffer) :
  buildCommandBuffers s cbs = Some out -> length out = length cbs.
Proof.
  unfold buildCommandBuffers. rewrite buildFrom_closed_form by lia.
  destruct (decide _) as [Hle|]; [|discriminate].
  intros [= <-]. rewrite length_map, length_take, length_drop. lia.
Qed.

(** Building again over the buffers just built records the same
    sequences. *)
Lemma buildCommandBuffers_again (s : Scene) (cbs : list CommandBuffer) :
  buildCommandBuffers s cbs ≫= buildCommandBuffers s = buildCommandBuffers s cbs.
Proof.
  destruct (buildCommandBuffers s cbs) as [out|] eqn:E; [|reflexivity].
  cbn. pose proof (buildCommandBuffers_length _ _ _ E) as Hlen.
  unfold buildCommandBuffers in *.
  rewrite buildFrom_closed_form in * by lia. rewrite Hlen. exact E.
Qed.

(** C6.  Every command sequence [buildCommandBuffers] records consists,
    between the dynamic state and the end of the render pass, of five
    draw groups in the order starfield, planet, light, construct,
    instanced rocks.  Each group binds its pipeline and ends with its
    only draw call: a non-indexed draw of 4 vertices with no vertex or
    index buffer bound for the starfield; indexed draws with instance
    count 1 for planet, light and construct, each with one vertex buffer
    at binding 0 and an index buffer; an indexed draw with instance count
    2048 for the rocks, which bind the mesh at binding 0 and, they alone,
    the instance buffer at binding 1.  The buffers built are one such
    sequence per command buffer, each against the frame buffer of the
    same index; building a second time from the same scene gives the
    same sequences, and whatever the handles in the scene the sequence
    has the same structure. *)
Theorem C6_frame_command_sequence
    (s : Scene) (framebuffer : handle) (cb : CommandBuffer)
    (drawCmdBuffers : list CommandBuffer) :
  (exists starfield planet light construct rocks,
     draw_groups (recordCommandBuffer s framebuffer cb)
       = [starfield; planet; light; construct; rocks] /\
     (* starfield *)
     (bound_pipelines starfield = [starfieldVkPipeline (pipelines s)] /\
      bound_vertex_buffers starfield = [] /\
      bound_index_buffers starfield = [] /\
      draws starfield = [CmdDraw 4 1 0 0] /\
      last starfield = Some (CmdDraw 4 1 0 0)) /\
     (* planet *)
     (bound_pipelines planet = [planetVkPipeline (pipelines s)] /\
      bound_vertex_buffers planet
        = [(0, [vertices_buffer (planetModel (models s))])] /\
      bound_index_buffers planet = [indices_buffer (planetModel (models s))] /\
      draws planet
        = [CmdDrawIndexed (indexCount (planetModel (models s))) 1 0 0 0] /\
      last planet
        = Some (CmdDrawIndexed (indexCount (planetModel (models s))) 1 0 0 0)) /\
     (* light *)
     (bound_pipelines light = [lightVkPipeline (pipelines s)] /\
      bound_vertex_buffers light
        = [(0, [vertices_buffer (lightModel (models s))])] /\
      bound_index_buffers light = [indices_buffer (lightModel (models s))] /\
      draws light
        = [CmdDrawIndexed (indexCount (lightModel (models s))) 1 0 0 0] /\
      last light
        = Some (CmdDrawIndexed (indexCount (lightModel (models s))) 1 0 0 0)) /\
     (* construct *)
     (bound_pipelines construct = [constructVkPipeline (pipelines s)] /\
      bound_vertex_buffers construct
        = [(0, [vertices_buffer (constructModel (models s))])] /\
      bound_index_buffers construct
        = [indices_buffer (constructModel (models s))] /\
      draws construct
        = [CmdDrawIndexed (indexCount (constructModel (models s))) 1 0 0 0] /\
      last construct
        = Some (CmdDrawIndexed (indexCount (constructModel (models s))) 1 0 0 0)) /\
     (* instanced rocks *)
     (bound_pipelines rocks = [instancedRocksVkPipeline (pipelines s)] /\
      bound_vertex_buffers rocks
        = [(0, [vertices_buffer (rockModel (models s))]);
           (1, [instanceBuffer s])] /\
      bound_index_buffers rocks = [indices_buffer (rockModel (models s))] /\
      draws rocks
        = [CmdDrawIndexed (indexCount (rockModel (models s))) 2048 0 0 0] /\
      last rocks
        = Some (CmdDrawIndexed (indexCount (rockModel (models s))) 2048 0 0 0))) /\
  (* every buffer built is such a sequence *)
  buildCommandBuffers s drawCmdBuffers =
    (if decide (length drawCmdBuffers <= length (frameBuffers s))%nat then
       Some (map (fun fb => recordCommandBuffer s fb [])
                 (take (length drawCmdBuffers) (frameBuffers s)))
     else None) /\
  (* building twice *)
  buildCommandBuffers s drawCmdBuffers ≫= buildCommandBuffers s
    = buildCommandBuffers s drawCmdBuffers /\
  (forall s' framebuffer' cb',
     structure (recordCommandBuffer s' framebuffer' cb')
     = structure (recordCommandBuffer s framebuffer cb)).
Proof.
  split; [| split; [| split; [| reflexivity]]].
  - do 5 eexists. split; [reflexivity|].
    cbn. repeat split; reflexivity.
  - unfold buildCommandBuffers. rewrite buildFrom_closed_form by lia.
    rewrite drop_0. reflexivity.
  - apply buildCommandBuffers_again.
Qed.

End CommandProperties.

(** ** Descriptor sets *)

Section DescriptorProperties.
Import Descriptors Commands.
Local Open Scope N_scope.

(** C10.  In every recorded sequence the commands before the first draw
    call (the starfield draw) bind exactly one descriptor set, the
    planet's, at set index 0; the five groups bind, in order, the sets of
    planet, planet, light, construct and rocks, so the starfield has none
    of its own.  The pool is created for at most 4 sets with 4 uniform
    buffer and 4 combined image sampler descriptors, and
    [setupDescriptorSet] allocates exactly 4 sets from it, one for each
    field of [descriptorSets], which uses the pool up: a fifth allocation
    stops the process. *)
Theorem C10_starfield_shares_planet_descriptor_set
    (s : Scene) (framebuffer : handle) (cb : CommandBuffer) (first : handle) :
  (exists before after,
     recordCommandBuffer s framebuffer cb = before ++ CmdDraw 4 1 0 0 :: after /\
     draws before = [] /\
     bound_descriptor_sets before = [(0, [planetVkDescrSet (descriptorSets s)])] /\
     bound_pipelines before = [starfieldVkPipeline (pipelines s)]) /\
  sets_bound_by_groups (recordCommandBuffer s framebuffer cb)
    = [ (0, [planetVkDescrSet (descriptorSets s)]);
        (0, [planetVkDescrSet (descriptorSets s)]);
        (0, [lightVkDescrSet (descriptorSets s)]);
        (0, [constructVkDescrSet (descriptorSets s)]);
        (0, [instancedRocksVkDescrSet (descriptorSets s)]) ] /\
  (maxSets setupDescriptorPool = 4 /\
   take (poolSizeCount setupDescriptorPool) (pPoolSizes setupDescriptorPool)
     = [ {| type := VK_DESCRIPTOR_TYPE_UNIFORM_BUFFER; descriptorCount := 4 |};
         {| type := VK_DESCRIPTOR_TYPE_COMBINED_IMAGE_SAMPLER;
            descriptorCount := 4 |} ]) /\
  (exists sets pool writes,
     setupDescriptorSet (vkCreateDescriptorPool setupDescriptorPool first)
       = Completed (sets, pool, writes) /\
     allocated pool
       = [ instancedRocksVkDescrSet sets; planetVkDescrSet sets;
           lightVkDescrSet sets; constructVkDescrSet sets ] /\
     NoDup (allocated pool) /\
     sets_left pool = 0 /\
     descriptors_left pool VK_DESCRIPTOR_TYPE_UNIFORM_BUFFER = 0 /\
     descriptors_left pool VK_DESCRIPTOR_TYPE_COMBINED_IMAGE_SAMPLER = 0 /\
     vkAllocateDescriptorSets pool setLayoutBindings = Aborted).
Proof.
  split; [| split; [| split]].
  - eexists [_; _; _; _; _], _. cbn. repeat split; reflexivity.
  - reflexivity.
  - split; reflexivity.
  - do 3 eexists. split; [reflexivity|]. cbn.
    split; [reflexivity|]. split; [|repeat split; reflexivity].
    repeat constructor; rewrite ?list_elem_of_In; cbn; lia.
Qed.

End DescriptorProperties.

(** ** Binary floating point *)

Section Rounding.
Import IEEE754.
Local Open Scope R_scope.

Lemma bpow_pos (e : Z) : 0 < bpow e.
Proof. apply powerRZ_lt; lra. Qed.

Lemma bpow_add (a b : Z) : bpow (a + b) = bpow a * bpow b.
Proof. apply powerRZ_add; lra. Qed.

Lemma bpow_0 : bpow 0 = 1.
Proof. reflexivity. Qed.

Lemma bpow_opp (a : Z) : bpow (- a) = / bpow a.
Proof. apply powerRZ_neg'. Qed.

Lemma bpow_cancel (a : Z) : bpow (- a) * bpow a = 1.
Proof. rewrite <- bpow_add. replace (- a + a)%Z with 0%Z by lia. reflexivity. Qed.

Lemma bpow_nonneg_IZR (e : Z) : (0 <= e)%Z -> bpow e = IZR (2 ^ e).
Proof.
  intros He. unfold bpow. destruct e as [|p|p]; [reflexivity| |lia].
  change (2 ^ Z.pos p)%Z with (Z.pow_pos 2 p).
  now rewrite Zpower_pos_powerRZ.
Qed.

Lemma bpow_ge_1 (e : Z) : (0 <= e)%Z -> 1 <= bpow e.
Proof.
  intros He. rewrite bpow_nonneg_IZR by exact He.
  apply IZR_le. assert (0 < 2 ^ e)%Z by (apply Z.pow_pos_nonneg; lia). lia.
Qed.

Lemma bpow_le (a b : Z) : (a <= b)%Z -> bpow a <= bpow b.
Proof.
  intros Hab. replace b with (a + (b - a))%Z by lia. rewrite bpow_add.
  pose proof (bpow_pos a). pose proof (bpow_ge_1 (b - a) ltac:(lia)). nra.
Qed.


Lemma bpow_lt_inv (a b : Z) : bpow a < bpow b -> (a < b)%Z.
Proof.
  intros H. destruct (Z_lt_le_dec a b) as [|Hle]; [assumption|].
  apply bpow_le in Hle. lra.
Qed.


(** *** Magnitude *)

Lemma ln_2_pos : 0 < ln 2.
Proof. pose proof ln_lt_2. lra. Qed.

Lemma bpow_exp (e : Z) : bpow e = exp (IZR e * ln 2).
Proof. unfold bpow. rewrite powerRZ_Rpower by lra. reflexivity. Qed.

Lemma mag_spec (x : R) : x <> 0 -> bpow (mag x - 1) <= Rabs x < bpow (mag x).
Proof.
  intros Hx. unfold mag.
  set (y := ln (Rabs x) / ln 2).
  pose proof (Zfloor_bound y) as [Hlo Hhi].
  pose proof ln_2_pos as Hln.
  assert (Hax : 0 < Rabs x) by (apply Rabs_pos_lt; exact Hx).
  assert (Hy : y * ln 2 = ln (Rabs x)) by (unfold y; field; lra).
  replace (Zfloor y + 1 - 1)%Z with (Zfloor y) by lia.
  rewrite !bpow_exp, plus_IZR.
  rewrite <- (exp_ln (Rabs x) Hax) at 1 2.
  rewrite <- Hy. split.
  - destruct Hlo as [Hlt|Heq].
    + left. apply exp_increasing. nra.
    + right. rewrite Heq. reflexivity.
  - apply exp_increasing. nra.
Qed.

Lemma mag_unique (x : R) (e : Z) :
  bpow (e - 1) <= Rabs x < bpow e -> mag x = e.
Proof.
  intros [Hlo Hhi].
  assert (Hx : x <> 0).
  { intros ->. rewrite Rabs_R0 in Hlo. pose proof (bpow_pos (e - 1)). lra. }
  pose proof (mag_spec x Hx) as [Hlo' Hhi'].
  assert (mag x - 1 < e)%Z by (apply bpow_lt_inv; lra).
  assert (e - 1 < mag x)%Z by (apply bpow_lt_inv; lra).
  lia.
Qed.

Lemma mag_opp (x : R) : mag (- x) = mag x.
Proof. unfold mag. now rewrite Rabs_Ropp. Qed.

Lemma mag_le_bpow (x : R) (e : Z) : x <> 0 -> Rabs x < bpow e -> (mag x <= e)%Z.
Proof.
  intros Hx Hlt. pose proof (mag_spec x Hx) as [Hlo _].
  assert (mag x - 1 < e)%Z by (apply bpow_lt_inv; lra). lia.
Qed.

Lemma mag_le (x y : R) : x <> 0 -> Rabs x <= Rabs y -> (mag x <= mag y)%Z.
Proof.
  intros Hx Hxy.
  assert (Hy : y <> 0).
  { intros ->. rewrite Rabs_R0 in Hxy. pose proof (Rabs_pos_lt x Hx). lra. }
  apply mag_le_bpow; [exact Hx|].
  pose proof (mag_spec y Hy). lra.
Qed.

Lemma cexp_opp (f : Format) (x : R) : cexp f (- x) = cexp f x.
Proof. unfold cexp. now rewrite mag_opp. Qed.

Lemma cexp_of_binade (f : Format) (x : R) (e : Z) :
  bpow (e - 1) <= Rabs x < bpow e ->
  cexp f x = Z.max (e - Z.pos (prec f)) (emin f).
Proof. intros H. unfold cexp. now rewrite (mag_unique x e H). Qed.

(** *** The nearest integer *)

Lemma ZnearestE_cases (t : R) :
  ZnearestE t = Zfloor t \/ ZnearestE t = (Zfloor t + 1)%Z.
Proof.
  unfold ZnearestE. cbv zeta.
  destruct (Rlt_dec _ _); [now left|].
  destruct (Rlt_dec _ _); [now right|].
  destruct (Z.even _); [now left|now right].
Qed.


Lemma ZnearestE_eval (t : R) (m : Z) :
  Rabs (t - IZR m) < / 2 -> ZnearestE t = m.
Proof.
  intros H. apply Rabs_def2 in H. destruct H as [Hhi Hlo].
  unfold ZnearestE. cbv zeta.
  pose proof (Zfloor_bound t) as [Flo Fhi].
  destruct (Rlt_dec _ _) as [H1|H1].
  - assert (Zfloor t < m + 1)%Z by (apply lt_IZR; rewrite plus_IZR; lra).
    assert (m - 1 < Zfloor t)%Z by (apply lt_IZR; rewrite minus_IZR; lra).
    lia.
  - assert (Hge : / 2 <= t - IZR (Zfloor t)) by lra.
    assert (Zfloor t < m)%Z by (apply lt_IZR; lra).
    assert (m < Zfloor t + 2)%Z by (apply lt_IZR; rewrite plus_IZR; lra).
    assert (Hm : m = (Zfloor t + 1)%Z) by lia.
    destruct (Rlt_dec _ _) as [H2|H2]; [lia|].
    exfalso. rewrite Hm, plus_IZR in Hhi, Hlo. lra.
Qed.

Lemma ZnearestE_IZR (m : Z) : ZnearestE (IZR m) = m.
Proof.
  apply ZnearestE_eval. replace (IZR m - IZR m) with 0 by ring.
  rewrite Rabs_R0. lra.
Qed.

(** Halfway between [m] and [m + 1]. *)
Lemma ZnearestE_tie (t : R) (m : Z) :
  t = IZR m + / 2 -> ZnearestE t = if Z.even m then m else (m + 1)%Z.
Proof.
  intros ->. unfold ZnearestE. cbv zeta.
  assert (Hf : Zfloor (IZR m + / 2) = m) by (apply Zfloor_eq; lra).
  rewrite Hf.
  destruct (Rlt_dec _ _) as [H1|H1]; [lra|].
  destruct (Rlt_dec _ _) as [H2|H2]; [lra|]. reflexivity.
Qed.

Lemma ZnearestE_le (t u : R) : t <= u -> (ZnearestE t <= ZnearestE u)%Z.
Proof.
  intros Htu.
  pose proof (Zfloor_le t u Htu) as Hfl.
  destruct (Z.eq_dec (Zfloor t) (Zfloor u)) as [Heq|Hne].
  - unfold ZnearestE. cbv zeta. rewrite <- Heq.
    destruct (Rlt_dec (t - _) _) as [H1|H1];
      destruct (Rlt_dec (u - _) _) as [H2|H2]; try lia; try lra.
    + destruct (Rlt_dec _ (u - _)); [lia|]. destruct (Z.even _); lia.
    + destruct (Rlt_dec _ (t - _)) as [H3|H3];
        destruct (Rlt_dec _ (u - _)) as [H4|H4]; try lia; try lra.
      destruct (Z.even _); lia.
  - destruct (ZnearestE_cases t) as [-> | ->];
      destruct (ZnearestE_cases u) as [-> | ->]; lia.
Qed.

Lemma ZnearestE_opp (t : R) : ZnearestE (- t) = (- ZnearestE t)%Z.
Proof.
  pose proof (Zfloor_bound t) as [Flo Fhi].
  destruct (Rlt_dec (t - IZR (Zfloor t)) (/ 2)) as [H1|H1].
  { rewrite (ZnearestE_eval t (Zfloor t)) by (apply Rabs_def1; lra).
    apply ZnearestE_eval. rewrite opp_IZR. apply Rabs_def1; lra. }
  destruct (Rlt_dec (/ 2) (t - IZR (Zfloor t))) as [H2|H2].
  { rewrite (ZnearestE_eval t (Zfloor t + 1)) by
      (rewrite plus_IZR; apply Rabs_def1; lra).
    apply ZnearestE_eval. rewrite opp_IZR, plus_IZR. apply Rabs_def1; lra. }
  assert (Ht : t = IZR (Zfloor t) + / 2) by lra.
  rewrite (ZnearestE_tie t (Zfloor t) Ht).
  rewrite (ZnearestE_tie (- t) (- Zfloor t - 1)).
  2:{ rewrite minus_IZR, opp_IZR. lra. }
  replace (- Zfloor t - 1)%Z with (- (Zfloor t + 1))%Z by lia.
  rewrite Z.even_opp, Z.even_add. change (Z.even 1) with false.
  destruct (Z.even (Zfloor t)); cbn; lia.
Qed.

(** *** Rounding *)

Variable f : Format.

Lemma round_0 : round f 0 = 0.
Proof.
  unfold round. rewrite Rmult_0_l, (ZnearestE_IZR 0). ring.
Qed.

Lemma round_opp (x : R) : round f (- x) = - round f x.
Proof.
  unfold round. rewrite cexp_opp.
  replace (- x * bpow (- cexp f x)) with (- (x * bpow (- cexp f x))) by ring.
  rewrite ZnearestE_opp, opp_IZR. ring.
Qed.

(** A multiple of [2^c] not above the exponent of [x] is kept. *)
Lemma round_multiple (x : R) (m e : Z) :
  x = IZR m * bpow e -> (cexp f x <= e)%Z -> round f x = x.
Proof.
  intros Hx Hc. unfold round.
  set (c := cexp f x) in *.
  assert (Ht : x * bpow (- c) = IZR (m * 2 ^ (e - c))).
  { rewrite mult_IZR, <- bpow_nonneg_IZR by lia.
    rewrite Hx. unfold Z.sub. rewrite bpow_add. ring. }
  rewrite Ht, ZnearestE_IZR, <- Ht.
  rewrite Rmult_assoc, bpow_cancel. ring.
Qed.

Lemma round_id (x : R) : representable f x -> round f x = x.
Proof.
  intros (m & e & Hx & Hm & He).
  destruct (Req_dec x 0) as [->|Hx0]; [apply round_0|].
  apply (round_multiple x m e Hx).
  unfold cexp. apply Z.max_lub; [|exact He].
  assert (mag x <= Z.pos (prec f) + e)%Z; [|lia].
  apply mag_le_bpow; [exact Hx0|].
  rewrite Hx, Rabs_mult, (Rabs_pos_eq (bpow e)) by (left; apply bpow_pos).
  rewrite bpow_add, (bpow_nonneg_IZR (Z.pos (prec f))) by lia.
  apply Rmult_lt_compat_r; [apply bpow_pos|].
  rewrite <- abs_IZR. apply IZR_lt. exact Hm.
Qed.



(** The value of a rounding at a point whose binade is known. *)
Lemma round_eval (x : R) (e m : Z) :
  bpow (e - 1) <= Rabs x < bpow e ->
  Rabs (x - IZR m * bpow (Z.max (e - Z.pos (prec f)) (emin f)))
    < bpow (Z.max (e - Z.pos (prec f)) (emin f)) / 2 ->
  round f x = IZR m * bpow (Z.max (e - Z.pos (prec f)) (emin f)).
Proof.
  intros Hb Herr. unfold round. rewrite (cexp_of_binade f x e Hb).
  set (c := Z.max _ _) in *. f_equal. f_equal.
  apply ZnearestE_eval.
  pose proof (bpow_pos c) as Hc. pose proof (bpow_pos (- c)) as Hc'.
  pose proof (bpow_cancel c) as Hcc.
  replace (x * bpow (- c) - IZR m) with ((x - IZR m * bpow c) * bpow (- c)).
  2:{ rewrite Rmult_minus_distr_r, Rmult_assoc.
      rewrite (Rmult_comm (bpow c)), Hcc. ring. }
  rewrite Rabs_mult, (Rabs_pos_eq (bpow (- c))) by lra.
  apply Rmult_lt_reg_r with (bpow c); [exact Hc|].
  rewrite Rmult_assoc, Hcc. lra.
Qed.


Lemma round_le_pos (x y : R) : 0 < x -> x <= y -> round f x <= round f y.
Proof.
  intros Hx Hxy.
  assert (Hy : 0 < y) by lra.
  assert (Hcxy : (cexp f x <= cexp f y)%Z).
  { unfold cexp.
    assert (mag x <= mag y)%Z; [|lia].
    apply mag_le; [lra|]. rewrite !Rabs_pos_eq by lra. exact Hxy. }
  destruct (Z.eq_dec (cexp f x) (cexp f y)) as [Heq|Hne].
  { unfold round. rewrite Heq.
    apply Rmult_le_compat_r; [left; apply bpow_pos|].
    apply IZR_le, ZnearestE_le.
    apply Rmult_le_compat_r; [left; apply bpow_pos|exact Hxy]. }
  assert (Hlt : (cexp f x < cexp f y)%Z) by lia.
  assert (Hcy : cexp f y = (mag y - Z.pos (prec f))%Z).
  { unfold cexp in *. lia. }
  assert (Hmag : (mag x < mag y)%Z) by (unfold cexp in *; lia).
  pose proof (mag_spec x ltac:(lra)) as [_ Hxhi].
  pose proof (mag_spec y ltac:(lra)) as [Hylo _].
  rewrite Rabs_pos_eq in Hxhi, Hylo by lra.
  apply Rle_trans with (bpow (mag y - 1)).
  - unfold round. set (c := cexp f x) in *.
    assert (Hk : (0 <= mag y - 1 - c)%Z) by lia.
    replace (bpow (mag y - 1))
      with (IZR (2 ^ (mag y - 1 - c)) * bpow c).
    2:{ rewrite <- bpow_nonneg_IZR, <- bpow_add by exact Hk. f_equal. lia. }
    apply Rmult_le_compat_r; [left; apply bpow_pos|].
    apply IZR_le. rewrite <- (ZnearestE_IZR (2 ^ (mag y - 1 - c))).
    apply ZnearestE_le.
    rewrite <- bpow_nonneg_IZR by exact Hk.
    replace (mag y - 1 - c)%Z with ((mag y - 1) + - c)%Z by lia.
    rewrite bpow_add.
    apply Rmult_le_compat_r; [left; apply bpow_pos|].
    pose proof (bpow_le (mag x) (mag y - 1) ltac:(lia)). lra.
  - unfold round. set (c := cexp f y) in *.
    assert (Hk : (0 <= mag y - 1 - c)%Z) by lia.
    replace (bpow (mag y - 1))
      with (IZR (2 ^ (mag y - 1 - c)) * bpow c).
    2:{ rewrite <- bpow_nonneg_IZR, <- bpow_add by exact Hk. f_equal. lia. }
    apply Rmult_le_compat_r; [left; apply bpow_pos|].
    apply IZR_le. rewrite <- (ZnearestE_IZR (2 ^ (mag y - 1 - c))) at 1.
    apply ZnearestE_le.
    rewrite <- bpow_nonneg_IZR by exact Hk.
    replace (mag y - 1 - c)%Z with ((mag y - 1) + - c)%Z by lia.
    rewrite bpow_add.
    apply Rmult_le_compat_r; [left; apply bpow_pos|]. exact Hylo.
Qed.

Lemma round_nonneg (x : R) : 0 <= x -> 0 <= round f x.
Proof.
  intros Hx. unfold round.
  apply Rmult_le_pos; [|left; apply bpow_pos].
  apply IZR_le. rewrite <- (ZnearestE_IZR 0). apply ZnearestE_le.
  apply Rmult_le_pos; [exact Hx|left; apply bpow_pos].
Qed.

(** Rounding is monotone. *)
Lemma round_le (x y : R) : x <= y -> round f x <= round f y.
Proof.
  intros Hxy.
  destruct (Rlt_le_dec 0 x) as [Hx|Hx].
  { apply round_le_pos; assumption. }
  destruct (Rle_lt_dec 0 y) as [Hy|Hy].
  { pose proof (round_nonneg y Hy).
    pose proof (round_nonneg (- x) ltac:(lra)) as H'.
    rewrite round_opp in H'. lra. }
  pose proof (round_le_pos (- y) (- x) ltac:(lra) ltac:(lra)) as H.
  rewrite !round_opp in H. lra.
Qed.

Lemma round_le_id (x y : R) : representable f y -> x <= y -> round f x <= y.
Proof. intros Hy Hxy. rewrite <- (round_id y Hy). now apply round_le. Qed.

Lemma round_ge_id (x y : R) : representable f x -> x <= y -> x <= round f y.
Proof. intros Hx Hxy. rewrite <- (round_id x Hx). now apply round_le. Qed.

(** A rounded value is a value of the format. *)
Lemma round_representable (x : R) : representable f (round f x).
Proof.
  destruct (Req_dec x 0) as [->|Hx0].
  { rewrite round_0. exists 0%Z, (emin f). split; [ring|]. split; [|lia].
    cbn. apply Z.pow_pos_nonneg; lia. }
  unfold round. set (c := cexp f x). set (p := Z.pos (prec f)).
  set (m := ZnearestE (x * bpow (- c))).
  assert (Hc : (emin f <= c)%Z) by (unfold c, cexp; lia).
  assert (Hcm : (mag x - p <= c)%Z) by (unfold c, cexp, p; lia).
  assert (Hm : (Z.abs m <= 2 ^ p)%Z).
  { pose proof (mag_spec x Hx0) as [_ Hhi].
    assert (Ht : Rabs (x * bpow (- c)) <= IZR (2 ^ p)).
    { rewrite Rabs_mult, (Rabs_pos_eq (bpow (- c))) by (left; apply bpow_pos).
      rewrite <- bpow_nonneg_IZR by (unfold p; lia).
      replace p with ((p + c) + - c)%Z by lia. rewrite bpow_add.
      apply Rmult_le_compat_r; [left; apply bpow_pos|].
      pose proof (bpow_le (mag x) (p + c) ltac:(lia)). lra. }
    assert (Hlo' : - IZR (2 ^ p) <= x * bpow (- c)).
    { pose proof (Rle_abs (- (x * bpow (- c)))) as H.
      rewrite Rabs_Ropp in H. lra. }
    assert (Hhi' : x * bpow (- c) <= IZR (2 ^ p)).
    { pose proof (Rle_abs (x * bpow (- c))). lra. }
    apply Z.abs_le. split.
    - rewrite <- (ZnearestE_IZR (- 2 ^ p)). apply ZnearestE_le.
      rewrite opp_IZR. exact Hlo'.
    - rewrite <- (ZnearestE_IZR (2 ^ p)). apply ZnearestE_le. exact Hhi'. }
  destruct (Z.eq_dec (Z.abs m) (2 ^ p)%Z) as [Heq|Hne].
  - exists (Z.sgn m), (p + c)%Z. split; [|split].
    + rewrite bpow_add, (bpow_nonneg_IZR p) by (unfold p; lia).
      rewrite <- Heq, <- Rmult_assoc, <- mult_IZR.
      now rewrite Z.mul_comm, Z.abs_sgn.
    + assert (1 < 2 ^ p)%Z by (apply Z.pow_gt_1; unfold p; lia).
      pose proof (Z.sgn_spec m). unfold p in *. lia.
    + unfold p. lia.
  - exists m, c. split; [reflexivity|]. split; [unfold p in *; lia|exact Hc].
Qed.

End Rounding.

Section Formats.
Import IEEE754.
Local Open Scope R_scope.

(** The integers of at most [prec] bits are values of the format. *)
Lemma representable_IZR (f : Format) (m : Z) :
  (Z.abs m < 2 ^ Z.pos (prec f))%Z -> (emin f <= 0)%Z -> representable f (IZR m).
Proof.
  intros Hm He. exists m, 0%Z. split; [|split; assumption].
  rewrite bpow_0. ring.
Qed.

(** Every [float] is a [double]. *)
Lemma representable_float_double (x : R) :
  representable binary32 x -> representable binary64 x.
Proof.
  intros (m & e & Hx & Hm & He). exists m, e. split; [exact Hx|].
  cbn in *. split; lia.
Qed.


End Formats.

(** *** Roundings of given numbers *)

Section Evaluation.
Import IEEE754.
Local Open Scope R_scope.

Lemma bpow_Zpos (p : positive) : bpow (Z.pos p) = IZR (Z.pow_pos 2 p).
Proof. now rewrite (bpow_nonneg_IZR (Z.pos p)) by lia. Qed.

Lemma bpow_Zneg (p : positive) : bpow (Z.neg p) = / IZR (Z.pow_pos 2 p).
Proof.
  change (Z.neg p) with (- Z.pos p)%Z. now rewrite bpow_opp, bpow_Zpos.
Qed.

(** [round_eval] and [round_tie] for a positive number. *)
Lemma round_eval_pos (f : Format) (x : R) (e m c : Z) :
  c = Z.max (e - Z.pos (prec f)) (emin f) ->
  bpow (e - 1) <= x < bpow e ->
  - (bpow c / 2) < x - IZR m * bpow c < bpow c / 2 ->
  round f x = IZR m * bpow c.
Proof.
  intros -> Hb Herr.
  assert (Hx : 0 <= x) by (pose proof (bpow_pos (e - 1)); lra).
  apply round_eval.
  - now rewrite Rabs_pos_eq.
  - apply Rabs_def1; lra.
Qed.


(** The largest [float] below 1. *)
Lemma float_below_1 (x : R) :
  representable binary32 x -> x < 1 -> x <= 1 - bpow (-24).
Proof.
  intros (m & e & Hx & Hm & He) Hlt. cbn in Hm, He.
  pose proof (bpow_pos e) as Hpe.
  destruct (Z_lt_le_dec e (-24)) as [Hsmall|Hbig].
  - assert (Hm' : IZR m <= 16777216) by (apply IZR_le; lia).
    assert (He' : bpow e <= bpow (-25)) by (apply bpow_le; lia).
    rewrite bpow_Zneg in *.
    change (Z.pow_pos 2 25) with 33554432%Z in He'.
    change (Z.pow_pos 2 24) with 16777216%Z.
    destruct (Rle_dec 0 (IZR m)); nra.
  - assert (Hk : (0 <= e + 24)%Z) by lia.
    assert (Hs : x * bpow 24 = IZR (m * 2 ^ (e + 24))).
    { rewrite mult_IZR, <- bpow_nonneg_IZR by exact Hk.
      rewrite bpow_add, Hx. ring. }
    assert (Hlt' : x * bpow 24 < IZR (2 ^ 24)).
    { rewrite <- bpow_nonneg_IZR by lia. pose proof (bpow_pos 24). nra. }
    rewrite Hs in Hlt'. apply lt_IZR in Hlt'.
    assert (Hle : IZR (m * 2 ^ (e + 24)) <= IZR (2 ^ 24 - 1))
      by (apply IZR_le; lia).
    rewrite <- Hs in Hle.
    rewrite bpow_Zneg. rewrite bpow_Zpos in Hle.
    change (Z.pow_pos 2 24) with 16777216%Z in *.
    change (2 ^ 24 - 1)%Z with 16777215%Z in Hle. lra.
Qed.

End Evaluation.

(** Powers of two with a given exponent, as numbers. *)
Ltac bpow_values :=
  repeat
    match goal with
    | |- context [IEEE754.bpow ?k] =>
        lazymatch k with
        | Z0 => rewrite bpow_0
        | Z.pos ?p =>
            let v := eval vm_compute in (Z.pow_pos 2 p) in
            rewrite (bpow_Zpos p); change (Z.pow_pos 2 p) with v
        | Z.neg ?p =>
            let v := eval vm_compute in (Z.pow_pos 2 p) in
            rewrite (bpow_Zneg p); change (Z.pow_pos 2 p) with v
        | _ =>
            let k' := eval vm_compute in k in
            progress change (IEEE754.bpow k) with (IEEE754.bpow k')
        end
    end.

(** [x] is the value [m * 2^e] of the format. *)
Ltac representable_as m e :=
  exists m, e; split;
  [ bpow_values; lra
  | split; [ reflexivity | vm_compute; discriminate ] ].

(** The rounding of [x], which lies in the binade below [2^e], is
    [m * 2^c]. *)
Ltac round_is f x e m :=
  let c := eval vm_compute in
             (Z.max (e - Z.pos (IEEE754.prec f)) (IEEE754.emin f)) in
  apply (round_eval_pos f x e m c);
  [ reflexivity | bpow_values; lra | bpow_values; lra ].

Section Constants.
Import IEEE754.
Local Open Scope R_scope.

(** The literals of the source that are values of binary32. *)
Lemma f32_exact (x : R) : representable binary32 x -> f32 x = x.
Proof. apply round_id. Qed.

Lemma f64_exact (x : R) : representable binary64 x -> f64 x = x.
Proof. apply round_id. Qed.

Lemma f32_le (x y : R) : x <= y -> f32 x <= f32 y.
Proof. apply round_le. Qed.

Lemma f64_le (x y : R) : x <= y -> f64 x <= f64 y.
Proof. apply round_le. Qed.

Lemma f32_1_5 : f32 1.5 = 1.5.
Proof. apply f32_exact. representable_as 3%Z (-1)%Z. Qed.

Lemma f32_0_75 : f32 0.75 = 0.75.
Proof. apply f32_exact. representable_as 3%Z (-2)%Z. Qed.


(** Small whole numbers are values of both formats. *)
Lemma representable_small (f : Format) (n : Z) :
  f = binary32 \/ f = binary64 ->
  (Z.abs n < 2 ^ 24)%Z -> representable f (IZR n).
Proof.
  intros Hf Hn. apply representable_IZR.
  - destruct Hf as [-> | ->]; cbn; lia.
  - destruct Hf as [-> | ->]; cbn; lia.
Qed.

End Constants.

(** ** Instance placement *)

Section GeneratorProperties.
Import Instances.

(** A loop whose body keeps an invariant runs to its end and
    establishes the invariant there. *)
Lemma for_loop_invariant {S : Type} (body : nat -> S -> option S)
    (P : nat -> S -> Prop) (count from : nat) (s : S) :
  P from s ->
  (forall i s, from <= i < from + count -> P i s ->
     exists s', body i s = Some s' /\ P (Datatypes.S i) s') ->
  exists s', for_loop body from count s = Some s' /\ P (from + count) s'.
Proof.
  revert from s. induction count as [|n IH]; intros from s HP Hstep.
  - exists s. split; [reflexivity|]. now rewrite Nat.add_0_r.
  - destruct (Hstep from s ltac:(lia) HP) as (s1 & Hbody & HP1).
    destruct (IH (Datatypes.S from) s1 HP1) as (s2 & Hloop & HP2).
    { intros i s0 Hi. apply Hstep. lia. }
    exists s2. split.
    + cbn [for_loop]. rewrite Hbody. exact Hloop.
    + now replace (from + Datatypes.S n) with (Datatypes.S from + n) by lia.
Qed.

Lemma div_mod_pass (c r k : nat) :
  r < k -> (c * k + r) / k = c /\ (c * k + r) mod k = r.
Proof.
  intros Hr. split; symmetry.
  - apply (Nat.div_unique _ k c r); lia.
  - apply (Nat.mod_unique _ k c r); lia.
Qed.

Variable body : Body.
Variable count : nat.
Variable rings : list vec2.

Let K := List.length rings.
Let chunk := count / K.

Local Abbreviation flat_index := (Instances.flat_index count rings).
Local Abbreviation record_of_pass := (Instances.record_of_pass body rings).
Local Abbreviation after_passes := (Instances.after_passes body count rings).

Hypothesis rings_nonempty : K <> 0.

Lemma chunks_fit : chunk * K <= count.
Proof. unfold chunk. rewrite Nat.mul_comm. apply Nat.Div0.mul_div_le. Qed.

Lemma flat_index_bound (t : nat) : t < chunk * K -> flat_index t < chunk * K.
Proof.
  intros Ht. unfold Instances.flat_index. fold K. fold chunk.
  assert (Hq : t / K < chunk)
    by (apply Nat.Div0.div_lt_upper_bound; lia).
  pose proof (Nat.mod_upper_bound t K rings_nonempty) as Hr.
  nia.
Qed.

Lemma flat_index_inj (t t' : nat) :
  t < chunk * K -> t' < chunk * K -> flat_index t = flat_index t' -> t = t'.
Proof.
  intros Ht Ht' Heq. unfold Instances.flat_index in Heq. fold K in Heq. fold chunk in Heq.
  assert (Hq : t / K < chunk) by (apply Nat.Div0.div_lt_upper_bound; lia).
  assert (Hq' : t' / K < chunk) by (apply Nat.Div0.div_lt_upper_bound; lia).
  assert (Hr : t mod K = t' mod K) by nia.
  assert (Hc : t / K = t' / K) by nia.
  rewrite (Nat.div_mod_eq t K), (Nat.div_mod_eq t' K), Hr, Hc. reflexivity.
Qed.

Lemma fill_instance_pass (c r : nat) (g : Gen) :
  c < chunk -> r < K ->
  after_passes (c * K + r) g ->
  exists g', fill_instance body rings chunk c r g = Some g' /\
             after_passes (c * K + Datatypes.S r) g'.
Proof.
  intros Hc Hr Hg.
  set (t := c * K + r).
  assert (Ht : t < chunk * K) by (subst t; nia).
  destruct (div_mod_pass c r K Hr) as [Hdiv Hmod]. fold t in Hdiv, Hmod.
  assert (Hidx : c + r * chunk = flat_index t).
  { unfold Instances.flat_index. fold K. fold chunk. rewrite Hdiv, Hmod. reflexivity. }
  pose proof (flat_index_bound t Ht) as Hb. pose proof chunks_fit as Hfit.
  destruct (lookup_lt_is_Some_2 rings r Hr) as [ring Hring].
  destruct (lookup_lt_is_Some_2 (instanceData g) (flat_index t)) as [old Hold].
  { rewrite (ap_length _ _ _ _ _ Hg). lia. }
  unfold fill_instance. rewrite Hidx, Hring. cbn. rewrite Hold. cbn.
  eexists. split; [reflexivity|].
  replace (c * K + Datatypes.S r) with (Datatypes.S t) by (subst t; lia).
  constructor; cbn [instanceData uniformCalls randCalls written].
  - rewrite length_insert. apply (ap_length _ _ _ _ _ Hg).
  - rewrite (ap_uniform _ _ _ _ _ Hg). fold t. lia.
  - rewrite (ap_rand _ _ _ _ _ Hg). fold t. lia.
  - rewrite (ap_written _ _ _ _ _ Hg). fold t.
    rewrite seq_S, map_app. reflexivity.
  - intros t' Ht'.
    destruct (decide (t' = t)) as [->|Hne].
    + rewrite list_lookup_insert_eq by (rewrite (ap_length _ _ _ _ _ Hg); lia).
      unfold Instances.record_of_pass. fold K. rewrite Hmod, Hring. cbn.
      rewrite (ap_uniform _ _ _ _ _ Hg), (ap_rand _ _ _ _ _ Hg). fold t.
      split; [reflexivity | eauto].
    + rewrite list_lookup_insert_ne.
      * apply (ap_records _ _ _ _ _ Hg). lia.
      * intros Heq. apply Hne. symmetry.
        apply flat_index_inj; [lia | lia | exact Heq].
  - intros i Hi Hfree.
    rewrite list_lookup_insert_ne by (apply Hfree; lia).
    apply (ap_untouched _ _ _ _ _ Hg); [exact Hi|].
    intros t' Ht'. apply Hfree. lia.
Qed.

(** The generator runs to its end: all [chunk * K] passes are made. *)
Lemma generate_passes :
  exists g, generate body count rings = Some g /\
            after_passes (chunk * K) g.
Proof.
  unfold generate. fold K.
  destruct (decide (K = 0)) as [E|_]; [contradiction|]. fold chunk.
  destruct (for_loop_invariant
              (fun c => for_loop (fill_instance body rings chunk c) 0 K)
              (fun c g => after_passes (c * K) g) chunk 0
              {| instanceData := replicate count zero_InstanceData;
                 uniformCalls := 0; randCalls := 0; written := [] |})
    as (g & Hrun & Hg).
  - constructor; cbn; try reflexivity.
    + apply length_replicate.
    + intros t' Ht'. lia.
    + intros i Hi _. apply lookup_replicate_2. exact Hi.
  - intros c g [_ Hc] Hg. cbn in Hc.
    destruct (for_loop_invariant
                (fill_instance body rings chunk c)
                (fun r g => after_passes (c * K + r) g) K 0 g)
      as (g' & Hrun & Hg').
    + rewrite Nat.add_0_r. exact Hg.
    + intros r g0 [_ Hr] Hg0. cbn in Hr.
      apply fill_instance_pass; assumption.
    + exists g'. split; [exact Hrun|].
      replace (Datatypes.S c * K) with (c * K + (0 + K)) by lia. exact Hg'.
  - exists g. split; [exact Hrun | exact Hg].
Qed.

(** The indices assigned are exactly the [c + r * chunk]. *)
Lemma flat_index_image (i : nat) :
  (exists t, t < chunk * K /\ flat_index t = i) <->
  (exists c r, c < chunk /\ r < K /\ i = c + r * chunk).
Proof.
  split.
  - intros (t & Ht & <-). exists (t / K), (t mod K).
    split; [apply Nat.Div0.div_lt_upper_bound; lia|].
    split; [apply Nat.mod_upper_bound; exact rings_nonempty | reflexivity].
  - intros (c & r & Hc & Hr & ->). exists (c * K + r).
    split; [nia|]. unfold Instances.flat_index. fold K. fold chunk.
    destruct (div_mod_pass c r K Hr) as [-> ->]. reflexivity.
Qed.

(** ... which are the indices below [chunk * K]. *)
Lemma flat_index_onto (i : nat) :
  i < chunk * K -> exists c r, c < chunk /\ r < K /\ i = c + r * chunk.
Proof.
  intros Hi.
  assert (Hchunk : chunk <> 0) by (intros E; rewrite E in Hi; lia).
  exists (i mod chunk), (i / chunk).
  split; [apply Nat.mod_upper_bound; exact Hchunk|].
  split; [apply Nat.Div0.div_lt_upper_bound; lia|].
  rewrite (Nat.div_mod_eq i chunk) at 1. lia.
Qed.

(** The record the pass for position [c] of ring [r] leaves at its
    index. *)
Lemma record_of_chunk_position (g : Gen) (c r : nat) :
  after_passes (chunk * K) g -> c < chunk -> r < K ->
  exists ring,
    rings !! r = Some ring /\
    instanceData g !! (c + r * chunk)
      = Some (body ring (8 * (c * K + r)) (c * K + r)).
Proof.
  intros Hg Hc Hr.
  destruct (div_mod_pass c r K Hr) as [Hdiv Hmod].
  destruct (ap_records _ _ _ _ _ Hg (c * K + r) ltac:(nia)) as [Hrec [inst Hsome]].
  unfold Instances.record_of_pass, Instances.flat_index in Hrec, Hsome.
  fold K in Hrec, Hsome. fold chunk in Hrec.
  rewrite Hmod in Hrec, Hsome. rewrite Hdiv in Hrec.
  destruct (rings !! r) as [ring|]; [|discriminate Hsome].
  exists ring. split; [reflexivity | exact Hrec].
Qed.

End GeneratorProperties.

Section ConfiguredGenerator.
Import Instances.

Variable body : Body.

Lemma configured_chunk : INSTANCE_COUNT / List.length rings = 341.
Proof. reflexivity. Qed.

Lemma configured_rings : List.length rings <> 0.
Proof. discriminate. Qed.

(** The configured generator makes all 341 * 6 passes. *)
Lemma generate_configured :
  exists g,
    generate body INSTANCE_COUNT rings = Some g /\
    Instances.after_passes body INSTANCE_COUNT rings (341 * 6) g.
Proof.
  destruct (generate_passes body INSTANCE_COUNT rings configured_rings)
    as (g & Hgen & Hg).
  rewrite configured_chunk in Hg. eauto.
Qed.

Lemma written_iff (g : Gen) (i : nat) :
  Instances.after_passes body INSTANCE_COUNT rings (341 * 6) g ->
  In i (written g) <->
  exists c r, c < 341 /\ r < 6 /\ i = c + r * 341.
Proof.
  intros Hg. rewrite (Instances.ap_written _ _ _ _ _ Hg), in_map_iff.
  pose proof (flat_index_image INSTANCE_COUNT rings configured_rings i) as Himg.
  rewrite configured_chunk in Himg. change (List.length rings) with 6 in Himg.
  rewrite <- Himg. split.
  - intros (t & Ht & Hin). apply in_seq in Hin. exists t. split; [lia | exact Ht].
  - intros (t & Ht & Hidx). exists t. split; [exact Hidx|]. apply in_seq. lia.
Qed.

(** The indices assigned are the indices below 2046. *)
Lemma written_below (g : Gen) (i : nat) :
  Instances.after_passes body INSTANCE_COUNT rings (341 * 6) g ->
  In i (written g) <-> i < 2046.
Proof.
  intros Hg. rewrite (written_iff g i Hg). split.
  - intros (c & r & Hc & Hr & ->). lia.
  - intros Hi.
    destruct (flat_index_onto INSTANCE_COUNT rings configured_rings i)
      as (c & r & Hc & Hr & Hi').
    { rewrite configured_chunk. cbn. lia. }
    rewrite configured_chunk in *. exists c, r. auto.
Qed.

(** The last two records are left as [resize] created them. *)
Lemma tail_untouched (g : Gen) (i : nat) :
  Instances.after_passes body INSTANCE_COUNT rings (341 * 6) g ->
  2046 <= i < 2048 ->
  instanceData g !! i = Some zero_InstanceData.
Proof.
  intros Hg Hi. apply (Instances.ap_untouched _ _ _ _ _ Hg).
  - unfold INSTANCE_COUNT. lia.
  - intros t' Ht' Heq.
    pose proof (flat_index_bound INSTANCE_COUNT rings configured_rings t') as Hb.
    rewrite configured_chunk in Hb. change (List.length rings) with 6 in Hb.
    lia.
Qed.

(** The records of the 341 * 6 passes, by ring and position. *)
Lemma configured_record (g : Gen) (c r : nat) :
  Instances.after_passes body INSTANCE_COUNT rings (341 * 6) g ->
  c < 341 -> r < 6 ->
  exists ring,
    rings !! r = Some ring /\
    instanceData g !! (c + r * 341)
      = Some (body ring (8 * (c * 6 + r)) (c * 6 + r)).
Proof.
  intros Hg Hc Hr.
  apply (record_of_chunk_position body INSTANCE_COUNT rings configured_rings g c r);
    rewrite ?configured_chunk; assumption.
Qed.

Lemma configured_buffer_size (n : nat) :
  n = INSTANCE_COUNT -> (N.of_nat n * sizeof_InstanceData = 65536)%N.
Proof. intros ->. reflexivity. Qed.

End ConfiguredGenerator.

Section ConfiguredUpload.
Import Instances.

Variable pf : Platform.
Variable src : RandomSource.
Variable layerCount : N.

(** [prepareInstanceData] runs the generator with the loop body of the
    source and completes. *)
Lemma prepareInstanceData_runs :
  exists g upload,
    prepareInstanceData pf src layerCount = Some (g, upload) /\
    generate (make_instance pf src layerCount) INSTANCE_COUNT rings = Some g /\
    Instances.after_passes (make_instance pf src layerCount)
      INSTANCE_COUNT rings (341 * 6) g.
Proof.
  destruct (generate_configured (make_instance pf src layerCount))
    as (g & Hgen & Hg).
  unfold prepareInstanceData. rewrite Hgen. cbn [mbind option_bind].
  eexists _, _. split; [reflexivity|]. split; [reflexivity | exact Hg].
Qed.

(** The sizes of the upload are all the size of the vector. *)
Lemma upload_sizes (g : Gen) (upload : Upload) :
  prepareInstanceData pf src layerCount = Some (g, upload) ->
  let size := (N.of_nat (List.length (instanceData g)) * sizeof_InstanceData)%N in
  upload = {| instanceBuffer_size := size; staging_size := size;
              device_size := size; copy_size := size;
              descriptor_range := size |}.
Proof.
  unfold prepareInstanceData.
  destruct (generate (make_instance pf src layerCount) INSTANCE_COUNT rings)
    as [g'|]; [|discriminate].
  cbn [mbind option_bind]. intros [= <- <-]. reflexivity.
Qed.

End ConfiguredUpload.

(** C1.  With 2048 instances and 6 rings [prepareInstanceData] runs to
    its end, whatever the implementation and the random sources, and
    leaves a vector of 2048 records of which it assigns exactly
    341 * 6 = 2046.  The indices it assigns are pairwise different, they
    are exactly the [c + r * 341] with [c < 341] and [r < 6], that is the
    indices below 2046.  After the run the vector holds at each index
    [c + r * 341] the record the loop body computes for ring [r] in pass
    number [c * 6 + r], which is made from the uniform draws
    [8 * (c * 6 + r)] and following and from call number [c * 6 + r] of
    [rand()]; the records at 2046 and 2047 are never assigned and hold
    the value they were created with. *)
Theorem C1_populates_floor_chunks
    (pf : Instances.Platform) (src : Instances.RandomSource) (layerCount : N) :
  exists g upload,
    Instances.prepareInstanceData pf src layerCount = Some (g, upload) /\
    List.length (Instances.instanceData g) = 2048 /\
    List.length (Instances.written g) = 2046 /\
    NoDup (Instances.written g) /\
    (forall i, In i (Instances.written g) <->
               exists c r, c < 341 /\ r < 6 /\ i = c + r * 341) /\
    (forall i, In i (Instances.written g) <-> i < 2046) /\
    ~ In 2046 (Instances.written g) /\ ~ In 2047 (Instances.written g) /\
    (forall c r, c < 341 -> r < 6 ->
       exists ring,
         Instances.rings !! r = Some ring /\
         Instances.instanceData g !! (c + r * 341)
           = Some (Instances.make_instance pf src layerCount ring
                     (8 * (c * 6 + r)) (c * 6 + r))) /\
    Instances.instanceData g !! 2046 = Some Instances.zero_InstanceData /\
    Instances.instanceData g !! 2047 = Some Instances.zero_InstanceData.
Proof.
  destruct (prepareInstanceData_runs pf src layerCount) as (g & up & Hrun & _ & Hg).
  exists g, up.
  set (body := Instances.make_instance pf src layerCount) in *.
  pose proof (written_iff body g) as Hiff.
  pose proof (fun i => written_below body g i Hg) as Hlt.
  pose proof (fun i => tail_untouched body g i Hg) as Hzero.
  split; [exact Hrun|].
  split; [apply (Instances.ap_length _ _ _ _ _ Hg)|].
  split; [rewrite (Instances.ap_written _ _ _ _ _ Hg), length_map, length_seq; reflexivity|].
  split.
  { rewrite (Instances.ap_written _ _ _ _ _ Hg).
    apply (NoDup_fmap_2_strong (Instances.flat_index INSTANCE_COUNT Instances.rings)).
    - intros t t' Ht Ht' Heq. apply elem_of_seq in Ht, Ht'.
      apply (flat_index_inj INSTANCE_COUNT Instances.rings configured_rings);
        rewrite ?configured_chunk; change (List.length Instances.rings) with 6;
        [lia | lia | exact Heq].
    - apply NoDup_seq. }
  split; [intros i; apply (Hiff i Hg)|].
  split; [exact Hlt|].
  split; [rewrite Hlt; lia|].
  split; [rewrite Hlt; lia|].
  split; [intros c r Hc Hr; apply (configured_record body g c r Hg Hc Hr)|].
  split; apply Hzero; lia.
Qed.

(** *** The values of one record *)

Section RecordProperties.
Import IEEE754 Instances.
Local Open Scope R_scope.







(** The scale lies between 0.375, excluded, and 1.875, included. *)
Lemma instance_scale_bounds (U1 U2 : R) :
  0 <= U1 < 1 -> representable binary32 U2 -> 0 <= U2 < 1 ->
  0.375 < instance_scale U1 U2 <= 1.875.
Proof.
  intros [H10 H11] HU2 [H20 H21]. unfold instance_scale.
  pose proof (float_below_1 U2 HU2 H21) as H2max.
  rewrite f32_1_5, f32_0_75.
  set (r1 := f32 (1.5 + U1)).
  assert (Hr1 : 1.5 <= r1 <= 2.5).
  { split.
    - apply round_ge_id; [representable_as 3%Z (-1)%Z | lra].
    - apply round_le_id; [representable_as 5%Z (-1)%Z | lra]. }
  set (r2 := f32 (r1 - U2)).
  assert (Hr2 : 0.5 + bpow (-24) <= r2 <= 2.5).
  { split.
    - apply round_ge_id; [representable_as 8388609%Z (-24)%Z | lra].
    - apply round_le_id; [representable_as 5%Z (-1)%Z | lra]. }
  assert (Hlo : 0.375 + bpow (-25) <= f32 (r2 * 0.75)).
  { apply round_ge_id; [representable_as 12582913%Z (-25)%Z|].
    revert Hr2. bpow_values. lra. }
  assert (Hhi : f32 (r2 * 0.75) <= 1.875).
  { apply round_le_id; [representable_as 15%Z (-3)%Z | lra]. }
  split; [|exact Hhi].
  revert Hlo. bpow_values. lra.
Qed.

(** The upper end is reached: for the draws [1 - 2^-24] and 0 the sum
    [1.5 + U1] rounds to 2.5. *)
Lemma instance_scale_reaches_upper_end :
  instance_scale (1 - bpow (-24)) 0 = 1.875.
Proof.
  unfold instance_scale. rewrite f32_1_5, f32_0_75.
  assert (H1 : f32 (1.5 + (1 - bpow (-24))) = 2.5).
  { replace 2.5 with (IZR 10485760 * bpow (-22)) by (bpow_values; lra).
    unfold f32.
    round_is binary32 (1.5 + (1 - bpow (-24))) 2%Z 10485760%Z. }
  rewrite H1, Rminus_0_r.
  rewrite (f32_exact 2.5) by (representable_as 5%Z (-1)%Z).
  replace (2.5 * 0.75) with 1.875 by lra.
  apply f32_exact. representable_as 15%Z (-3)%Z.
Qed.

(** Discarding the fraction of a number between two whole numbers. *)
Lemma uint32_of_float_range (v : R) (lo hi : Z) :
  (0 <= lo)%Z -> IZR lo <= v <= IZR hi ->
  (lo <= uint32_of_float v <= hi)%Z.
Proof.
  intros Hlo [Hv1 Hv2].
  assert (Hv0 : 0 <= v) by (apply IZR_le in Hlo; lra).
  unfold uint32_of_float. destruct (Rle_dec 0 v) as [_|Hn]; [|contradiction].
  pose proof (base_Int_part v) as [Hi1 Hi2]. split.
  - apply Z.lt_succ_r, lt_IZR. rewrite succ_IZR. lra.
  - apply le_IZR. lra.
Qed.

Lemma uint32_of_float_whole (n : Z) : (0 <= n)%Z -> uint32_of_float (IZR n) = n.
Proof.
  intros Hn. pose proof (uint32_of_float_range (IZR n) n n Hn ltac:(lra)). lia.
Qed.

(** [rnd] returns a value between 0 and its argument, both included. *)
Lemma rnd_range (src : RandomSource) (n : nat) (L : Z) :
  well_formed src -> (0 <= L < 2 ^ 24)%Z ->
  0 <= rnd src n (f32 (IZR L)) <= IZR L.
Proof.
  intros Hsrc HL. unfold rnd.
  pose proof (rand_range src Hsrc n) as Hr.
  pose proof (rand_max_pos src Hsrc) as Hmax.
  assert (H32 : forall k, (Z.abs k < 2 ^ 24)%Z -> representable binary32 (IZR k)).
  { intros k Hk. apply representable_small; [now left | exact Hk]. }
  assert (H64 : forall k, (Z.abs k < 2 ^ 24)%Z -> representable binary64 (IZR k)).
  { intros k Hk. apply representable_small; [now right | exact Hk]. }
  rewrite (f32_exact (IZR L)) by (apply H32; lia).
  rewrite (f64_exact (IZR L)) by (apply H64; lia).
  set (r := f64 (IZR (rand src n))). set (M := f64 (IZR (RAND_MAX src))).
  assert (HM : 1 <= M).
  { apply (round_ge_id binary64 1 _ (H64 1%Z ltac:(lia))). apply IZR_le. lia. }
  assert (Hr0 : 0 <= r).
  { apply (round_ge_id binary64 0 _ (H64 0%Z ltac:(lia))). apply IZR_le. lia. }
  assert (HrM : r <= M) by (apply f64_le, IZR_le; lia).
  assert (Hq : 0 <= r / M <= 1).
  { split.
    - apply Rmult_le_pos; [exact Hr0 | left; apply Rinv_0_lt_compat; lra].
    - apply (Rmult_le_reg_r M); [lra|].
      unfold Rdiv. rewrite Rmult_assoc, Rinv_l by lra. lra. }
  set (q := f64 (r / M)).
  assert (Hq' : 0 <= q <= 1).
  { split.
    - apply (round_ge_id binary64 0 _ (H64 0%Z ltac:(lia))). lra.
    - apply (round_le_id binary64 _ 1 (H64 1%Z ltac:(lia))). lra. }
  assert (HLR : 0 <= IZR L) by (apply IZR_le; lia).
  set (p := f64 (IZR L * q)).
  assert (Hp : 0 <= p <= IZR L).
  { split.
    - apply (round_ge_id binary64 0 _ (H64 0%Z ltac:(lia))). nra.
    - apply (round_le_id binary64 _ _ (H64 L ltac:(lia))). nra. }
  split.
  - apply (round_ge_id binary32 0 _ (H32 0%Z ltac:(lia))). lra.
  - apply (round_le_id binary32 _ _ (H32 L ltac:(lia))). lra.
Qed.

(** When [rand()] returns [RAND_MAX], [rnd] returns its argument. *)
Lemma rnd_at_RAND_MAX (src : RandomSource) (n : nat) (L : Z) :
  well_formed src -> (0 <= L < 2 ^ 24)%Z ->
  rand src n = RAND_MAX src ->
  rnd src n (f32 (IZR L)) = IZR L.
Proof.
  intros Hsrc HL Hrand. unfold rnd. rewrite Hrand.
  pose proof (rand_max_pos src Hsrc) as Hmax.
  assert (H32 : representable binary32 (IZR L))
    by (apply representable_small; [now left | lia]).
  assert (H64 : representable binary64 (IZR L))
    by (apply representable_small; [now right | lia]).
  assert (H1 : representable binary64 1)
    by (apply (representable_small binary64 1); [now right | lia]).
  set (M := f64 (IZR (RAND_MAX src))).
  assert (HM : 1 <= M) by (apply (round_ge_id binary64 1 _ H1), IZR_le; lia).
  replace (M / M) with 1 by (field; lra).
  rewrite (f64_exact 1 H1), (f32_exact _ H32), (f64_exact _ H64), Rmult_1_r.
  rewrite (f64_exact _ H64). exact (f32_exact _ H32).
Qed.

(** The texture index assigned from the [nr]-th call of [rand()] lies
    between 0 and the layer count, both included, and is the layer count
    when [rand()] returns [RAND_MAX]. *)
Lemma texIndex_range (src : RandomSource) (layerCount : N) (nr : nat) :
  well_formed src -> (layerCount < 2 ^ 24)%N ->
  let index := uint32_of_float (rnd src nr (f32 (IZR (Z.of_N layerCount)))) in
  (0 <= index <= Z.of_N layerCount)%Z /\
  (rand src nr = RAND_MAX src -> index = Z.of_N layerCount).
Proof.
  intros Hsrc HL index. subst index.
  assert (HL' : (0 <= Z.of_N layerCount < 2 ^ 24)%Z) by lia.
  split.
  - apply uint32_of_float_range; [lia|].
    apply (rnd_range src nr _ Hsrc HL').
  - intros Hrand. rewrite (rnd_at_RAND_MAX src nr _ Hsrc HL' Hrand).
    apply uint32_of_float_whole. lia.
Qed.

End RecordProperties.

Section WrittenRecords.
Import Instances.

(** Every index assigned holds the record of the pass that assigned
    it. *)
Lemma written_record (body : Body) (count : nat)
    (rings : list vec2) (T : nat) (g : Gen) (i : nat) :
  Instances.after_passes body count rings T g ->
  In i (written g) ->
  exists t ring,
    t < T /\ Instances.flat_index count rings t = i /\
    rings !! (t mod List.length rings) = Some ring /\
    instanceData g !! i = Some (body ring (8 * t) t).
Proof.
  intros Hg Hin.
  rewrite (Instances.ap_written _ _ _ _ _ Hg) in Hin.
  apply in_map_iff in Hin as (t & <- & Ht). apply in_seq in Ht.
  destruct (Instances.ap_records _ _ _ _ _ Hg t ltac:(lia)) as [Hrec [inst Hsome]].
  unfold record_of_pass in Hrec, Hsome.
  destruct (rings !! (t mod List.length rings)) as [ring|] eqn:Hring;
    [|discriminate Hsome].
  exists t, ring. split; [lia|]. split; [reflexivity|].
  split; [exact Hring | exact Hrec].
Qed.

End WrittenRecords.

Local Open Scope R_scope.

Lemma constant_source_well_formed (u : R) (rand_max r : Z) :
  IEEE754.representable IEEE754.binary32 u ->
  0 <= u < 1 -> (0 < rand_max)%Z -> (0 <= r <= rand_max)%Z ->
  Instances.well_formed (Instances.constant_source u rand_max r).
Proof. intros Hf Hu Hmax Hr. constructor; intros; assumption. Qed.

Lemma half_is_float : IEEE754.representable IEEE754.binary32 0.5.
Proof. representable_as 1%Z (-1)%Z. Qed.

Lemma below_1_is_float :
  IEEE754.representable IEEE754.binary32 (1 - IEEE754.bpow (-24)) /\
  0 <= 1 - IEEE754.bpow (-24) < 1.
Proof.
  split; [representable_as 16777215%Z (-24)%Z|]. bpow_values. lra.
Qed.


Lemma periodic_source_well_formed (draws : list R) (rand_max r : Z) :
  Forall (fun u => IEEE754.representable IEEE754.binary32 u /\ 0 <= u < 1) draws ->
  (0 < rand_max)%Z -> (0 <= r <= rand_max)%Z ->
  Instances.well_formed (Instances.periodic_source draws rand_max r).
Proof.
  intros Hdraws Hmax Hr.
  assert (Hnth : forall n,
            IEEE754.representable IEEE754.binary32 (nth n draws 0) /\
            0 <= nth n draws 0 < 1).
  { intros n. destruct (Nat.lt_ge_cases n (List.length draws)) as [Hlt|Hge].
    - apply (proj1 (List.Forall_nth _ draws) Hdraws n 0 Hlt).
    - rewrite nth_overflow by exact Hge.
      split; [apply (representable_small IEEE754.binary32 0); [now left | cbn; lia] | lra]. }
  constructor; cbn; intros; try assumption; apply Hnth.
Qed.




(** C5 (as amended).  Every record the generator writes, which are the
    records at the 2046 indices below 2046 of the uploaded vector of
    2048, has the scale [(1.5 + U1 - U2) * 0.75], each operation rounded
    to [float], for two draws [U1], [U2] in [0, 1); its scale is above
    0.375 and at most 1.875, and so greater than 0. *)
Theorem C5_written_scale_positive
    (pf : Instances.Platform) (src : Instances.RandomSource) (layerCount : N) :
  Instances.well_formed src ->
  exists g upload,
    Instances.prepareInstanceData pf src layerCount = Some (g, upload) /\
    List.length (Instances.instanceData g) = 2048%nat /\
    forall i, (i < 2046)%nat ->
      In i (Instances.written g) /\
      exists inst U1 U2,
        Instances.instanceData g !! i = Some inst /\
        0 <= U1 < 1 /\ 0 <= U2 < 1 /\
        Instances.scale inst = f32 (f32 (f32 (1.5 + U1) - U2) * 0.75) /\
        0.375 < Instances.scale inst <= 1.875 /\
        0 < Instances.scale inst.
Proof.
  intros Hsrc.
  destruct (prepareInstanceData_runs pf src layerCount)
    as (g & up & Hrun & _ & Hg).
  exists g, up. split; [exact Hrun|].
  split; [apply (Instances.ap_length _ _ _ _ _ Hg)|].
  intros i Hi. apply (written_below _ g i Hg) in Hi as Hin.
  split; [exact Hin|].
  destruct (written_record _ _ _ _ _ _ Hg Hin)
    as (t & ring & _ & _ & _ & Hrec).
  set (left := if Instances.scale_right_first pf then 7%nat else 6%nat).
  set (right := if Instances.scale_right_first pf then 6%nat else 7%nat).
  pose proof (Instances.uniform_range src Hsrc (8 * t + left)) as H1.
  pose proof (Instances.uniform_range src Hsrc (8 * t + right)) as H2.
  pose proof (Instances.uniform_float src Hsrc (8 * t + right)) as H2f.
  pose proof (instance_scale_bounds _ _ H1 H2f H2) as Hb.
  eexists _, (Instances.uniformDist src (8 * t + left)),
          (Instances.uniformDist src (8 * t + right)).
  split; [exact Hrec|]. cbn [Instances.make_instance Instances.scale].
  fold left right.
  split; [exact H1|]. split; [exact H2|].
  split; [unfold Instances.instance_scale; now rewrite f32_1_5, f32_0_75|].
  split; [exact Hb | lra].
Qed.

(** The amended C5 at a source whose draws are all one half. *)
Lemma C5_written_scale_positive_witness :
  Instances.well_formed
    (Instances.constant_source 0.5 Instances.glibc_RAND_MAX 12345) /\
  exists g upload,
    Instances.prepareInstanceData
      (Instances.left_to_right Instances.FloatOverloads)
      (Instances.constant_source 0.5 Instances.glibc_RAND_MAX 12345) 6
    = Some (g, upload) /\
    exists inst,
      Instances.instanceData g !! 0%nat = Some inst /\
      0 < Instances.scale inst.
Proof.
  assert (Hsrc : Instances.well_formed
            (Instances.constant_source 0.5 Instances.glibc_RAND_MAX 12345)).
  { apply constant_source_well_formed;
      [exact half_is_float | lra | reflexivity
      | unfold Instances.glibc_RAND_MAX; lia]. }
  split; [exact Hsrc|].
  destruct (C5_written_scale_positive
              (Instances.left_to_right Instances.FloatOverloads)
              (Instances.constant_source 0.5 Instances.glibc_RAND_MAX 12345)
              6 Hsrc) as (g & up & Hrun & _ & Hall).
  exists g, up. split; [exact Hrun|].
  destruct (Hall 0%nat ltac:(lia))
    as (_ & inst & U1 & U2 & Hlook & _ & _ & _ & _ & Hpos).
  exists inst. split; [exact Hlook | exact Hpos].
Defined.

(** Whatever the implementation and the random source, the uploaded
    vector has 2048 records and the record at index 2046 has scale 0. *)
Lemma unwritten_record_scale (pf : Instances.Platform)
    (src : Instances.RandomSource) (layerCount : N) :
  exists g upload inst,
    Instances.prepareInstanceData pf src layerCount = Some (g, upload) /\
    List.length (Instances.instanceData g) = 2048%nat /\
    Instances.instanceBuffer_size upload = 65536%N /\
    Instances.instanceData g !! 2046%nat = Some inst /\
    Instances.scale inst = 0 /\
    ~ (0 < Instances.scale inst).
Proof.
  destruct (prepareInstanceData_runs pf src layerCount)
    as (g & up & Hrun & Hgen & Hg).
  exists g, up, Instances.zero_InstanceData.
  split; [exact Hrun|].
  pose proof (Instances.ap_length _ _ _ _ _ Hg) as Hlen.
  split; [exact Hlen|].
  split.
  { rewrite (upload_sizes pf src layerCount g up Hrun).
    cbn [Instances.instanceBuffer_size].
    apply configured_buffer_size. exact Hlen. }
  split; [apply (tail_untouched _ g 2046%nat Hg); lia|].
  cbn [Instances.scale Instances.zero_InstanceData].
  split; [reflexivity | lra].
Qed.

(** With draws that repeat every eight, the sixth being the largest
    [float] below 1 and the seventh 0, and operands evaluated from left
    to right, the record written at index 0 has scale 1.875. *)
Lemma written_record_scale_upper_end (m : Instances.MathFunctions) :
  exists g upload inst,
    Instances.prepareInstanceData (Instances.left_to_right m)
      (Instances.periodic_source
         [0.5; 0.5; 0.5; 0.5; 0.5; 0.5; 1 - IEEE754.bpow (-24); 0]
         Instances.glibc_RAND_MAX 12345) 6 = Some (g, upload) /\
    In 0%nat (Instances.written g) /\
    Instances.instanceData g !! 0%nat = Some inst /\
    Instances.scale inst = 1.875 /\
    ~ (Instances.scale inst < 1.875).
Proof.
  destruct (prepareInstanceData_runs (Instances.left_to_right m)
              (Instances.periodic_source
                 [0.5; 0.5; 0.5; 0.5; 0.5; 0.5; 1 - IEEE754.bpow (-24); 0]
                 Instances.glibc_RAND_MAX 12345) 6)
    as (g & up & Hrun & _ & Hg).
  destruct (configured_record _ g 0 0 Hg ltac:(lia) ltac:(lia))
    as (ring & Hring & Hrec).
  eexists g, up, _. split; [exact Hrun|].
  split; [apply (written_below _ g 0%nat Hg); lia|].
  split; [exact Hrec|].
  cbn [Instances.make_instance Instances.scale Instances.left_to_right
       Instances.scale_right_first Instances.uniformDist
       Instances.periodic_source].
  change (nth ((8 * (0 * 6 + 0) + 6) mod 8) _ 0) with (1 - IEEE754.bpow (-24)).
  change (nth ((8 * (0 * 6 + 0) + 7) mod 8) _ 0) with 0.
  rewrite instance_scale_reaches_upper_end. split; [reflexivity | lra].
Qed.

(** C5 as stated fails, at both ends.  The uploaded buffer has 2048
    records (65536 bytes), and the record at index 2046, which the
    generator never writes, has scale 0 (here for a source whose draws
    are all one half, whatever the implementation).  And a record that
    is written can have the scale 1.875, the end of the interval: it has
    for the draws [1 - 2^-24] and 0, since [1.5 + (1 - 2^-24)] rounds to
    2.5 in binary32. *)
Lemma C5_unwritten_record_has_scale_zero :
  (Instances.well_formed
     (Instances.constant_source 0.5 Instances.glibc_RAND_MAX 12345) /\
   forall pf : Instances.Platform,
   exists g upload inst,
     Instances.prepareInstanceData pf
       (Instances.constant_source 0.5 Instances.glibc_RAND_MAX 12345) 6
     = Some (g, upload) /\
     List.length (Instances.instanceData g) = 2048%nat /\
     Instances.instanceBuffer_size upload = 65536%N /\
     Instances.instanceData g !! 2046%nat = Some inst /\
     Instances.scale inst = 0 /\
     ~ (0 < Instances.scale inst)) /\
  (Instances.well_formed
     (Instances.periodic_source
        [0.5; 0.5; 0.5; 0.5; 0.5; 0.5; 1 - IEEE754.bpow (-24); 0]
        Instances.glibc_RAND_MAX 12345) /\
   forall m : Instances.MathFunctions,
   exists g upload inst,
     Instances.prepareInstanceData (Instances.left_to_right m)
       (Instances.periodic_source
          [0.5; 0.5; 0.5; 0.5; 0.5; 0.5; 1 - IEEE754.bpow (-24); 0]
          Instances.glibc_RAND_MAX 12345) 6 = Some (g, upload) /\
     In 0%nat (Instances.written g) /\
     Instances.instanceData g !! 0%nat = Some inst /\
     Instances.scale inst = 1.875 /\
     ~ (Instances.scale inst < 1.875)).
Proof.
  split; split.
  - apply constant_source_well_formed;
      [exact half_is_float | lra | reflexivity
      | unfold Instances.glibc_RAND_MAX; lia].
  - intros pf. apply unwritten_record_scale.
  - apply periodic_source_well_formed;
      [|reflexivity | unfold Instances.glibc_RAND_MAX; lia].
    destruct below_1_is_float as [Hf Hr].
    assert (H0 : IEEE754.representable IEEE754.binary32 0)
      by (apply (representable_small IEEE754.binary32 0); [now left | cbn; lia]).
    pose proof half_is_float as Hh.
    repeat (apply Forall_cons; split; [split; [assumption | lra]|]).
    apply Forall_nil. exact I.
  - exact written_record_scale_upper_end.
Qed.

(** When [rand()] returns [RAND_MAX] for the first record, the record
    written at index 0 gets the layer count as its texture index. *)
Lemma texIndex_at_RAND_MAX (pf : Instances.Platform)
    (src : Instances.RandomSource) (layerCount : N) :
  Instances.well_formed src -> (layerCount < 2 ^ 24)%N ->
  Instances.rand src 0 = Instances.RAND_MAX src ->
  exists g upload inst,
    Instances.prepareInstanceData pf src layerCount = Some (g, upload) /\
    In 0%nat (Instances.written g) /\
    Instances.instanceData g !! 0%nat = Some inst /\
    Instances.texIndex inst = Z.of_N layerCount.
Proof.
  intros Hsrc HL Hrand.
  destruct (prepareInstanceData_runs pf src layerCount)
    as (g & up & Hrun & _ & Hg).
  destruct (configured_record _ g 0 0 Hg ltac:(lia) ltac:(lia))
    as (ring & Hring & Hrec).
  eexists g, up, _. split; [exact Hrun|].
  split; [apply (written_below _ g 0%nat Hg); lia|].
  split; [exact Hrec|].
  cbn [Instances.make_instance Instances.texIndex].
  apply (proj2 (texIndex_range src layerCount (0 * 6 + 0) Hsrc HL)), Hrand.
Qed.

(** C2 at the failing input.  When [rand()] returns [RAND_MAX] (here
    with the [RAND_MAX] of the GNU C library and 6 texture layers), the
    record written at index 0 gets texture index 6, which is not below
    the layer count, whatever the implementation. *)
Theorem C2_texture_index_reaches_layer_count :
  Instances.well_formed
    (Instances.constant_source 0.5 Instances.glibc_RAND_MAX
                               Instances.glibc_RAND_MAX) /\
  forall pf : Instances.Platform,
  exists g upload inst,
    Instances.prepareInstanceData pf
      (Instances.constant_source 0.5 Instances.glibc_RAND_MAX
                                 Instances.glibc_RAND_MAX) 6
    = Some (g, upload) /\
    In 0%nat (Instances.written g) /\
    Instances.instanceData g !! 0%nat = Some inst /\
    Instances.texIndex inst = 6%Z /\
    ~ (0 <= Instances.texIndex inst < 6)%Z.
Proof.
  assert (Hsrc : Instances.well_formed
            (Instances.constant_source 0.5 Instances.glibc_RAND_MAX
                                       Instances.glibc_RAND_MAX)).
  { apply constant_source_well_formed;
      [exact half_is_float | lra | reflexivity
      | unfold Instances.glibc_RAND_MAX; lia]. }
  split; [exact Hsrc|]. intros pf.
  destruct (texIndex_at_RAND_MAX pf _ 6 Hsrc ltac:(reflexivity) eq_refl)
    as (g & up & inst & Hrun & Hin & Hlook & Htex).
  exists g, up, inst. split; [exact Hrun|]. split; [exact Hin|].
  split; [exact Hlook|]. rewrite Htex. split; [reflexivity | lia].
Qed.

(** What the code does guarantee of the texture index: every record
    written has an index between 0 and the layer count, both included. *)
Lemma texIndex_of_written_records (pf : Instances.Platform)
    (src : Instances.RandomSource) (layerCount : N) :
  Instances.well_formed src -> (layerCount < 2 ^ 24)%N ->
  exists g upload,
    Instances.prepareInstanceData pf src layerCount = Some (g, upload) /\
    forall i, In i (Instances.written g) ->
      exists inst,
        Instances.instanceData g !! i = Some inst /\
        (0 <= Instances.texIndex inst <= Z.of_N layerCount)%Z.
Proof.
  intros Hsrc HL.
  destruct (prepareInstanceData_runs pf src layerCount)
    as (g & up & Hrun & _ & Hg).
  exists g, up. split; [exact Hrun|].
  intros i Hin.
  destruct (written_record _ _ _ _ _ _ Hg Hin)
    as (t & ring & _ & _ & _ & Hrec).
  eexists. split; [exact Hrec|].
  cbn [Instances.make_instance Instances.texIndex].
  apply (proj1 (texIndex_range src layerCount t Hsrc HL)).
Qed.

Local Close Scope R_scope.

(** C4 (as amended).  The generator always hands a vector of 2048
    records to the upload, the 2046 it has written and the two it has
    not, and the size of the instance buffer is the number of records of
    this vector times the size of a record, 2048 * 32 = 65536 bytes.  A
    record is two vectors of three floats, a float and a 32-bit unsigned
    integer, at offsets 0, 12, 24 and 28; its size is 32 bytes, the sum
    of the sizes of its members, so there is no padding.  The staging
    buffer and the device local buffer are created with that size, and
    the copy and the descriptor range cover exactly that many bytes. *)
Theorem C4_instance_buffer_size
    (pf : Instances.Platform) (src : Instances.RandomSource) (layerCount : N) :
  exists g upload,
    Instances.prepareInstanceData pf src layerCount = Some (g, upload) /\
    Instances.instanceBuffer_size upload
      = (N.of_nat (List.length (Instances.instanceData g))
         * Instances.sizeof_InstanceData)%N /\
    List.length (Instances.instanceData g) = 2048%nat /\
    List.length (Instances.written g) = 2046%nat /\
    Instances.sizeof_InstanceData = 32%N /\
    Instances.sizeof_InstanceData
      = fold_right N.add 0%N
          (map Instances.size_of Instances.InstanceData_members) /\
    map Instances.size_of Instances.InstanceData_members = [12; 12; 4; 4]%N /\
    Instances.member_offsets 0 Instances.InstanceData_members
      = [0; 12; 24; 28]%N /\
    Instances.instanceBuffer_size upload = 65536%N /\
    Instances.staging_size upload = Instances.instanceBuffer_size upload /\
    Instances.device_size upload = Instances.instanceBuffer_size upload /\
    Instances.copy_size upload = Instances.instanceBuffer_size upload /\
    Instances.descriptor_range upload = Instances.instanceBuffer_size upload.
Proof.
  destruct (prepareInstanceData_runs pf src layerCount)
    as (g & up & Hrun & Hgen & Hg).
  exists g, up. split; [exact Hrun|].
  pose proof (Instances.ap_length _ _ _ _ _ Hg) as Hlen.
  rewrite (upload_sizes pf src layerCount g up Hrun).
  cbn [Instances.instanceBuffer_size Instances.staging_size
       Instances.device_size Instances.copy_size Instances.descriptor_range].
  split; [reflexivity|]. split; [exact Hlen|].
  split; [rewrite (Instances.ap_written _ _ _ _ _ Hg), length_map, length_seq;
          reflexivity|].
  split; [reflexivity|]. split; [reflexivity|]. split; [reflexivity|].
  split; [reflexivity|].
  split; [apply configured_buffer_size; exact Hlen|].
  repeat split; reflexivity.
Qed.

(** C4 as stated fails: the generator produces 2046 records, which take
    2046 * 32 = 65472 bytes, while the instance buffer and the staging
    copy have 65536 bytes (here for a source whose draws are all one
    half, whatever the implementation). *)
Lemma C4_size_exceeds_produced_records :
  Instances.sizeof_InstanceData = 32%N /\
  forall pf : Instances.Platform,
  exists g upload,
    Instances.prepareInstanceData pf
      (Instances.constant_source 0.5 Instances.glibc_RAND_MAX 12345) 6
    = Some (g, upload) /\
    List.length (Instances.written g) = 2046%nat /\
    (forall i, In i (Instances.written g) <-> (i < 2046)%nat) /\
    (N.of_nat (List.length (Instances.written g)) * Instances.sizeof_InstanceData
     = 65472)%N /\
    Instances.instanceBuffer_size upload = 65536%N /\
    Instances.copy_size upload = 65536%N /\
    Instances.instanceBuffer_size upload
      <> (N.of_nat (List.length (Instances.written g))
          * Instances.sizeof_InstanceData)%N.
Proof.
  split; [reflexivity|]. intros pf.
  destruct (prepareInstanceData_runs pf
              (Instances.constant_source 0.5 Instances.glibc_RAND_MAX 12345) 6)
    as (g & up & Hrun & _ & Hg).
  exists g, up. split; [exact Hrun|].
  assert (Hw : List.length (Instances.written g) = 2046%nat)
    by (rewrite (Instances.ap_written _ _ _ _ _ Hg), length_map, length_seq;
        reflexivity).
  pose proof (Instances.ap_length _ _ _ _ _ Hg) as Hlen.
  rewrite (upload_sizes pf _ 6 g up Hrun).
  cbn [Instances.instanceBuffer_size Instances.copy_size].
  rewrite Hw, Hlen.
  split; [reflexivity|].
  split; [intros i; apply (written_below _ g i Hg)|].
  split; [reflexivity|]. split; [reflexivity|]. split; [reflexivity|].
  discriminate.
Qed.

(** ** Light intensity *)

Section LightProperties.
Import IEEE754 Light.
Local Open Scope R_scope.













End LightProperties.

Section Frames.
Import IEEE754 Light.
Local Open Scope R_scope.

Variable dt : R.
Hypothesis dt_unclamped : dt <= f32 0.1.

Let k := smoothing dt.





End Frames.

Section Convergence.
Import IEEE754 Light.
Local Open Scope R_scope.

Variable dt : R.
Hypothesis dt_range : bpow (-10) <= dt <= f32 0.1.

Let k := smoothing dt.




End Convergence.

Local Open Scope R_scope.





(** * Further properties *)

(** ** The generator for any count and any rings *)

Local Close Scope R_scope.

Section GeneratorCoverage.
Import Instances.

Variable count : nat.
Variable rings : list vec2.

Let K := List.length rings.
Let chunk := (count / K)%nat.

(** The index of a pass determines the pass: the ring is the quotient by
    the chunk size, the position in the chunk the remainder. *)
Lemma flat_index_div_mod (t : nat) :
  K <> 0%nat -> (t < chunk * K)%nat ->
  (Instances.flat_index count rings t / chunk = t mod K)%nat /\
  (Instances.flat_index count rings t mod chunk = t / K)%nat.
Proof.
  intros HK Ht. unfold Instances.flat_index. fold K. fold chunk.
  assert (Hq : (t / K < chunk)%nat)
    by (apply Nat.Div0.div_lt_upper_bound; lia).
  split; symmetry.
  - apply (Nat.div_unique _ chunk (t mod K) (t / K)); lia.
  - apply (Nat.mod_unique _ chunk (t mod K) (t / K)); lia.
Qed.

End GeneratorCoverage.

(** What a completed run of the generator has established. *)
Lemma generate_completed (body : Instances.Body)
    (count : nat) (rings : list vec2) (g : Instances.Gen) :
  Instances.generate body count rings = Some g ->
  List.length rings <> 0%nat /\
  Instances.after_passes body count rings
    (count / List.length rings * List.length rings) g.
Proof.
  intros Hgen.
  assert (HK : List.length rings <> 0%nat).
  { intros E. unfold Instances.generate in Hgen.
    destruct (decide (List.length rings = 0%nat)); [discriminate | contradiction]. }
  destruct (generate_passes body count rings HK) as (g' & Hgen' & Hg).
  rewrite Hgen in Hgen'. injection Hgen' as <-. auto.
Qed.

Lemma written_iff_assigned (body : Instances.Body)
    (count : nat) (rings : list vec2) (g : Instances.Gen) (i : nat) :
  Instances.generate body count rings = Some g ->
  In i (Instances.written g) <->
  (i < List.length rings * (count / List.length rings))%nat.
Proof.
  intros Hgen. destruct (generate_completed _ _ _ _ Hgen) as [HK Hg].
  rewrite (Instances.ap_written _ _ _ _ _ Hg), in_map_iff. split.
  - intros (t & <- & Ht). apply in_seq in Ht.
    pose proof (flat_index_bound count rings HK t) as Hb. lia.
  - intros Hi.
    destruct (flat_index_onto count rings HK i) as (c & r & Hc & Hr & ->);
      [lia|].
    destruct (proj2 (flat_index_image count rings HK
                       (c + r * (count / List.length rings))))
      as (t & Ht & Ht').
    { exists c, r. auto. }
    exists t. split; [exact Ht'|]. apply in_seq. lia.
Qed.


(** Every assigned index holds the record of its ring and pass. *)
Lemma record_at_index (body : Instances.Body)
    (count : nat) (rings : list vec2) (g : Instances.Gen) (i : nat) :
  Instances.generate body count rings = Some g ->
  let K := List.length rings in
  let chunk := (count / K)%nat in
  (i < K * chunk)%nat ->
  exists ring,
    rings !! (i / chunk)%nat = Some ring /\
    Instances.instanceData g !! i
      = Some (body ring (8 * ((i mod chunk) * K + i / chunk))
                ((i mod chunk) * K + i / chunk)).
Proof.
  intros Hgen K chunk Hi.
  destruct (generate_completed _ _ _ _ Hgen) as [HK Hg].
  fold K in HK, Hg. fold chunk in Hg.
  assert (Hchunk : chunk <> 0%nat) by (intros E; rewrite E in Hi; lia).
  destruct (record_of_chunk_position body count rings HK g
              (i mod chunk) (i / chunk)) as (ring & Hring & Hrec).
  - exact Hg.
  - apply Nat.mod_upper_bound. exact Hchunk.
  - apply Nat.Div0.div_lt_upper_bound. fold K. fold chunk. lia.
  - fold K in Hrec. fold chunk in Hrec.
    exists ring. split; [exact Hring|].
    replace (i mod chunk + i / chunk * chunk)%nat with i in Hrec
      by (rewrite (Nat.div_mod_eq i chunk) at 1; lia).
    exact Hrec.
Qed.

(** X2.  Each ring owns one contiguous block of the vector: with chunks
    of [count / K] records, the record at an assigned index [i] is the
    one the loop body computes for ring [i / chunk], and it is computed
    in pass number [(i mod chunk) * K + i / chunk] of the loop body, that
    is after [8 t] uniform draws and [t] calls of [rand()] for that pass
    number [t]: consecutive passes go to consecutive rings. *)
Theorem X2_ring_blocks
    (body : Instances.Body) (count : nat)
    (rings : list vec2) (g : Instances.Gen) (i : nat) :
  Instances.generate body count rings = Some g ->
  let K := List.length rings in
  let chunk := (count / K)%nat in
  (i < K * chunk)%nat ->
  let t := ((i mod chunk) * K + i / chunk)%nat in
  (i / chunk < K)%nat /\
  (i / chunk * chunk <= i < (i / chunk + 1) * chunk)%nat /\
  exists ring,
    rings !! (i / chunk)%nat = Some ring /\
    Instances.instanceData g !! i = Some (body ring (8 * t) t).
Proof.
  intros Hgen K chunk Hi t.
  assert (Hchunk : chunk <> 0%nat) by (intros E; rewrite E in Hi; lia).
  split; [apply Nat.Div0.div_lt_upper_bound; lia|].
  split.
  { pose proof (Nat.div_mod_eq i chunk).
    pose proof (Nat.mod_upper_bound i chunk Hchunk). lia. }
  apply (record_at_index body count rings g i Hgen Hi).
Qed.

(** The theorem for the loop body of the program, 12 instances on the six
    configured rings: index 5 lies in the block of ring 2. *)
Lemma X2_ring_blocks_witness :
  exists g,
    Instances.generate
      (Instances.make_instance
         (Instances.left_to_right Instances.FloatOverloads)
         (Instances.constant_source 0.5 Instances.glibc_RAND_MAX 12345) 6)
      12 Instances.rings = Some g /\
    (5 < List.length Instances.rings * (12 / List.length Instances.rings))%nat /\
    exists ring,
      Instances.rings !! (5 / (12 / List.length Instances.rings))%nat = Some ring /\
      is_Some (Instances.instanceData g !! 5%nat).
Proof.
  destruct (generate_passes
              (Instances.make_instance
                 (Instances.left_to_right Instances.FloatOverloads)
                 (Instances.constant_source 0.5 Instances.glibc_RAND_MAX 12345) 6)
              12 Instances.rings configured_rings) as (g & Hgen & _).
  exists g. split; [exact Hgen|].
  assert (Hi : (5 < List.length Instances.rings
                    * (12 / List.length Instances.rings))%nat) by (cbn; lia).
  split; [exact Hi|].
  destruct (X2_ring_blocks _ _ _ g 5%nat Hgen Hi) as (_ & _ & ring & Hring & Hrec).
  exists ring. split; [exact Hring|]. rewrite Hrec. eauto.
Defined.

Local Open Scope R_scope.

(** ** The values of the written records *)

Section RecordRanges.
Import IEEE754 Instances.
Local Open Scope R_scope.






(** With the [RAND_MAX] of the GNU C library and 6 layers, the value of
    [rnd] for the results [RAND_MAX - 85] and [RAND_MAX - 86] of
    [rand()]: the first is 6, the second the [float] before 6. *)
Lemma rnd_quotient_monotone (r1 r2 M : Z) (L : R) :
  (r1 <= r2)%Z -> (0 < M)%Z -> 0 <= L ->
  f32 (f64 (L * f64 (f64 (IZR r1) / f64 (IZR M))))
  <= f32 (f64 (L * f64 (f64 (IZR r2) / f64 (IZR M)))).
Proof.
  intros Hr HM HL.
  assert (HM1 : 1 <= f64 (IZR M)).
  { apply round_ge_id; [representable_as 1%Z 0%Z|]. apply IZR_le. lia. }
  apply f32_le, f64_le, Rmult_le_compat_l; [exact HL|].
  apply f64_le. unfold Rdiv. apply Rmult_le_compat_r.
  - left. apply Rinv_0_lt_compat. lra.
  - apply f64_le, IZR_le, Hr.
Qed.

Lemma glibc_values_exact :
  f64 (IZR glibc_RAND_MAX) = IZR glibc_RAND_MAX /\
  f64 (IZR (glibc_RAND_MAX - 85)) = IZR (glibc_RAND_MAX - 85) /\
  f64 (IZR (glibc_RAND_MAX - 86)) = IZR (glibc_RAND_MAX - 86) /\
  f64 (f32 6) = 6.
Proof.
  unfold glibc_RAND_MAX.
  repeat split; try (apply f64_exact, representable_IZR; cbn; lia).
  rewrite (f32_exact 6) by (representable_as 3%Z 1%Z).
  apply f64_exact. representable_as 3%Z 1%Z.
Qed.

Lemma rnd_just_above_threshold :
  f32 (f64 (6 * f64 (IZR (glibc_RAND_MAX - 85) / IZR glibc_RAND_MAX))) = 6.
Proof.
  unfold glibc_RAND_MAX. change (2147483647 - 85)%Z with 2147483562%Z.
  assert (Hq : f64 (2147483562 / 2147483647) = IZR 9007198898225152 * bpow (-53)).
  { unfold f64.
    round_is binary64 (2147483562 / 2147483647) 0%Z 9007198898225152%Z. }
  rewrite Hq.
  rewrite (f64_exact (6 * (IZR 9007198898225152 * bpow (-53))))
    by (representable_as 6442450689%Z (-30)%Z).
  apply eq_trans with (IZR 12582912 * bpow (-21)); [|bpow_values; lra].
  unfold f32.
  round_is binary32 (6 * (IZR 9007198898225152 * bpow (-53))) 3%Z 12582912%Z.
Qed.

Lemma rnd_just_below_threshold :
  f32 (f64 (6 * f64 (IZR (glibc_RAND_MAX - 86) / IZR glibc_RAND_MAX)))
  = IZR 12582911 * bpow (-21).
Proof.
  unfold glibc_RAND_MAX. change (2147483647 - 86)%Z with 2147483561%Z.
  assert (Hq : f64 (2147483561 / 2147483647) = IZR 9007198894030848 * bpow (-53)).
  { unfold f64.
    round_is binary64 (2147483561 / 2147483647) 0%Z 9007198894030848%Z. }
  rewrite Hq.
  rewrite (f64_exact (6 * (IZR 9007198894030848 * bpow (-53))))
    by (representable_as 3221225343%Z (-29)%Z).
  unfold f32.
  round_is binary32 (6 * (IZR 9007198894030848 * bpow (-53))) 3%Z 12582911%Z.
Qed.

(** The texture index for 6 layers is 6 exactly for the 86 largest
    results of [rand()]. *)
Lemma texIndex_top_layer (src : RandomSource) (n : nat) :
  well_formed src -> RAND_MAX src = glibc_RAND_MAX ->
  uint32_of_float (rnd src n (f32 (IZR 6))) = 6%Z <->
  (glibc_RAND_MAX - 85 <= rand src n)%Z.
Proof.
  intros Hsrc HM.
  pose proof (rand_range src Hsrc n) as Hr. rewrite HM in Hr.
  pose proof (rnd_range src n 6 Hsrc ltac:(lia)) as Hrange.
  destruct glibc_values_exact as (EM & E85 & E86 & E6).
  unfold rnd in *. rewrite HM in *. rewrite E6, EM in *.
  set (v := f32 (f64 (6 * f64 (f64 (IZR (rand src n)) / IZR glibc_RAND_MAX)))) in *.
  destruct (Z_le_gt_dec (glibc_RAND_MAX - 85) (rand src n)) as [Hge|Hlt].
  - split; [intros _; exact Hge | intros _].
    assert (Hv : 6 <= v).
    { pose proof (rnd_quotient_monotone _ _ glibc_RAND_MAX 6 Hge
                    ltac:(reflexivity) ltac:(lra)) as Hmono.
      rewrite EM, E85 in Hmono. rewrite rnd_just_above_threshold in Hmono.
      exact Hmono. }
    replace v with (IZR 6) by lra. apply uint32_of_float_whole. lia.
  - split; [|intros; lia]. intros Hsix. exfalso.
    assert (Hv : v <= IZR 12582911 * bpow (-21)).
    { pose proof (rnd_quotient_monotone (rand src n) (glibc_RAND_MAX - 86)
                    glibc_RAND_MAX 6 ltac:(lia) ltac:(reflexivity) ltac:(lra))
        as Hmono.
      rewrite EM, E86 in Hmono. rewrite rnd_just_below_threshold in Hmono.
      exact Hmono. }
    assert (Hv6 : v < 6) by (revert Hv; bpow_values; lra).
    unfold uint32_of_float in Hsix.
    destruct (Rle_dec 0 v) as [_|Hn]; [|lra].
    pose proof (base_Int_part v) as [Hi _]. rewrite Hsix in Hi. lra.
Qed.

End RecordRanges.


(** A completed run has a record at every assigned index. *)
Lemma assigned_record_exists (body : Instances.Body)
    (count : nat) (rings : list vec2) (g : Instances.Gen) (i : nat) :
  Instances.generate body count rings = Some g ->
  (i < List.length rings * (count / List.length rings))%nat ->
  In i (Instances.written g) /\
  exists inst, Instances.instanceData g !! i = Some inst.
Proof.
  intros Hgen Hi. split; [apply (written_iff_assigned _ _ _ _ _ Hgen), Hi|].
  destruct (record_at_index _ _ _ _ _ Hgen Hi) as (ring & _ & Hrec). eauto.
Qed.




(** X4.  With the [RAND_MAX] of the GNU C library and 6 texture layers,
    the texture index of a written record lies between 0 and 6, and it
    is 6, one past the last layer, exactly when the value [rand()]
    returned for that record is one of the 86 values from
    [RAND_MAX - 85] to [RAND_MAX]: for these the product
    [6 * (rand() / double(RAND_MAX))] rounds to [6.0f] when it is
    converted to [float]. *)
Theorem X4_texture_index_top_layer
    (pf : Instances.Platform) (src : Instances.RandomSource) (count : nat)
    (rings : list vec2) (g : Instances.Gen) (i : nat)
    (inst : Instances.InstanceData) :
  Instances.well_formed src ->
  Instances.RAND_MAX src = Instances.glibc_RAND_MAX ->
  Instances.generate (Instances.make_instance pf src 6) count rings = Some g ->
  In i (Instances.written g) ->
  Instances.instanceData g !! i = Some inst ->
  let chunk := (count / List.length rings)%nat in
  let r := Instances.rand src ((i mod chunk) * List.length rings + i / chunk) in
  (0 <= Instances.texIndex inst <= 6)%Z /\
  (Instances.texIndex inst = 6%Z <-> (Instances.glibc_RAND_MAX - 85 <= r)%Z).
Proof.
  intros Hsrc HM Hgen Hin Hlook chunk r.
  apply (written_iff_assigned _ _ _ _ _ Hgen) in Hin.
  destruct (record_at_index _ count rings g i Hgen Hin)
    as (ring & Hring & Hrec).
  rewrite Hrec in Hlook. injection Hlook as <-.
  cbn [Instances.make_instance Instances.texIndex].
  fold chunk. split.
  - apply (proj1 (texIndex_range src 6 _ Hsrc ltac:(reflexivity))).
  - apply (texIndex_top_layer src _ Hsrc HM).
Qed.

(** The theorem for 12 instances and a source whose calls of [rand()]
    all return [RAND_MAX - 85]. *)
Lemma X4_texture_index_top_layer_witness :
  exists g inst,
    Instances.well_formed
      (Instances.constant_source 0.5 Instances.glibc_RAND_MAX
         (Instances.glibc_RAND_MAX - 85)) /\
    Instances.generate
      (Instances.make_instance
         (Instances.left_to_right Instances.FloatOverloads)
         (Instances.constant_source 0.5 Instances.glibc_RAND_MAX
            (Instances.glibc_RAND_MAX - 85)) 6)
      12 Instances.rings = Some g /\
    In 5%nat (Instances.written g) /\
    Instances.instanceData g !! 5%nat = Some inst /\
    Instances.texIndex inst = 6%Z.
Proof.
  assert (Hsrc : Instances.well_formed
            (Instances.constant_source 0.5 Instances.glibc_RAND_MAX
               (Instances.glibc_RAND_MAX - 85))).
  { apply constant_source_well_formed;
      [exact half_is_float | lra | reflexivity
      | unfold Instances.glibc_RAND_MAX; lia]. }
  destruct (generate_passes
              (Instances.make_instance
                 (Instances.left_to_right Instances.FloatOverloads)
                 (Instances.constant_source 0.5 Instances.glibc_RAND_MAX
                    (Instances.glibc_RAND_MAX - 85)) 6)
              12 Instances.rings configured_rings) as (g & Hgen & _).
  destruct (assigned_record_exists _ _ _ g 5%nat Hgen) as (Hin & inst & Hlook).
  { cbn. lia. }
  exists g, inst.
  split; [exact Hsrc|]. split; [exact Hgen|].
  split; [exact Hin|]. split; [exact Hlook|].
  apply (proj2 (X4_texture_index_top_layer _ _ _ _ g 5%nat inst
                  Hsrc eq_refl Hgen Hin Hlook)).
  cbn [Instances.rand Instances.constant_source]. lia.
Defined.

(** ** Frames and pauses *)

Section AnimationProperties.
Import Light Animation.

(** What one frame does to the state, by cases. *)
Lemma step_cases (input : FrameInput) (st : State) :
  step input st =
  let st0 := set_frameTimer (clamped (frameTime input))
               (set_paused (pauseFlag input) st) in
  if prepared st && negb (pauseFlag input)
  then updateUniformBuffer false st0
  else st0.
Proof.
  unfold step, frame, render, clamped.
  cbn [set_frameTimer set_paused frameTimer prepared paused].
  destruct (Rlt_dec (f32 0.1) (frameTime input));
    cbn [set_frameTimer set_paused frameTimer prepared paused];
    destruct (prepared st), (pauseFlag input); reflexivity.
Qed.

Lemma step_prepared (input : FrameInput) (st : State) :
  prepared (step input st) = prepared st.
Proof.
  rewrite step_cases. cbn zeta.
  destruct (prepared st) eqn:Hp, (pauseFlag input); cbn; exact Hp.
Qed.

Lemma run_prepared (inputs : list FrameInput) (st : State) :
  prepared (run inputs st) = prepared st.
Proof.
  revert st. induction inputs as [|input rest IH]; intros st; [reflexivity|].
  cbn [run fold_left]. fold (run rest (step input st)).
  rewrite IH. apply step_prepared.
Qed.

Lemma run_app (inputs more : list FrameInput) (st : State) :
  run (inputs ++ more) st = run more (run inputs st).
Proof. unfold run. apply fold_left_app. Qed.

End AnimationProperties.

(** X5.  A frame that is paused, or that comes before the application is
    prepared, changes nothing but the stored frame time (clamped to 0.1f)
    and the stored pause flag: the light, its intensity, the two
    animation phases and the state of the integrator are left as they
    were. *)
Theorem X5_paused_frame_freezes
    (input : Animation.FrameInput) (st : Light.State) :
  Animation.pauseFlag input = true \/ Light.prepared st = false ->
  Animation.step input st
  = Light.set_frameTimer (Animation.clamped (Animation.frameTime input))
      (Animation.set_paused (Animation.pauseFlag input) st).
Proof.
  intros H. rewrite step_cases. cbn zeta.
  destruct H as [-> | ->]; [rewrite andb_false_r | ]; reflexivity.
Qed.

(** The theorem at a paused frame of the initial state. *)
Lemma X5_paused_frame_freezes_witness :
  (Animation.pauseFlag {| Animation.frameTime := 0.5; Animation.pauseFlag := true |}
   = true \/ Light.prepared (Light.initial 0 false true) = false) /\
  Light.lightInt
    (Animation.step {| Animation.frameTime := 0.5; Animation.pauseFlag := true |}
       (Light.initial 0 false true)) = 0.
Proof.
  split; [left; reflexivity|].
  rewrite (X5_paused_frame_freezes
             {| Animation.frameTime := 0.5; Animation.pauseFlag := true |}
             (Light.initial 0 false true) (or_introl eq_refl)).
  reflexivity.
Defined.


Section PhaseProperties.
Import IEEE754 Light Animation.
Local Open Scope R_scope.

Lemma clamped_nonneg (dt : R) : 0 <= dt -> 0 <= clamped dt.
Proof.
  intros H. unfold clamped. destruct (Rlt_dec (f32 0.1) dt); [|exact H].
  apply round_nonneg. lra.
Qed.

(** Adding the rounded product of a frame time that is not negative with
    a positive literal never lowers a [float]. *)
Lemma phase_advance (phase dt rate : R) :
  representable binary32 phase -> 0 <= dt -> 0 <= rate ->
  phase <= f32 (phase + f32 (dt * f32 rate)) /\
  representable binary32 (f32 (phase + f32 (dt * f32 rate))).
Proof.
  intros Hphase Hdt Hrate. split; [|apply round_representable].
  apply round_ge_id; [exact Hphase|].
  assert (0 <= f32 rate) by (apply round_nonneg; exact Hrate).
  assert (0 <= f32 (dt * f32 rate)) by (apply round_nonneg; nra).
  lra.
Qed.

Lemma step_phases (input : FrameInput) (st : State) :
  0 <= frameTime input ->
  representable binary32 (locSpeed st) ->
  representable binary32 (globSpeed st) ->
  (locSpeed st <= locSpeed (step input st) /\
   globSpeed st <= globSpeed (step input st)) /\
  representable binary32 (locSpeed (step input st)) /\
  representable binary32 (globSpeed (step input st)).
Proof.
  intros Hdt Hloc Hglob. rewrite step_cases. cbn zeta.
  destruct (prepared st && negb (pauseFlag input)) eqn:Hrun.
  - apply andb_prop in Hrun as [_ Hpause].
    apply negb_true_iff in Hpause.
    unfold updateUniformBuffer.
    cbn [paused set_frameTimer set_paused]. rewrite Hpause. cbn [negb].
    unfold updateLight. cbn [locSpeed globSpeed frameTimer].
    pose proof (clamped_nonneg _ Hdt) as Hc.
    destruct (phase_advance (locSpeed st) (clamped (frameTime input)) 0.35
                Hloc Hc ltac:(lra)) as [H1 H2].
    destruct (phase_advance (globSpeed st) (clamped (frameTime input)) 0.01
                Hglob Hc ltac:(lra)) as [H3 H4].
    split; [split; [exact H1 | exact H3] | split; [exact H2 | exact H4]].
  - cbn [locSpeed globSpeed set_frameTimer set_paused].
    split; [split; lra | split; assumption].
Qed.

Lemma run_phases (inputs : list FrameInput) (st : State) :
  Forall (fun input => 0 <= frameTime input) inputs ->
  representable binary32 (locSpeed st) ->
  representable binary32 (globSpeed st) ->
  (locSpeed st <= locSpeed (run inputs st) /\
   globSpeed st <= globSpeed (run inputs st)) /\
  representable binary32 (locSpeed (run inputs st)) /\
  representable binary32 (globSpeed (run inputs st)).
Proof.
  intros Hinputs. revert st.
  induction Hinputs as [|input rest Hdt _ IH]; intros st Hloc Hglob.
  - cbn [run fold_left]. split; [split; lra | split; assumption].
  - cbn [run fold_left]. fold (run rest (step input st)).
    destruct (step_phases input st Hdt Hloc Hglob) as ([H1 H2] & H3 & H4).
    destruct (IH (step input st) H3 H4) as ([H5 H6] & H7 & H8).
    split; [split; lra | split; assumption].
Qed.

End PhaseProperties.

(** X6.  Over any sequence of frames whose frame times are not negative,
    paused or not, the two animation phases, computed in binary32, never
    decrease, and they stay [float] values; a frame that is paused or
    comes before the application is prepared leaves them as they are. *)
Theorem X6_animation_phases
    (inputs : list Animation.FrameInput) (st : Light.State) :
  Forall (fun input => 0 <= Animation.frameTime input) inputs ->
  IEEE754.representable IEEE754.binary32 (Light.locSpeed st) ->
  IEEE754.representable IEEE754.binary32 (Light.globSpeed st) ->
  Light.locSpeed st <= Light.locSpeed (Animation.run inputs st) /\
  Light.globSpeed st <= Light.globSpeed (Animation.run inputs st) /\
  IEEE754.representable IEEE754.binary32
    (Light.locSpeed (Animation.run inputs st)) /\
  IEEE754.representable IEEE754.binary32
    (Light.globSpeed (Animation.run inputs st)) /\
  (forall input,
     Animation.pauseFlag input = true \/ Light.prepared st = false ->
     Light.locSpeed (Animation.step input st) = Light.locSpeed st /\
     Light.globSpeed (Animation.step input st) = Light.globSpeed st).
Proof.
  intros Hinputs Hloc Hglob.
  destruct (run_phases inputs st Hinputs Hloc Hglob) as ([H1 H2] & H3 & H4).
  repeat (split; [assumption|]).
  intros input H. rewrite step_cases. cbn zeta.
  destruct H as [-> | ->]; [rewrite andb_false_r|]; split; reflexivity.
Qed.

(** The theorem for two frames, the second paused, from the initial
    state. *)
Lemma X6_animation_phases_witness :
  Forall (fun input => 0 <= Animation.frameTime input)
    [ {| Animation.frameTime := 0.5; Animation.pauseFlag := false |};
      {| Animation.frameTime := 0.5; Animation.pauseFlag := true |} ] /\
  IEEE754.representable IEEE754.binary32
    (Light.locSpeed (Light.initial 0 false true)) /\
  IEEE754.representable IEEE754.binary32
    (Light.globSpeed (Light.initial 0 false true)) /\
  0 <= Light.locSpeed
         (Animation.run
            [ {| Animation.frameTime := 0.5; Animation.pauseFlag := false |};
              {| Animation.frameTime := 0.5; Animation.pauseFlag := true |} ]
            (Light.initial 0 false true)).
Proof.
  assert (Hin : Forall (fun input => 0 <= Animation.frameTime input)
            [ {| Animation.frameTime := 0.5; Animation.pauseFlag := false |};
              {| Animation.frameTime := 0.5; Animation.pauseFlag := true |} ]).
  { repeat (apply Forall_cons; split; [cbn; lra|]). apply Forall_nil. exact I. }
  assert (H0 : IEEE754.representable IEEE754.binary32 0)
    by (representable_as 0%Z 0%Z).
  split; [exact Hin|]. split; [exact H0|]. split; [exact H0|].
  exact (proj1 (X6_animation_phases _ (Light.initial 0 false true) Hin H0 H0)).
Defined.

(** ** View changes *)

(** X16.  [viewChanged] leaves the animated state of a paused
    application as it is.  When the application is not paused it keeps
    the stored frame time and the [prepared] flag, and with a stored
    frame time of at most [0.1f] it makes the step [render] makes for a
    prepared application, whether or not the application is prepared;
    [render] leaves an application that is not prepared as it is.
    Unlike [render], [viewChanged] does not clamp the frame time: a
    stored frame time above [0.1f] is kept, where [render] stores
    [0.1f]. *)
Theorem X16_view_change_steps_unclamped (st : Light.State) :
  let st' := Animation.viewChanged st in
  (Light.paused st = true -> st' = st) /\
  (Light.paused st = false ->
   Light.frameTimer st' = Light.frameTimer st /\
   Light.prepared st' = Light.prepared st /\
   (Light.frameTimer st <= f32 0.1 ->
    st' = Light.set_prepared (Light.prepared st)
            (Light.render (Light.set_prepared true st))) /\
   (Light.prepared st = true -> Light.frameTimer st <= f32 0.1 ->
    st' = Light.render st) /\
   (Light.prepared st = false -> Light.frameTimer st <= f32 0.1 ->
    Light.render st = st) /\
   (f32 0.1 < Light.frameTimer st ->
    Light.frameTimer (Light.render st) = f32 0.1)).
Proof.
  intros st'. subst st'.
  unfold Animation.viewChanged, Light.updateUniformBuffer.
  split.
  - intros ->. reflexivity.
  - intros Hp. rewrite Hp. cbn [negb].
    unfold Light.updateLight.
    cbn [Light.locSpeed Light.globSpeed Light.lightInt Light.frameTimer
         Light.prepared].
    split; [reflexivity|]. split; [reflexivity|].
    split; [|split; [|split]].
    + intros Hdt.
      destruct st as [ft pa pr lp li ls gs p v a f].
      cbn [Light.paused Light.frameTimer] in Hp, Hdt. subst pa.
      unfold Light.render, Light.set_prepared.
      cbn [Light.frameTimer Light.prepared Light.paused].
      destruct (Rlt_dec (f32 0.1) ft) as [Hlt|_]; [lra|].
      cbn [Light.prepared Light.paused negb].
      unfold Light.updateUniformBuffer, Light.updateLight.
      cbn [Light.paused negb]. reflexivity.
    + intros Hprep Hdt. unfold Light.render.
      destruct (Rlt_dec (f32 0.1) (Light.frameTimer st)) as [Hlt|_]; [lra|].
      unfold Light.updateUniformBuffer, Light.updateLight.
      destruct st as [ft pa pr lp li ls gs p v a f].
      cbn [Light.paused Light.prepared] in Hp, Hprep. subst pa pr.
      reflexivity.
    + intros Hprep Hdt. unfold Light.render.
      destruct (Rlt_dec (f32 0.1) (Light.frameTimer st)) as [Hlt|_]; [lra|].
      rewrite Hprep. reflexivity.
    + intros Hdt. unfold Light.render.
      destruct (Rlt_dec (f32 0.1) (Light.frameTimer st)) as [_|Hn];
        [|contradiction].
      cbn [Light.prepared Light.paused Light.set_frameTimer].
      destruct (Light.prepared st); [|reflexivity]. cbn [negb].
      rewrite Hp. cbn [negb].
      unfold Light.updateUniformBuffer.
      cbn [Light.paused Light.set_frameTimer]. rewrite Hp. reflexivity.
Qed.

(** ** The sample count and the two capability masks *)

Section SampleCountSupport.
Import Multisample.
Local Open Scope N_scope.

Lemma has_bit_land (a b : N) (s : VkSampleCountFlagBits) :
  has_bit (N.land a b) s = has_bit a s && has_bit b s.
Proof.
  unfold has_bit. destruct (sample_bits_pow2 s) as [j ->].
  rewrite !land_pow2, N.land_spec.
  assert (Hpos : 2 ^ j <> 0) by (apply N.pow_nonzero; lia).
  destruct (N.testbit a j), (N.testbit b j); cbn [andb];
    try rewrite N.eqb_refl; try reflexivity;
    rewrite (proj2 (N.eqb_neq _ _) Hpos); reflexivity.
Qed.

(** X10.  [getMaxUsableSampleCount] looks for bits in the numeric minimum
    of the two masks.  When every count of the numerically smaller mask
    is also in the other one (the bitwise AND of the masks is their
    minimum) and both masks hold the one-sample bit, the count chosen is
    advertised for colour and for depth.  Without that relation it need
    not be: for the colour mask {1, 4, 16} and the depth mask
    {1, 2, 4, 8} the function answers 8 samples, which the colour mask
    does not hold, and the assertion of [setupMultisampleTarget], which
    compares numbers, lets it pass. *)
Theorem X10_sample_count_advertised :
  (forall limits : VkPhysicalDeviceLimits,
     let color := framebufferColorSampleCounts limits in
     let depth := framebufferDepthSampleCounts limits in
     let chosen := getMaxUsableSampleCount limits in
     has_bit color VK_SAMPLE_COUNT_1_BIT = true ->
     has_bit depth VK_SAMPLE_COUNT_1_BIT = true ->
     N.land color depth = N.min color depth ->
     has_bit color chosen = true /\ has_bit depth chosen = true) /\
  (let limits := {| framebufferColorSampleCounts := 1 + 4 + 16;
                    framebufferDepthSampleCounts := 1 + 2 + 4 + 8 |} in
   getMaxUsableSampleCount limits = VK_SAMPLE_COUNT_8_BIT /\
   has_bit (framebufferColorSampleCounts limits) VK_SAMPLE_COUNT_8_BIT = false /\
   sample_count_supported limits VK_SAMPLE_COUNT_8_BIT = true).
Proof.
  split.
  - intros limits color depth chosen Hc Hd Hnested.
    destruct (cascade_characterisation limits) as [Hbit _].
    fold color depth chosen in Hbit.
    destruct Hbit as [->|Hbit]; [split; assumption|].
    rewrite <- Hnested, has_bit_land in Hbit.
    apply andb_true_iff in Hbit. exact Hbit.
  - cbv zeta. repeat split; vm_compute; reflexivity.
Qed.

End SampleCountSupport.

(** ** Compressed texture formats *)

Section AssetFormats.
Import String Assets.
Local Open Scope string_scope.

(** X11.  [loadAssets] stops exactly when the device supports none of
    the three compressed formats.  Otherwise it requests four textures,
    for the fields rocks, planet, light and construct in this order: the
    rock texture array in the first format the device supports in the
    order BC3, ASTC 8x8, ETC2, from the file whose name carries that
    format; the three 2D textures always as BC3, whatever the device
    supports, so that every requested format is supported exactly when
    the device supports BC; and the construct texture from the same file
    as the planet texture. *)
Theorem X11_texture_formats_requested
    (assetPath : string) (features : VkPhysicalDeviceFeatures) :
  match loadAssets assetPath features with
  | Aborted =>
      textureCompressionBC features = false /\
      textureCompressionASTC_LDR features = false /\
      textureCompressionETC2 features = false
  | Completed (models, textures) =>
      exists rocks planet light construct,
        textures = [rocks; planet; light; construct] /\
        map texture textures
          = [ Descriptors.RocksTex2DArr; Descriptors.PlanetTex2D;
              Descriptors.LightTex2D; Descriptors.ConstructTex2D ] /\
        (* the rock array: first supported format, matching file *)
        supported features (texture_format rocks) = true /\
        (texture_format rocks <> VK_FORMAT_BC3_UNORM_BLOCK ->
         textureCompressionBC features = false) /\
        (texture_format rocks = VK_FORMAT_ETC2_R8G8B8_UNORM_BLOCK ->
         textureCompressionASTC_LDR features = false) /\
        texture_file rocks
          = assetPath ++ "textures/texturearray_rocks" ++
                 (match texture_format rocks with
                  | VK_FORMAT_BC3_UNORM_BLOCK => "_bc3_unorm.ktx"
                  | VK_FORMAT_ASTC_8x8_UNORM_BLOCK => "_astc_8x8_unorm.ktx"
                  | VK_FORMAT_ETC2_R8G8B8_UNORM_BLOCK => "_etc2_unorm.ktx"
                  end) /\
        (* the 2D textures *)
        texture_format planet = VK_FORMAT_BC3_UNORM_BLOCK /\
        texture_format light = VK_FORMAT_BC3_UNORM_BLOCK /\
        texture_format construct = VK_FORMAT_BC3_UNORM_BLOCK /\
        (Forall (fun t => supported features (texture_format t) = true) textures
         <-> textureCompressionBC features = true) /\
        texture_file construct = texture_file planet /\
        texture_file light <> texture_file planet
  end.
Proof.
  unfold loadAssets.
  destruct features as [bc astc etc2].
  cbn [textureCompressionBC textureCompressionASTC_LDR textureCompressionETC2].
  assert (Hne : forall p a b : string, a <> b -> p ++ a <> p ++ b).
  { intros p a b Hab. induction p as [|c p IH]; cbn; [exact Hab|].
    intros [= H]. exact (IH H). }
  destruct bc; [| destruct astc; [| destruct etc2]];
    cbn [mbind mret outcome_bind outcome_ret];
    try (repeat split; reflexivity);
    (do 4 eexists; split; [reflexivity|];
     cbn [map texture texture_format texture_file supported
          textureCompressionBC textureCompressionASTC_LDR
          textureCompressionETC2];
     split; [reflexivity|]; split; [reflexivity|];
     split; [intros H; try reflexivity; exfalso; apply H; reflexivity|];
     split; [intros H; try reflexivity; discriminate H|];
     split; [reflexivity|];
     split; [reflexivity|]; split; [reflexivity|]; split; [reflexivity|];
     split; [| split; [reflexivity | apply Hne; discriminate]]).
  - split; [reflexivity|]. intros _. repeat constructor.
  - split; [| discriminate].
    intros H. apply Forall_cons in H as [_ H]. apply Forall_cons in H as [H _].
    exact H.
  - split; [| discriminate].
    intros H. apply Forall_cons in H as [_ H]. apply Forall_cons in H as [H _].
    exact H.
Qed.

End AssetFormats.

(** ** Descriptor sets as the draw groups see them *)

Section DescriptorContents.
Import Descriptors Commands Bound.
Local Open Scope N_scope.

Lemma allocate_one (pool : DescriptorPool) :
  vkAllocateDescriptorSets pool setLayoutBindings
  = if (1 <=? sets_left pool)
       && (1 <=? descriptors_left pool VK_DESCRIPTOR_TYPE_UNIFORM_BUFFER)
       && (1 <=? descriptors_left pool VK_DESCRIPTOR_TYPE_COMBINED_IMAGE_SAMPLER)
    then Completed
           ({| sets_left := sets_left pool - 1;
               descriptors_left := fun ty =>
                 descriptors_left pool ty - needed ty setLayoutBindings;
               allocated := allocated pool ++ [fresh pool];
               fresh := fresh pool + 1 |}, fresh pool)
    else Aborted.
Proof.
  unfold vkAllocateDescriptorSets. cbn [forallb].
  change (needed VK_DESCRIPTOR_TYPE_UNIFORM_BUFFER setLayoutBindings) with 1.
  change (needed VK_DESCRIPTOR_TYPE_COMBINED_IMAGE_SAMPLER setLayoutBindings)
    with 1.
  rewrite andb_true_r, andb_assoc. reflexivity.
Qed.

(** X12.  On any descriptor pool [setupDescriptorSet] stops exactly when
    the pool has fewer than 4 sets, 4 uniform-buffer descriptors or 4
    image-sampler descriptors left; otherwise it takes exactly 4 of each.
    In every command sequence recorded with the sets it returns, each of
    the five draw groups binds a set whose binding 0 holds the scene
    uniform buffer and whose binding 1 holds an image sampler: the
    planet texture for the starfield and for the planet, the light
    texture, the construct texture and the rock texture array for the
    other three. *)
Theorem X12_groups_see_their_textures
    (pool : DescriptorPool) (s : Scene) (framebuffer : handle)
    (cb : CommandBuffer) :
  match setupDescriptorSet pool with
  | Aborted =>
      sets_left pool < 4 \/
      descriptors_left pool VK_DESCRIPTOR_TYPE_UNIFORM_BUFFER < 4 \/
      descriptors_left pool VK_DESCRIPTOR_TYPE_COMBINED_IMAGE_SAMPLER < 4
  | Completed (sets, pool', writes) =>
      (4 <= sets_left pool /\
       4 <= descriptors_left pool VK_DESCRIPTOR_TYPE_UNIFORM_BUFFER /\
       4 <= descriptors_left pool VK_DESCRIPTOR_TYPE_COMBINED_IMAGE_SAMPLER) /\
      (sets_left pool' = sets_left pool - 4 /\
       forall ty, descriptors_left pool' ty = descriptors_left pool ty - 4) /\
      (descriptorSets s = sets ->
       seen_by_groups writes (recordCommandBuffer s framebuffer cb)
       = map (fun texture =>
                (Some (VK_DESCRIPTOR_TYPE_UNIFORM_BUFFER, SceneUniformBuffer),
                 Some (VK_DESCRIPTOR_TYPE_COMBINED_IMAGE_SAMPLER, texture)))
             [PlanetTex2D; PlanetTex2D; LightTex2D; ConstructTex2D;
              RocksTex2DArr])
  end.
Proof.
  unfold setupDescriptorSet.
  rewrite allocate_one.
  destruct (N.leb_spec 1 (sets_left pool));
    [| cbn; left; lia].
  destruct (N.leb_spec 1 (descriptors_left pool VK_DESCRIPTOR_TYPE_UNIFORM_BUFFER));
    [| cbn; right; left; lia].
  destruct (N.leb_spec 1
              (descriptors_left pool VK_DESCRIPTOR_TYPE_COMBINED_IMAGE_SAMPLER));
    [| cbn; right; right; lia].
  cbn [andb mbind outcome_bind].
  do 3 (rewrite allocate_one;
        cbn [sets_left descriptors_left fresh allocated];
        change (needed VK_DESCRIPTOR_TYPE_UNIFORM_BUFFER setLayoutBindings) with 1;
        change (needed VK_DESCRIPTOR_TYPE_COMBINED_IMAGE_SAMPLER setLayoutBindings)
          with 1;
        match goal with
        | |- context [(1 <=? ?a) && (1 <=? ?b) && (1 <=? ?c)] =>
            destruct (N.leb_spec 1 a); [| cbn; left; lia];
            destruct (N.leb_spec 1 b); [| cbn; right; left; lia];
            destruct (N.leb_spec 1 c); [| cbn; right; right; lia]
        end;
        cbn [andb mbind outcome_bind]).
  cbn [mret outcome_ret sets_left descriptors_left].
  set (f := fresh pool).
  split; [lia|]. split.
  { split; [lia|]. intros ty.
    destruct ty;
      [ change (needed VK_DESCRIPTOR_TYPE_UNIFORM_BUFFER setLayoutBindings)
          with 1
      | change (needed VK_DESCRIPTOR_TYPE_COMBINED_IMAGE_SAMPLER
                  setLayoutBindings) with 1 ];
      lia. }
  intros Hsets.
  unfold seen_by_groups, sets_bound_by_groups.
  change (draw_groups (recordCommandBuffer s framebuffer cb))
    with (draw_groups (recordCommandBuffer s framebuffer [])).
  unfold recordCommandBuffer, vkBeginCommandBuffer. rewrite Hsets.
  cbn. unfold descriptor_at. cbn.
  assert (E1 : (f + 1 =? f) = false) by (apply N.eqb_neq; lia).
  assert (E2 : (f + 1 + 1 =? f) = false) by (apply N.eqb_neq; lia).
  assert (E3 : (f + 1 + 1 + 1 =? f) = false) by (apply N.eqb_neq; lia).
  assert (E4 : (f =? f + 1) = false) by (apply N.eqb_neq; lia).
  assert (E5 : (f + 1 + 1 =? f + 1) = false) by (apply N.eqb_neq; lia).
  assert (E6 : (f + 1 + 1 + 1 =? f + 1) = false) by (apply N.eqb_neq; lia).
  assert (E7 : (f =? f + 1 + 1) = false) by (apply N.eqb_neq; lia).
  assert (E8 : (f + 1 =? f + 1 + 1) = false) by (apply N.eqb_neq; lia).
  assert (E9 : (f + 1 + 1 + 1 =? f + 1 + 1) = false) by (apply N.eqb_neq; lia).
  assert (E10 : (f =? f + 1 + 1 + 1) = false) by (apply N.eqb_neq; lia).
  assert (E11 : (f + 1 =? f + 1 + 1 + 1) = false) by (apply N.eqb_neq; lia).
  assert (E12 : (f + 1 + 1 =? f + 1 + 1 + 1) = false) by (apply N.eqb_neq; lia).
  rewrite ?N.eqb_refl, ?E1, ?E2, ?E3, ?E4, ?E5, ?E6, ?E7, ?E8, ?E9, ?E10,
    ?E11, ?E12.
  reflexivity.
Qed.

End DescriptorContents.

(** ** Vertex input of the pipelines *)

(** A list written out has no duplicates when [tac] tells its elements
    apart. *)
Ltac nodup_by tac :=
  repeat (constructor;
          [ let H := fresh in
            intros H;
            repeat (apply elem_of_cons in H as [H|H]; [tac|]);
            apply elem_of_nil in H; exact H |]);
  constructor.

Section PipelineProperties.
Import PipelineStates.
Local Open Scope N_scope.

(** When [preparePipelines] completes, what it returns does not depend
    on the driver. *)
Lemma preparePipelines_accepting
    (accepts : VkGraphicsPipelineCreateInfo -> bool)
    (assetPath : String.string) (sampleCount : VkSampleCountFlagBits)
    (vertexStride : N) (pipelineLayout renderPass next : handle)
    (result : Commands.Pipelines
              * list (handle * VkGraphicsPipelineCreateInfo)) :
  preparePipelines accepts assetPath sampleCount vertexStride pipelineLayout
    renderPass next = Completed result ->
  preparePipelines (fun _ => true) assetPath sampleCount vertexStride
    pipelineLayout renderPass next = Completed result.
Proof.
  unfold preparePipelines, vkCreateGraphicsPipelines.
  cbv zeta.
  repeat match goal with
         | |- context [accepts ?i] =>
             destruct (accepts i);
             cbn [mbind outcome_bind mret outcome_ret];
             [| discriminate]
         end.
  intros H. exact H.
Qed.

(** Evaluate the lists of a vertex input state. *)
Ltac input_state :=
  cbv [pVertexInputState set_counts vertexBindingDescriptionCount
       pVertexBindingDescriptions vertexAttributeDescriptionCount
       pVertexAttributeDescriptions List.length N.of_nat N.to_nat
       Pos.of_succ_nat Pos.succ Pos.to_nat Pos.iter_op Nat.add
       firstn map List.filter In
       vertexInputAttributeDescription vertexInputBindingDescription
       attribute_binding binding location offset format stride inputRate
       VERTEX_BUFFER_BIND_ID INSTANCE_BUFFER_BIND_ID N.eqb Pos.eqb].

Ltac input_state_in H :=
  cbv [pVertexInputState set_counts vertexBindingDescriptionCount
       pVertexBindingDescriptions vertexAttributeDescriptionCount
       pVertexAttributeDescriptions List.length N.of_nat N.to_nat
       Pos.of_succ_nat Pos.succ Pos.to_nat Pos.iter_op Nat.add
       firstn map List.filter In
       vertexInputAttributeDescription vertexInputBindingDescription
       attribute_binding binding location offset format stride inputRate
       VERTEX_BUFFER_BIND_ID INSTANCE_BUFFER_BIND_ID N.eqb Pos.eqb] in H.

Lemma handles_distinct (next : handle) :
  NoDup [next; next + 1; next + 1 + 1; next + 1 + 1 + 1; next + 1 + 1 + 1 + 1].
Proof. nodup_by lia. Qed.

(** X13.  When [preparePipelines] completes it has created five
    pipelines with pairwise different handles, in the order rocks,
    planet, light, construct, starfield.  In each of them the active
    bindings have different numbers, the active attributes different
    locations, and every active attribute belongs to an active binding.
    The four pipelines that read meshes have the per-vertex binding 0
    with locations 0 to 3 at bytes 0-12, 12-24, 24-32 and 32-44 of a
    vertex, which lie within the stride exactly when the stride of the
    vertex layout is at least 44; the starfield has no binding and no
    attribute.  Only the rock pipeline has the per-instance binding 1:
    its stride is the size of [InstanceData], and the attribute at
    location 4 + k starts at the offset of the k-th member of
    [InstanceData] and has its size, so that locations 4, 5, 6, 7 read
    pos, rot, scale and texIndex (the list names location 5 before
    location 4). *)
Theorem X13_vertex_input_layout
    (accepts : VkGraphicsPipelineCreateInfo -> bool)
    (assetPath : String.string) (sampleCount : VkSampleCountFlagBits)
    (vertexStride : N) (pipelineLayout renderPass next : handle)
    (pipes : Commands.Pipelines)
    (created : list (handle * VkGraphicsPipelineCreateInfo)) :
  preparePipelines accepts assetPath sampleCount vertexStride pipelineLayout
    renderPass next = Completed (pipes, created) ->
  exists rocks planet light construct starfield,
    created = [ (Commands.instancedRocksVkPipeline pipes, rocks);
                (Commands.planetVkPipeline pipes, planet);
                (Commands.lightVkPipeline pipes, light);
                (Commands.constructVkPipeline pipes, construct);
                (Commands.starfieldVkPipeline pipes, starfield) ] /\
    NoDup (map fst created) /\
    (* every pipeline *)
    (forall info, In info [rocks; planet; light; construct; starfield] ->
       NoDup (map binding (active_bindings info)) /\
       NoDup (map location (active_attributes info)) /\
       forall a, In a (active_attributes info) ->
         exists b, In b (active_bindings info) /\
                   binding b = attribute_binding a) /\
    (* the per-vertex binding *)
    (forall info, In info [rocks; planet; light; construct] ->
       (exists b, In b (active_bindings info) /\
          binding b = VERTEX_BUFFER_BIND_ID /\
          inputRate b = VK_VERTEX_INPUT_RATE_VERTEX /\
          stride b = vertexStride) /\
       map (fun a => (location a, offset a, offset a + format_size (format a)))
           (attributes_of_binding VERTEX_BUFFER_BIND_ID info)
         = [(0, 0, 12); (1, 12, 24); (2, 24, 32); (3, 32, 44)] /\
       (44 <= vertexStride <->
        forall a, In a (attributes_of_binding VERTEX_BUFFER_BIND_ID info) ->
                  offset a + format_size (format a) <= vertexStride)) /\
    (active_bindings starfield = [] /\ active_attributes starfield = []) /\
    (* the per-instance binding *)
    (forall info, In info [planet; light; construct] ->
       map binding (active_bindings info) = [VERTEX_BUFFER_BIND_ID] /\
       attributes_of_binding INSTANCE_BUFFER_BIND_ID info = []) /\
    (exists b, In b (active_bindings rocks) /\
       binding b = INSTANCE_BUFFER_BIND_ID /\
       inputRate b = VK_VERTEX_INPUT_RATE_INSTANCE /\
       stride b = Instances.sizeof_InstanceData) /\
    map location (attributes_of_binding INSTANCE_BUFFER_BIND_ID rocks)
      = [5; 4; 6; 7] /\
    (forall a, In a (attributes_of_binding INSTANCE_BUFFER_BIND_ID rocks) ->
       exists (k : nat) member,
         location a = 4 + N.of_nat k /\
         Instances.InstanceData_members !! k = Some member /\
         Instances.member_offsets 0 Instances.InstanceData_members !! k
           = Some (offset a) /\
         Instances.size_of member = format_size (format a)).
Proof.
  intros H. apply preparePipelines_accepting in H.
  unfold preparePipelines, vkCreateGraphicsPipelines in H.
  cbn [mbind outcome_bind mret outcome_ret] in H.
  injection H as <- <-.
  do 5 eexists. split; [reflexivity|].
  split; [apply handles_distinct|].
  unfold attributes_of_binding, active_attributes, active_bindings.
  split.
  { intros info Hin. cbn [In] in Hin.
    repeat (destruct Hin as [<-|Hin];
            [ split; [input_state; nodup_by discriminate|];
              split; [input_state; nodup_by discriminate|];
              intros a Ha; input_state_in Ha;
              repeat (destruct Ha as [<-|Ha];
                      [ first
                          [ eexists; split;
                            [input_state; left; reflexivity | reflexivity]
                          | eexists; split;
                            [ input_state; right; left; reflexivity
                            | reflexivity ] ] |]);
              destruct Ha |]).
    all: try destruct Hin. }
  split.
  { intros info Hin. cbn [In] in Hin.
    repeat (destruct Hin as [<-|Hin];
            [ split; [eexists; split; [input_state; left; reflexivity|];
                      repeat split; reflexivity|];
              split; [reflexivity|];
              split;
              [ intros Hs a Ha; input_state_in Ha;
                repeat (destruct Ha as [<-|Ha]; [cbn; lia|]); destruct Ha
              | intros Hall;
                apply (Hall (vertexInputAttributeDescription
                               VERTEX_BUFFER_BIND_ID 3
                               VK_FORMAT_R32G32B32_SFLOAT (sizeof_float * 8)));
                input_state; auto 10 ] |]).
    all: try destruct Hin. }
  split; [split; reflexivity|].
  split.
  { intros info Hin. cbn [In] in Hin.
    repeat (destruct Hin as [<-|Hin]; [split; reflexivity|]).
    all: try destruct Hin. }
  split.
  { eexists. split; [input_state; right; left; reflexivity|].
    repeat split; reflexivity. }
  split; [reflexivity|].
  intros a Ha. input_state_in Ha.
  destruct Ha as [<-|[<-|[<-|[<-|[]]]]].
  - exists 1%nat. eexists. repeat split; reflexivity.
  - exists 0%nat. eexists. repeat split; reflexivity.
  - exists 2%nat. eexists. repeat split; reflexivity.
  - exists 3%nat. eexists. repeat split; reflexivity.
Qed.

(** The theorem for a driver that accepts every description. *)
Lemma X13_vertex_input_layout_witness :
  exists pipes created,
    preparePipelines (fun _ => true) String.EmptyString VK_SAMPLE_COUNT_4_BIT
      44 1 2 10 = Completed (pipes, created) /\
    NoDup (map fst created).
Proof.
  do 2 eexists. split; [reflexivity|].
  destruct (X13_vertex_input_layout (fun _ => true) String.EmptyString
              VK_SAMPLE_COUNT_4_BIT 44 1 2 10 _ _ eq_refl)
    as (? & ? & ? & ? & ? & _ & H & _).
  exact H.
Defined.

(** The pipelines as [preparePipelines] leaves them: consecutive
    handles, and the binding numbers each description declares. *)
Lemma pipelines_created
    (accepts : VkGraphicsPipelineCreateInfo -> bool)
    (assetPath : String.string) (sampleCount : VkSampleCountFlagBits)
    (vertexStride : N) (pipelineLayout renderPass next : handle)
    (pipes : Commands.Pipelines)
    (created : list (handle * VkGraphicsPipelineCreateInfo)) :
  preparePipelines accepts assetPath sampleCount vertexStride pipelineLayout
    renderPass next = Completed (pipes, created) ->
  exists rocks planet light construct starfield,
    pipes = {| Commands.instancedRocksVkPipeline := next;
               Commands.planetVkPipeline := next + 1;
               Commands.lightVkPipeline := next + 1 + 1;
               Commands.constructVkPipeline := next + 1 + 1 + 1;
               Commands.starfieldVkPipeline := next + 1 + 1 + 1 + 1 |} /\
    created = [ (next, rocks); (next + 1, planet); (next + 1 + 1, light);
                (next + 1 + 1 + 1, construct);
                (next + 1 + 1 + 1 + 1, starfield) ] /\
    (exists b0 b1,
       active_bindings rocks = [b0; b1] /\
       binding b0 = VERTEX_BUFFER_BIND_ID /\
       binding b1 = INSTANCE_BUFFER_BIND_ID /\
       inputRate b1 = VK_VERTEX_INPUT_RATE_INSTANCE /\
       stride b1 = Instances.sizeof_InstanceData) /\
    map (fun a => (offset a, format_size (format a)))
        (attributes_of_binding INSTANCE_BUFFER_BIND_ID rocks)
      = [(12, 12); (0, 12); (24, 4); (28, 4)] /\
    map binding (active_bindings planet) = [VERTEX_BUFFER_BIND_ID] /\
    map binding (active_bindings light) = [VERTEX_BUFFER_BIND_ID] /\
    map binding (active_bindings construct) = [VERTEX_BUFFER_BIND_ID] /\
    active_bindings starfield = [] /\
    Forall (fun info =>
              rasterizationSamples (pMultisampleState info) = sampleCount /\
              sampleShadingEnable (pMultisampleState info) = true /\
              layout info = pipelineLayout /\
              PipelineStates.renderPass info = renderPass)
           [rocks; planet; light; construct; starfield].
Proof.
  intros H. apply preparePipelines_accepting in H.
  unfold preparePipelines, vkCreateGraphicsPipelines in H.
  cbn [mbind outcome_bind mret outcome_ret] in H.
  injection H as <- <-.
  do 5 eexists. split; [reflexivity|]. split; [reflexivity|].
  split; [do 2 eexists; repeat split; reflexivity|].
  split; [reflexivity|].
  repeat (split; [reflexivity|]).
  repeat constructor.
Qed.

Lemma created_from_handles (n : handle)
    (i0 i1 i2 i3 i4 : VkGraphicsPipelineCreateInfo) :
  let created := [ (n, i0); (n + 1, i1); (n + 1 + 1, i2);
                   (n + 1 + 1 + 1, i3); (n + 1 + 1 + 1 + 1, i4) ] in
  created_from created n = Some i0 /\
  created_from created (n + 1) = Some i1 /\
  created_from created (n + 1 + 1) = Some i2 /\
  created_from created (n + 1 + 1 + 1) = Some i3 /\
  created_from created (n + 1 + 1 + 1 + 1) = Some i4.
Proof.
  intros created. subst created. unfold created_from. cbn [List.find fst].
  assert (E1 : (n =? n + 1) = false) by (apply N.eqb_neq; lia).
  assert (E2 : (n =? n + 1 + 1) = false) by (apply N.eqb_neq; lia).
  assert (E3 : (n =? n + 1 + 1 + 1) = false) by (apply N.eqb_neq; lia).
  assert (E4 : (n =? n + 1 + 1 + 1 + 1) = false) by (apply N.eqb_neq; lia).
  assert (E5 : (n + 1 =? n + 1 + 1) = false) by (apply N.eqb_neq; lia).
  assert (E6 : (n + 1 =? n + 1 + 1 + 1) = false) by (apply N.eqb_neq; lia).
  assert (E7 : (n + 1 =? n + 1 + 1 + 1 + 1) = false) by (apply N.eqb_neq; lia).
  assert (E8 : (n + 1 + 1 =? n + 1 + 1 + 1) = false) by (apply N.eqb_neq; lia).
  assert (E9 : (n + 1 + 1 =? n + 1 + 1 + 1 + 1) = false)
    by (apply N.eqb_neq; lia).
  assert (E10 : (n + 1 + 1 + 1 =? n + 1 + 1 + 1 + 1) = false)
    by (apply N.eqb_neq; lia).
  rewrite ?N.eqb_refl, ?E1, ?E2, ?E3, ?E4, ?E5, ?E6, ?E7, ?E8, ?E9, ?E10,
    ?N.eqb_refl.
  repeat split; reflexivity.
Qed.

Lemma upload_size (pf : Instances.Platform) (src : Instances.RandomSource)
    (layerCount : N) (g : Instances.Gen) (upload : Instances.Upload) :
  Instances.prepareInstanceData pf src layerCount = Some (g, upload) ->
  Instances.instanceBuffer_size upload = 65536.
Proof.
  intros H.
  destruct (prepareInstanceData_runs pf src layerCount)
    as (g' & up' & Hrun & _ & Hg).
  rewrite H in Hrun. injection Hrun as <- <-.
  pose proof (Instances.ap_length _ _ _ _ _ Hg) as Hlen.
  rewrite (upload_sizes pf src layerCount g upload H).
  cbn [Instances.instanceBuffer_size].
  apply configured_buffer_size. exact Hlen.
Qed.

(** X14.  In every command sequence recorded with the pipelines that
    [preparePipelines] created, each of the five draw groups binds one
    pipeline and vertex buffers at exactly the binding numbers that
    pipeline declares: none for the starfield, 0 for planet, light and
    construct, 0 and 1 for the rocks.  The draw of the rocks reads, for
    every instance it draws and every per-instance attribute, bytes that
    lie inside the instance buffer as [prepareInstanceData] sized it,
    and the last attribute of the last instance ends at the last byte of
    the buffer. *)
Theorem X14_draws_fetch_what_was_bound
    (accepts : VkGraphicsPipelineCreateInfo -> bool)
    (assetPath : String.string) (sampleCount : VkSampleCountFlagBits)
    (vertexStride : N) (pipelineLayout renderPass next : handle)
    (pipes : Commands.Pipelines)
    (created : list (handle * VkGraphicsPipelineCreateInfo))
    (s : Commands.Scene) (framebuffer : handle) (cb : Commands.CommandBuffer)
    (pf : Instances.Platform) (src : Instances.RandomSource) (layerCount : N)
    (g : Instances.Gen) (upload : Instances.Upload) :
  preparePipelines accepts assetPath sampleCount vertexStride pipelineLayout
    renderPass next = Completed (pipes, created) ->
  Commands.pipelines s = pipes ->
  Instances.prepareInstanceData pf src layerCount = Some (g, upload) ->
  let groups :=
    Commands.draw_groups (Commands.recordCommandBuffer s framebuffer cb) in
  Forall (fun group =>
            exists p info,
              Commands.bound_pipelines group = [p] /\
              created_from created p = Some info /\
              map fst (Commands.bound_vertex_buffers group)
                = map binding (active_bindings info))
         groups /\
  exists rocks info b indices instances,
    last groups = Some rocks /\
    Commands.bound_pipelines rocks = [Commands.instancedRocksVkPipeline pipes] /\
    created_from created (Commands.instancedRocksVkPipeline pipes) = Some info /\
    In (Commands.CmdBindVertexBuffers INSTANCE_BUFFER_BIND_ID
          [Commands.instanceBuffer s] [0]) rocks /\
    Commands.draws rocks = [Commands.CmdDrawIndexed indices instances 0 0 0] /\
    instances = N.of_nat INSTANCE_COUNT /\
    In b (active_bindings info) /\
    binding b = INSTANCE_BUFFER_BIND_ID /\
    inputRate b = VK_VERTEX_INPUT_RATE_INSTANCE /\
    (forall i a,
       i < instances ->
       In a (attributes_of_binding INSTANCE_BUFFER_BIND_ID info) ->
       snd (fetched b a 0 i) <= Instances.instanceBuffer_size upload) /\
    (exists a,
       In a (attributes_of_binding INSTANCE_BUFFER_BIND_ID info) /\
       snd (fetched b a 0 (instances - 1))
       = Instances.instanceBuffer_size upload).
Proof.
  intros Hcreate Hpipes Hupload groups.
  destruct (pipelines_created _ _ _ _ _ _ _ _ _ Hcreate)
    as (rocks & planet & light & construct & starfield & -> & -> &
        (b0 & b1 & Hb & Hb0 & Hb1 & Hrate & Hstride) & Hattrs &
        Hplanet & Hlight & Hconstruct & Hstar & _).
  destruct (created_from_handles next rocks planet light construct starfield)
    as (F0 & F1 & F2 & F3 & F4).
  pose proof (upload_size _ _ _ _ _ Hupload) as Hsize.
  subst groups.
  change (Commands.draw_groups (Commands.recordCommandBuffer s framebuffer cb))
    with (Commands.draw_groups (Commands.recordCommandBuffer s framebuffer [])).
  unfold Commands.recordCommandBuffer, Commands.vkBeginCommandBuffer.
  rewrite Hpipes.
  cbn [Commands.instancedRocksVkPipeline Commands.planetVkPipeline
       Commands.lightVkPipeline Commands.constructVkPipeline
       Commands.starfieldVkPipeline].
  cbn [app Commands.draw_groups List.filter Commands.is_state_setup negb
       Commands.segments Commands.is_draw].
  split.
  - repeat constructor.
    + exists (next + 1 + 1 + 1 + 1), starfield.
      split; [reflexivity|]. split; [exact F4|]. rewrite Hstar. reflexivity.
    + exists (next + 1), planet.
      split; [reflexivity|]. split; [exact F1|]. rewrite Hplanet. reflexivity.
    + exists (next + 1 + 1), light.
      split; [reflexivity|]. split; [exact F2|]. rewrite Hlight. reflexivity.
    + exists (next + 1 + 1 + 1), construct.
      split; [reflexivity|]. split; [exact F3|]. rewrite Hconstruct. reflexivity.
    + exists next, rocks.
      split; [reflexivity|]. split; [exact F0|]. rewrite Hb. cbn [map].
      rewrite Hb0, Hb1. reflexivity.
  - eexists _, rocks, b1, _, _.
    split; [reflexivity|]. split; [reflexivity|]. split; [exact F0|].
    split; [cbn; auto 10|]. split; [reflexivity|]. split; [reflexivity|].
    split; [rewrite Hb; cbn; auto|]. split; [exact Hb1|]. split; [exact Hrate|].
    rewrite Hsize. unfold fetched. rewrite Hstride.
    change Instances.sizeof_InstanceData with 32.
    assert (Hcount : N.of_nat INSTANCE_COUNT = 2048) by reflexivity.
    rewrite Hcount.
    split.
    + intros i a Hi Ha.
      apply (in_map (fun a => (offset a, format_size (format a)))) in Ha.
      rewrite Hattrs in Ha. cbn [snd].
      cbn [In] in Ha.
      destruct Ha as [E|[E|[E|[E|[]]]]]; injection E as <- <-; lia.
    + assert (Hin : In (28, 4)
                (map (fun a => (offset a, format_size (format a)))
                   (attributes_of_binding INSTANCE_BUFFER_BIND_ID rocks))).
      { rewrite Hattrs. cbn. auto. }
      apply in_map_iff in Hin as (a & E & Ha).
      exists a. split; [exact Ha|]. injection E as -> ->. cbn [snd]. lia.
Qed.

(** The theorem for a driver that accepts every description, a source
    whose draws are all the same, and a scene that holds the pipelines
    created. *)
Lemma X14_draws_fetch_what_was_bound_witness :
  let model := {| Commands.vertices_buffer := 20;
                  Commands.indices_buffer := 21;
                  Commands.indexCount := 36 |} in
  let scene :=
    {| Commands.renderPass := 2; Commands.width := 1280;
       Commands.height := 720; Commands.frameBuffers := [30; 31];
       Commands.pipelineLayout := 1;
       Commands.pipelines :=
         {| Commands.instancedRocksVkPipeline := 10;
            Commands.planetVkPipeline := 11;
            Commands.lightVkPipeline := 12;
            Commands.constructVkPipeline := 13;
            Commands.starfieldVkPipeline := 14 |};
       Commands.descriptorSets :=
         {| instancedRocksVkDescrSet := 40; planetVkDescrSet := 41;
            lightVkDescrSet := 42; constructVkDescrSet := 43 |};
       Commands.models :=
         {| Commands.rockModel := model; Commands.planetModel := model;
            Commands.lightModel := model; Commands.constructModel := model |};
       Commands.instanceBuffer := 50 |} in
  exists g upload rocks,
    Instances.prepareInstanceData
      (Instances.left_to_right Instances.FloatOverloads)
      (Instances.constant_source 0.5 Instances.glibc_RAND_MAX 12345) 6
    = Some (g, upload) /\
    last (Commands.draw_groups (Commands.recordCommandBuffer scene 30 []))
    = Some rocks.
Proof.
  intros model scene.
  destruct (prepareInstanceData_runs
              (Instances.left_to_right Instances.FloatOverloads)
              (Instances.constant_source 0.5 Instances.glibc_RAND_MAX 12345) 6)
    as (g & upload & Hrun & _).
  destruct (X14_draws_fetch_what_was_bound (fun _ => true) String.EmptyString
              VK_SAMPLE_COUNT_4_BIT 44 1 2 10 _ _ scene 30 [] _ _ 6 g upload
              eq_refl eq_refl Hrun) as [_ (rocks & _ & _ & _ & _ & Hlast & _)].
  exists g, upload, rocks. split; [exact Hrun | exact Hlast].
Defined.

(** X15.  [preparePipelines] stops only when the driver refuses a
    description it is handed.  Otherwise it has created five
    pipelines, each from a description the driver accepted, with depth
    test, per-sample shading at a minimum fraction of 0.25 and, except
    for the starfield, back-face culling and depth write: the two
    assignments made for the starfield do not reach the four pipelines
    created before.  Every pipeline rasterises with the sample count of
    the colour and depth attachments that the subpass of the render pass
    built by [setupRenderPass] renders to, and of the two images
    [setupMultisampleTarget] creates. *)
Theorem X15_one_sample_count
    (accepts : VkGraphicsPipelineCreateInfo -> bool)
    (assetPath : String.string) (vertexStride : N)
    (pipelineLayout next : handle)
    (t : RenderPass.Target) (uninit : RenderPass.VkSubpassDependency)
    (limits : VkPhysicalDeviceLimits) (lazy : bool) :
  let pass := RenderPass.setupRenderPass t uninit in
  match preparePipelines accepts assetPath (RenderPass.sampleCount t)
          vertexStride pipelineLayout (RenderPass.renderPass t) next with
  | Aborted => exists info, accepts info = false
  | Completed (pipes, created) =>
      List.length created = 5%nat /\
      forall p info, In (p, info) created ->
        accepts info = true /\
        depthTestEnable (pDepthStencilState info) = true /\
        sampleShadingEnable (pMultisampleState info) = true /\
        minSampleShading (pMultisampleState info) = 0.25%R /\
        (p <> Commands.starfieldVkPipeline pipes ->
         cullMode (pRasterizationState info) = VK_CULL_MODE_BACK_BIT /\
         depthWriteEnable (pDepthStencilState info) = true) /\
        (p = Commands.starfieldVkPipeline pipes ->
         cullMode (pRasterizationState info) = VK_CULL_MODE_NONE /\
         depthWriteEnable (pDepthStencilState info) = false) /\
        (* the attachments the subpass renders to *)
        (forall subpass ref,
           In subpass (RenderPass.subpasses_of pass) ->
           In ref (RenderPass.pColorAttachments subpass) \/
           RenderPass.pDepthStencilAttachment subpass = Some ref ->
           exists a,
             RenderPass.attachments_of pass
               !! N.to_nat (RenderPass.attachment ref) = Some a /\
             RenderPass.samples a
             = sample_bits (rasterizationSamples (pMultisampleState info))) /\
        (* the images of the multisample target *)
        (forall color depth,
           Multisample.setupMultisampleTarget limits (RenderPass.sampleCount t)
             (RenderPass.width t) (RenderPass.height t) lazy
           = Completed (color, depth) ->
           Multisample.target_samples color
           = rasterizationSamples (pMultisampleState info) /\
           Multisample.target_samples depth
           = rasterizationSamples (pMultisampleState info))
  end.
Proof.
  intros pass.
  unfold preparePipelines, vkCreateGraphicsPipelines. cbv zeta.
  repeat match goal with
         | |- context [accepts ?i] =>
             let E := fresh "E" in
             destruct (accepts i) eqn:E;
             cbn [mbind outcome_bind mret outcome_ret];
             [| eexists; exact E]
         end.
  split; [reflexivity|].
  assert (Hpass : forall subpass ref,
             In subpass (RenderPass.subpasses_of pass) ->
             In ref (RenderPass.pColorAttachments subpass) \/
             RenderPass.pDepthStencilAttachment subpass = Some ref ->
             exists a,
               RenderPass.attachments_of pass
                 !! N.to_nat (RenderPass.attachment ref) = Some a /\
               RenderPass.samples a = sample_bits (RenderPass.sampleCount t)).
  { intros subpass ref Hsub Href. subst pass. cbn in Hsub.
    destruct Hsub as [<-|[]].
    cbn [RenderPass.pColorAttachments RenderPass.pDepthStencilAttachment In]
      in Href.
    destruct Href as [[<-|[]]|[= <-]]; eexists; split; reflexivity. }
  assert (Htarget : forall color depth,
             Multisample.setupMultisampleTarget limits (RenderPass.sampleCount t)
               (RenderPass.width t) (RenderPass.height t) lazy
             = Completed (color, depth) ->
             Multisample.target_samples color = RenderPass.sampleCount t /\
             Multisample.target_samples depth = RenderPass.sampleCount t).
  { intros color depth. unfold Multisample.setupMultisampleTarget.
    destruct (Multisample.sample_count_supported limits (RenderPass.sampleCount t));
      [| discriminate].
    intros [= <- <-]. split; reflexivity. }
  intros p info Hin. cbn [In] in Hin.
  cbn [Commands.starfieldVkPipeline].
  destruct Hin as [Hin|[Hin|[Hin|[Hin|[Hin|[]]]]]];
    injection Hin as <- <-;
    (split; [assumption|]);
    cbn [pDepthStencilState pMultisampleState pRasterizationState
         depthTestEnable sampleShadingEnable minSampleShading cullMode
         depthWriteEnable rasterizationSamples polygonMode frontFace
         depthCompareOp];
    (split; [reflexivity|]); (split; [reflexivity|]);
    (split; [reflexivity|]);
    (split; [intros Hne; try (split; reflexivity); exfalso; apply Hne;
             reflexivity|]);
    (split; [intros Heq; try (split; reflexivity); exfalso; lia|]);
    (split; [exact Hpass | exact Htarget]).
Qed.

End PipelineProperties.

(** ** Lifetime of the Vulkan objects *)

Section ResourceProperties.
Import Resources.
Local Open Scope N_scope.

(** Decide an equation between two objects written out. *)
Ltac decide_objects :=
  match goal with
  | |- context [bool_decide (?a = ?b)] =>
      first
        [ rewrite (bool_decide_eq_true_2 (a = b)) by reflexivity
        | rewrite (bool_decide_eq_false_2 (a = b))
            by (let E := fresh in
                intros E; first [discriminate E | injection E; intros; lia]) ]
  end.

Lemma In_destroy (k : Kind) (h : handle) (d : Device) (o : handle * Kind) :
  In o (live (destroy k h d)) <-> In o (live d) /\ o <> (h, k).
Proof.
  unfold destroy. cbn [live]. rewrite filter_In.
  destruct (bool_decide_reflect (o = (h, k))); cbn [negb]; intuition congruence.
Qed.

Lemma In_destroy_assets (e : Example) (d : Device) (o : handle * Kind) :
  In o (live (destroy_assets e d)) <-> In o (live d) /\ ~ In o (assets e).
Proof.
  unfold destroy_assets. generalize (assets e) as l. clear e.
  intros l. revert d. induction l as [|a l IH]; intros d; cbn [foldl In].
  - tauto.
  - rewrite IH, In_destroy. destruct a as [h k]. cbn [fst snd].
    split.
    + intros [[H1 H2] H3]. split; [exact H1|]. intros [E|E]; [congruence | auto].
    + intros [H1 H2]. split; [split; [exact H1|] |]; intros E; apply H2; auto.
Qed.

Lemma destroy_absent (k : Kind) (h : handle) (l : list (handle * Kind)) :
  ~ In (h, k) l ->
  List.filter (fun o => negb (bool_decide (o = (h, k)))) l = l.
Proof.
  intros Hno. induction l as [|a l IH]; [reflexivity|]. cbn [List.filter].
  destruct (bool_decide_reflect (a = (h, k))) as [->|_]; cbn [negb].
  - exfalso. apply Hno. left. reflexivity.
  - rewrite IH; [reflexivity|]. intros H. apply Hno. right. exact H.
Qed.

Lemma fresh_absent (d : Device) (k : Kind) (h : handle) :
  fresh_above d -> next d <= h -> ~ In (h, k) (live d).
Proof.
  unfold fresh_above. rewrite List.Forall_forall. intros Hfresh Hle Hin.
  specialize (Hfresh _ Hin). cbn in Hfresh. lia.
Qed.

(** What a completed [setupMultisampleTarget] leaves: six new objects
    with consecutive handles. *)
Lemma setupMultisampleTarget_completed
    (grants : Kind -> handle -> bool) (limits : VkPhysicalDeviceLimits)
    (sampleCount : VkSampleCountFlagBits) (d d' : Device) (e e' : Example) :
  setupMultisampleTarget grants limits sampleCount d e = Completed (d', e') ->
  let n := next d in
  let t := {| color := {| image := n; view := n + 1 + 1; memory := n + 1 |};
              depth := {| image := n + 1 + 1 + 1;
                          view := n + 1 + 1 + 1 + 1 + 1;
                          memory := n + 1 + 1 + 1 + 1 |} |} in
  e' = set_multisampleTarget t e /\
  live d' = live d ++ target_objects t /\
  next d' = n + 1 + 1 + 1 + 1 + 1 + 1.
Proof.
  unfold setupMultisampleTarget.
  destruct (Multisample.sample_count_supported limits sampleCount);
    [| discriminate].
  unfold create. cbn [live next].
  repeat match goal with
         | |- context [grants ?k ?h] =>
             destruct (grants k h);
             cbn [mbind outcome_bind mret outcome_ret live next];
             [| discriminate]
         end.
  intros [= <- <-]. cbn [live next target_objects color depth image view memory].
  rewrite <- !app_assoc. repeat split.
Qed.

(** What a completed upload leaves: the staging buffer and its memory
    are gone, the instance buffer and its memory are new. *)
Lemma prepareInstanceData_completed
    (grants : Kind -> handle -> bool) (d d' : Device) (e e' : Example) :
  fresh_above d ->
  Resources.prepareInstanceData grants d e = Completed (d', e') ->
  let n := next d in
  let b := {| buffer := n + 1 + 1; buffer_memory := n + 1 + 1 + 1 |} in
  e' = set_instanceBuffer b e /\
  live d' = live d ++ [(buffer b, Buffer); (buffer_memory b, DeviceMemory)] /\
  next d' = n + 1 + 1 + 1 + 1.
Proof.
  intros Hfresh. unfold Resources.prepareInstanceData, createBuffer, create.
  cbn [live next].
  repeat match goal with
         | |- context [grants ?k ?h] =>
             destruct (grants k h);
             cbn [mbind outcome_bind mret outcome_ret live next];
             [| discriminate]
         end.
  intros [= <- <-]. cbn [live next buffer buffer_memory destroy].
  split; [reflexivity|]. split; [| reflexivity].
  rewrite <- !app_assoc. cbn [app].
  rewrite !List.filter_app.
  rewrite !(destroy_absent _ _ (live d))
    by (apply fresh_absent; [exact Hfresh | lia]).
  f_equal. cbn [List.filter].
  repeat (decide_objects; cbn [negb List.filter]).
  reflexivity.
Qed.

Lemma In_destructor (e : Example) (d : Device) (o : handle * Kind) :
  In o (live (destructor e d)) <->
  In o (live d) /\
  ~ In o [ (Commands.instancedRocksVkPipeline (pipelines e), Pipeline);
           (Commands.planetVkPipeline (pipelines e), Pipeline);
           (Commands.lightVkPipeline (pipelines e), Pipeline);
           (Commands.constructVkPipeline (pipelines e), Pipeline);
           (Commands.starfieldVkPipeline (pipelines e), Pipeline);
           (pipelineLayout e, PipelineLayout);
           (descriptorSetLayout e, DescriptorSetLayout);
           (buffer (instanceBuffer e), Buffer);
           (buffer_memory (instanceBuffer e), DeviceMemory) ] /\
  ~ In o (assets e).
Proof.
  unfold destructor. rewrite In_destroy_assets, !In_destroy. cbn [In].
  intuition congruence.
Qed.

(** X18.  On a device whose handles are fresh, a completed
    [setupMultisampleTarget] followed by a completed upload of
    [prepareInstanceData] leaves exactly eight more objects alive, with
    pairwise different handles: the two images, two memories and two
    views of the multisample target and the instance buffer with its
    memory; the staging buffer and its memory are created and destroyed
    inside the upload.  The destructor destroys the instance buffer and
    its memory, and it leaves alive every object of the multisample
    target that is not an asset of a model, a texture or the uniform
    buffer.  A second completed [setupMultisampleTarget] creates six
    further objects; the six of the first call stay alive and are no
    longer named by [multisampleTarget]. *)
Theorem X18_multisample_target_is_never_destroyed
    (grants : Kind -> handle -> bool) (limits : VkPhysicalDeviceLimits)
    (sampleCount : VkSampleCountFlagBits)
    (d0 d1 d2 : Device) (e0 e1 e2 : Example) :
  fresh_above d0 ->
  setupMultisampleTarget grants limits sampleCount d0 e0 = Completed (d1, e1) ->
  Resources.prepareInstanceData grants d1 e1 = Completed (d2, e2) ->
  let target := target_objects (multisampleTarget e2) in
  let instance := [ (buffer (instanceBuffer e2), Buffer);
                    (buffer_memory (instanceBuffer e2), DeviceMemory) ] in
  live d2 = live d0 ++ target ++ instance /\
  NoDup (map fst (target ++ instance)) /\
  (forall o, In o instance -> ~ In o (live (destructor e2 d2))) /\
  (forall o, In o target -> ~ In o (assets e2) ->
             In o (live (destructor e2 d2))) /\
  (forall d3 e3,
     setupMultisampleTarget grants limits sampleCount d2 e2
     = Completed (d3, e3) ->
     live d3 = live d2 ++ target_objects (multisampleTarget e3) /\
     forall o, In o target ->
       In o (live d3) /\ ~ In o (target_objects (multisampleTarget e3))).
Proof.
  intros Hfresh H1 H2 target instance.
  destruct (setupMultisampleTarget_completed _ _ _ _ _ _ _ H1)
    as (He1 & Hl1 & Hn1).
  assert (Hfresh1 : fresh_above d1).
  { unfold fresh_above in *. rewrite Hl1, Hn1. apply Forall_app. split.
    - eapply Forall_impl; [exact Hfresh|]. intros o Ho. cbn beta in *. lia.
    - cbv [target_objects color depth image view memory].
      repeat (constructor; [cbv [fst]; lia|]). constructor. }
  destruct (prepareInstanceData_completed _ _ _ _ _ Hfresh1 H2)
    as (He2 & Hl2 & Hn2).
  subst e1 e2. subst target instance. clear H1 H2.
  rewrite Hn1 in *. set (n := next d0) in *.
  cbv [multisampleTarget instanceBuffer set_instanceBuffer
       set_multisampleTarget pipelines pipelineLayout descriptorSetLayout
       assets buffer buffer_memory
       target_objects color depth image view memory] in *.
  split; [rewrite Hl2, Hl1, <- app_assoc; reflexivity|].
  split; [cbv [map fst app]; nodup_by lia|].
  split.
  { intros o Ho. rewrite In_destructor.
    cbv [instanceBuffer buffer buffer_memory In] in *. tauto. }
  split.
  { intros o Ho Hassets. rewrite In_destructor.
    split; [| split; [| exact Hassets]].
    - rewrite Hl2, Hl1. rewrite !in_app_iff. left. right. exact Ho.
    - cbv [instanceBuffer buffer buffer_memory In pipelines pipelineLayout
           descriptorSetLayout] in *.
      intros Hd.
      repeat (destruct Ho as [<-|Ho];
              [ repeat (destruct Hd as [Hd|Hd];
                        [first [discriminate Hd | injection Hd; intros; lia]|]);
                exact Hd |]).
      exact Ho. }
  intros d3 e3 H3.
  destruct (setupMultisampleTarget_completed _ _ _ _ _ _ _ H3)
    as (He3 & Hl3 & _).
  subst e3. rewrite Hn2 in *.
  cbv [multisampleTarget set_multisampleTarget target_objects color depth
       image view memory] in *.
  split; [exact Hl3|].
  intros o Ho. split.
  - rewrite Hl3, Hl2, Hl1. rewrite !in_app_iff. left. left. right. exact Ho.
  - cbv [In] in *. intros Hd.
    repeat (destruct Ho as [<-|Ho];
            [ repeat (destruct Hd as [Hd|Hd];
                      [first [discriminate Hd | injection Hd; intros; lia]|]);
              exact Hd |]).
    exact Ho.
Qed.

(** The theorem on an empty device whose driver grants everything. *)
Lemma X18_multisample_target_is_never_destroyed_witness :
  exists d1 e1 d2 e2,
    fresh_above {| live := []; next := 1 |} /\
    setupMultisampleTarget (fun _ _ => true)
      {| framebufferColorSampleCounts := 15;
         framebufferDepthSampleCounts := 7 |}
      VK_SAMPLE_COUNT_4_BIT {| live := []; next := 1 |}
      {| multisampleTarget :=
           {| color := {| image := 0; view := 0; memory := 0 |};
              depth := {| image := 0; view := 0; memory := 0 |} |};
         instanceBuffer := {| buffer := 0; buffer_memory := 0 |};
         pipelines :=
           {| Commands.instancedRocksVkPipeline := 0;
              Commands.planetVkPipeline := 0;
              Commands.lightVkPipeline := 0;
              Commands.constructVkPipeline := 0;
              Commands.starfieldVkPipeline := 0 |};
         pipelineLayout := 0; descriptorSetLayout := 0; assets := [] |}
    = Completed (d1, e1) /\
    Resources.prepareInstanceData (fun _ _ => true) d1 e1
    = Completed (d2, e2) /\
    live d2
    = target_objects (multisampleTarget e2)
      ++ [ (buffer (instanceBuffer e2), Buffer);
           (buffer_memory (instanceBuffer e2), DeviceMemory) ].
Proof.
  assert (Hfresh : fresh_above {| live := []; next := 1 |}) by constructor.
  eexists _, _, _, _. split; [exact Hfresh|].
  match goal with
  | |- ?A = ?B /\ ?C = ?D /\ _ =>
      assert (H1 : A = B) by (vm_compute; reflexivity);
      assert (H2 : C = D) by (vm_compute; reflexivity);
      split; [exact H1|]; split; [exact H2|];
      exact (proj1 (X18_multisample_target_is_never_destroyed
                      _ _ _ _ _ _ _ _ _ Hfresh H1 H2))
  end.
Defined.

End ResourceProperties.
